(** * expan.core.experiment: the [Experiment] class

    A shallow embedding of [src/expan/core/experiment.py].  Python
    exceptions are an error monad, [re] calls on the module's two fixed
    patterns are scanners over [string], a pandas frame is an ordered list
    of named, typed columns, the instance [__dict__] is a [gmap], and the
    numeric runtime (numpy float64) together with the collaborators the
    module imports ([statx], [es], [binmodule], [eval]) is an interface.

    The tables modelled: columns of dtype object (strings), float64 and
    int64, with distinct names; the table given to the constructor has
    the default index 0..n-1; variant labels, and the labels the methods
    are called with, are strings.  Division is Python 3's. *)

From Stdlib Require Import ZArith Ascii String Floats.
From stdpp Require Import gmap strings list fin_maps.

Local Open Scope string_scope.

(** ** Exceptions *)

Inductive exn :=
| ValueError (msg : string)
| KeyError (key : string)
| NameError (name : string)
| AttributeError (attr : string)
| TypeError (msg : string)
| IndexError
| NotImplementedError.

Inductive outcome (A : Type) :=
| Return (a : A)
| Raise (e : exn).
Arguments Return {A} a.
Arguments Raise {A} e.

#[global] Instance outcome_ret : MRet outcome := fun A a => Return a.
#[global] Instance outcome_bind : MBind outcome := fun A B k m =>
  match m with
  | Return a => k a
  | Raise e => Raise e
  end.

Definition raises {A} (m : outcome A) : bool :=
  match m with Return _ => false | Raise _ => true end.

(** [for x in xs: body], the bodies' values collected. *)
Fixpoint for_each {A B} (body : A -> outcome B) (xs : list A) : outcome (list B) :=
  match xs with
  | [] => Return []
  | x :: xs' => b ← body x; bs ← for_each body xs'; Return (b :: bs)
  end.

(** [for x in xs: acc = body(acc, x)]. *)
Fixpoint for_fold {A S} (body : S -> A -> outcome S) (acc : S) (xs : list A) : outcome S :=
  match xs with
  | [] => Return acc
  | x :: xs' => acc' ← body acc x; for_fold body acc' xs'
  end.

(** ** The two regular expressions of [__init__]

    [kpiNamePattern] is one group: a letter [a-zA-Z], then any number of
    [0-9a-zA-Z_].  It is used alone (lines 44, 61) and followed by a
    slash (line 62). *)

Module Re.

Definition is_alpha (c : ascii) : bool :=
  let n := nat_of_ascii c in
  (Nat.leb 65 n && Nat.leb n 90) || (Nat.leb 97 n && Nat.leb n 122).

Definition is_digit (c : ascii) : bool :=
  let n := nat_of_ascii c in Nat.leb 48 n && Nat.leb n 57.

(** The class [[0-9a-zA-Z_]]. *)
Definition is_word (c : ascii) : bool :=
  is_digit c || is_alpha c || Ascii.eqb c "_".

(** The greedy star over [[0-9a-zA-Z_]]: the longest run and what follows it. *)
Fixpoint span_word (s : string) : string * string :=
  match s with
  | String c s' =>
      if is_word c then let '(w, r) := span_word s' in (String c w, r)
      else ("", s)
  | EmptyString => ("", "")
  end.

(** A match of the pattern anchored at the head of [s]: group 1 and the
    length of the whole match. *)
Definition matcher := string -> option (string * nat).

Definition kpiNamePattern : matcher := fun s =>
  match s with
  | String c s' =>
      if is_alpha c
      then let w := String c (fst (span_word s')) in Some (w, String.length w)
      else None
  | EmptyString => None
  end.

(** [kpiNamePattern + '/'].  After the greedy run the next character must
    be a slash; giving back characters of the run cannot help, since what
    then follows is a word character. *)
Definition kpiNamePattern_slash : matcher := fun s =>
  match s with
  | String c s' =>
      if is_alpha c
      then match span_word s' with
           | (w, String "/" _) => Some (String c w, S (S (String.length w)))
           | _ => None
           end
      else None
  | EmptyString => None
  end.

Inductive piece := Lit (c : ascii) | Hit (group : string).

(** The leftmost, non-overlapping matches of [m] in [s]: at each position
    try [m]; on a match resume after it ([skip] counts the matched
    characters still to pass), otherwise keep the character. *)
Fixpoint pieces (m : matcher) (skip : nat) (s : string) : list piece :=
  match s with
  | EmptyString => []
  | String c s' =>
      match skip with
      | S k => pieces m k s'
      | O =>
          match m s with
          | Some (grp, len) => Hit grp :: pieces m (Nat.pred len) s'
          | None => Lit c :: pieces m 0 s'
          end
      end
  end.

(** [re.findall(pattern, s)] for a pattern with one group. *)
Definition findall (m : matcher) (s : string) : list string :=
  omap (fun p => match p with Hit g => Some g | Lit _ => None end) (pieces m 0 s).

(** [re.sub(pattern, repl, s)], [repl] a function of group 1. *)
Definition sub (m : matcher) (repl : string -> string) (s : string) : string :=
  foldr (fun p acc => match p with
                      | Hit g => repl g ++ acc
                      | Lit c => String c acc
                      end) "" (pieces m 0 s).

End Re.

(** ** The numeric runtime: numpy float64 *)

Class Float64 := {
  F : Type;
  f_zero : F;                      (* 0.0 *)
  f_one : F;                       (* 1.0 *)
  f_of_Z : Z -> F;                 (* an integer promoted to float64 *)
  f_mul : F -> F -> F;
  f_div : F -> F -> F;
  f_eq0 : F -> bool;               (* x == 0 *)
  f_isnan : F -> bool;             (* np.isnan(x) *)
  np_sum : list F -> F;            (* np.sum over a float64 array *)
  f_nan_ne0 : forall x, f_isnan x = true -> f_eq0 x = false
}.

Section Model.
Context {FL : Float64}.

(** [np.nansum]: the sum of the array with every NaN replaced by 0. *)
Definition np_nansum (x : list F) : F :=
  np_sum (map (fun v => if f_isnan v then f_zero else v) x).

(** Number of [True] in a boolean array ([sum(mask)], [mask.sum()]). *)
Definition count_true {A} (p : A -> bool) (x : list A) : Z :=
  Z.of_nat (length (filter (fun v => p v = true) x)).

(** [np.sum] over an int64 array: the sum wraps around at 64 bits. *)
Definition wrap64 (z : Z) : Z := ((z + 2 ^ 63) mod 2 ^ 64 - 2 ^ 63)%Z.

Definition np_isum (x : list Z) : Z := wrap64 (foldr Z.add 0%Z x).

(** ** pandas frames

    A column is an object column of strings, a float64 column or an int64
    column; a frame is its columns in order.  Selections keep rows in
    frame order. *)

Inductive column :=
| ColStr (l : list string)
| ColNum (l : list F)
| ColInt (l : list Z).

Definition DataFrame := list (string * column).

(** A single value of a column. *)
Inductive scalar :=
| SStr (s : string)
| SNum (x : F)
| SInt (z : Z).

(** What [.loc[label, name]] gives: the bare value when exactly one row
    carries the label, a Series otherwise. *)
Inductive selected :=
| Bare (v : scalar)
| Series (c : column).

(** The value of an evaluated formula or of a weight: a float or a Series. *)
Inductive value :=
| VScalar (x : F)
| VSeries (l : list F).

Definition col_len (c : column) : nat :=
  match c with ColStr l => length l | ColNum l => length l | ColInt l => length l end.

Definition col_scalars (c : column) : list scalar :=
  match c with
  | ColStr l => map SStr l
  | ColNum l => map SNum l
  | ColInt l => map SInt l
  end.

Definition is_object (c : column) : bool :=
  match c with ColStr _ => true | _ => false end.

Definition is_float64 (c : column) : bool :=
  match c with ColNum _ => true | _ => false end.

Definition nrows (df : DataFrame) : nat :=
  match df with [] => 0 | (_, c) :: _ => col_len c end.

Definition columns (df : DataFrame) : list string := df.*1.

(** [df[name]], [df.name]. *)
Fixpoint get_col (df : DataFrame) (name : string) : option column :=
  match df with
  | [] => None
  | (n, c) :: df' => if String.eqb n name then Some c else get_col df' name
  end.

(** [name in df]. *)
Definition has_col (df : DataFrame) (name : string) : bool :=
  bool_decide (is_Some (get_col df name)).

(** [df.iloc[:, i]] and [df.columns[i]]. *)
Definition iloc (df : DataFrame) (i : nat) : outcome (string * column) :=
  match df !! i with Some nc => Return nc | None => Raise IndexError end.

(** [df.loc[:, name] = c]: an existing column is replaced in place, a new
    one is added last. *)
Fixpoint set_col (df : DataFrame) (name : string) (c : column) : DataFrame :=
  match df with
  | [] => [(name, c)]
  | (n, c0) :: df' =>
      if String.eqb n name then (n, c) :: df' else (n, c0) :: set_col df' name c
  end.

(** [del df[name]] seen from the remaining columns. *)
Definition drop_col (df : DataFrame) (name : string) : DataFrame :=
  filter (fun nc => nc.1 <> name) df.

(** Selection by a boolean mask, [xs[mask]]. *)
Fixpoint mask_filter {A} (mask : list bool) (xs : list A) : list A :=
  match mask, xs with
  | b :: mask', x :: xs' => if b then x :: mask_filter mask' xs' else mask_filter mask' xs'
  | _, _ => []
  end.

Definition mask_col (mask : list bool) (c : column) : column :=
  match c with
  | ColStr l => ColStr (mask_filter mask l)
  | ColNum l => ColNum (mask_filter mask l)
  | ColInt l => ColInt (mask_filter mask l)
  end.

Definition mask_frame (mask : list bool) (df : DataFrame) : DataFrame :=
  map (fun nc => (nc.1, mask_col mask nc.2)) df.

(** The string labels held by a column: the values of an object column.
    No value of a numeric column is a string; the numbers such a column
    holds as labels are outside the model, so that what is said of the
    variants of a table is said of a table whose variant column is an
    object column. *)
Definition col_labels (c : column) : list string :=
  match c with ColStr l => l | ColNum _ | ColInt _ => [] end.

(** [col == label] for a string [label], element-wise: no number equals
    a string. *)
Definition col_eq (c : column) (label : string) : list bool :=
  match c with
  | ColStr l => map (String.eqb label) l
  | ColNum l => map (fun _ => false) l
  | ColInt l => map (fun _ => false) l
  end.

(** [Series.unique()]: distinct values in order of first appearance. *)
Fixpoint unique {A} `{EqDecision A} (l : list A) : list A :=
  match l with
  | [] => []
  | x :: l' => x :: filter (fun y => y <> x) (unique l')
  end.

(** [df[[n1, ..., nk]]]. *)
Definition select (df : DataFrame) (names : list string) : outcome DataFrame :=
  for_each (fun n => match get_col df n with
                     | Some c => Return (n, c)
                     | None => Raise (KeyError n)
                     end) names.

(** Modelled from the spec: [expan.core.util.getColumnNamesByType] is not
    part of the source given; the spec says the reported KPIs default to
    all floating-point columns. *)
Definition getColumnNamesByType_float64 (df : DataFrame) : list string :=
  omap (fun nc => match nc.2 with ColNum _ => Some nc.1 | _ => None end) df.

(** A numeric column as float64 values, as arithmetic with a float makes
    it; a column of strings is a TypeError there. *)
Definition floats (c : column) : outcome (list F) :=
  match c with
  | ColNum l => Return l
  | ColInt l => Return (map f_of_Z l)
  | ColStr _ => Raise (TypeError "not numeric")
  end.

Definition scalar_float (v : scalar) : outcome F :=
  match v with
  | SNum x => Return x
  | SInt z => Return (f_of_Z z)
  | SStr _ => Raise (TypeError "not numeric")
  end.

(** [df.reset_index()] on a frame with the default index: the old index
    becomes the first column, named [index], or [level_0] when there is
    a column [index] already; an existing column of the chosen name is a
    ValueError. *)
Definition range_index (n : nat) : column := ColInt (map Z.of_nat (seq 0 n)).

Definition reset_index (df : DataFrame) : outcome DataFrame :=
  let name := if has_col df "index" then "level_0" else "index" in
  if has_col df name
  then Raise (ValueError ("cannot insert " ++ name ++ ", already exists"))
  else Return ((name, range_index (nrows df)) :: df).

(** A row taken across the columns has their common dtype: an int64
    value of it is read as float64 when no column is an object column
    and one is float64. *)
Definition row_value (cols : DataFrame) (v : scalar) : scalar :=
  match v with
  | SInt z =>
      if forallb (fun nc => negb (is_object nc.2)) cols && existsb (fun nc => is_float64 nc.2) cols
      then SNum (f_of_Z z) else SInt z
  | _ => v
  end.

(** [frame.loc[label, name]] on a frame whose index holds [labels] and
    whose columns are [cols].  With a unique index the value is read
    from the column, which is looked up first.  Otherwise the label is
    looked up first; a label on one row gives that row, and the value of
    it; a label on several rows gives their values of the column. *)
Definition loc (labels : list string) (cols : DataFrame) (label name : string)
    : outcome selected :=
  let mask := map (String.eqb label) labels in
  if bool_decide (NoDup labels) then
    match get_col cols name with
    | None => Raise (KeyError name)
    | Some c =>
        match col_scalars (mask_col mask c) with
        | v :: _ => Return (Bare v)
        | [] => Raise (KeyError label)
        end
    end
  else if bool_decide (label ∈ labels) then
    match get_col cols name with
    | None => Raise (KeyError name)
    | Some c =>
        match filter (fun l => l = label) labels, col_scalars (mask_col mask c) with
        | [_], v :: _ => Return (Bare (row_value cols v))
        | [_], [] => Raise IndexError
        | _, _ => Return (Series (mask_col mask c))
        end
    end
  else Raise (KeyError label).

(** ** The collaborators the module calls

    [eval], [expan.core.statistics] ([statx]), [expan.core.early_stopping]
    ([es]) and [expan.core.binning] ([binmodule]) are outside the source
    given; the module uses them through these operations. *)

Class Host := {
  (* eval(text) where the only free name of [text] is [self.data] *)
  py_eval : string -> DataFrame -> outcome value;
  (* statx, es: each maker returns the delta worker, called as worker(x=, y=) *)
  DS : Type;
  WorkerArgs : Type;
  make_delta : WorkerArgs -> list F -> list F -> DS;
  make_group_sequential : WorkerArgs -> list F -> list F -> DS;
  make_bayes_factor : WorkerArgs -> list F -> list F -> DS;
  make_bayes_precision : WorkerArgs -> list F -> list F -> DS;
  (* a worker called with a bare float for x or y *)
  scalar_call : (list F -> list F -> DS) -> value -> value -> outcome DS;
  (* the arguments of the positional call make_delta(assume_normal,
     percentiles, min_observations, nruns, relative) *)
  delta_args : bool -> list F -> Z -> Z -> bool -> WorkerArgs;
  chi_square : column -> column -> F;
  sample_size : column -> Z;
  (* binmodule *)
  Binning : Type;
  Label : Type;
  Label_eq_dec :: EqDecision Label;
  create_binning : column -> Z -> Binning;
  NumericalBinning : column -> Binning;      (* uppers = lowers = tpoints, closed *)
  is_NumericalBinning : Binning -> bool;     (* type(binning) == NumericalBinning *)
  binning_label : Binning -> column -> string -> list Label;
  label_eq : Label -> Label -> bool;         (* == on bin labels *)
  label_le : Label -> Label -> bool;         (* <= on bin labels *)
  np_unique : column -> column;
  (* what the helpers of expan.core.results build *)
  Block : Type
}.

Context {HO : Host}.

Definition Worker : Type := list F -> list F -> DS.

(** ** Instances

    An instance is its [__dict__]: the attributes assigned so far. *)

Record DerivedKpi := { name : string; formula : string }.

Inductive attr :=
| AFrame (df : DataFrame)                    (* a frame with the default index *)
| AIndexed (levels cols : DataFrame)         (* a frame with named index levels *)
| ADict (d : gmap string string)
| ANames (l : list string)
| ANameSet (s : gset string)
| AStr (s : string)
| ASpecs (l : list DerivedKpi)
| ANone.

Abbreviation obj := (gmap string attr).

(** [self.a]: the class [Experiment] defines methods only, so a data
    attribute is found in the instance or not at all. *)
Definition getattr (self : obj) (a : string) : outcome attr :=
  match self !! a with
  | Some v => Return v
  | None => Raise (AttributeError a)
  end.

Definition as_frame (v : attr) : outcome DataFrame :=
  match v with AFrame df => Return df | _ => Raise (TypeError "not a DataFrame") end.
Definition as_dict (v : attr) : outcome (gmap string string) :=
  match v with ADict d => Return d | _ => Raise (TypeError "not a dict") end.
Definition as_names (v : attr) : outcome (list string) :=
  match v with ANames l => Return l | _ => Raise (TypeError "not a list") end.
Definition as_set (v : attr) : outcome (gset string) :=
  match v with ANameSet s => Return s | _ => Raise (TypeError "not a set") end.

(** [frame.index.names]: the default index has no name. *)
Definition index_names (v : attr) : outcome (list string) :=
  match v with
  | AFrame _ => Return []
  | AIndexed levels _ => Return (columns levels)
  | _ => Raise (AttributeError "index")
  end.

(** [frame.reset_index()]: the index levels become the first columns, in
    order, the last level inserted first; a level named like a column is
    a ValueError. *)
Definition insert_level (acc : outcome DataFrame) (level : string * column)
    : outcome DataFrame :=
  df ← acc;
  if has_col df level.1
  then Raise (ValueError ("cannot insert " ++ level.1 ++ ", already exists"))
  else Return (level :: df).

Definition reset_index_of (v : attr) : outcome DataFrame :=
  match v with
  | AFrame df => reset_index df
  | AIndexed levels cols => foldr (fun level acc => insert_level acc level) (Return cols) levels
  | _ => Raise (AttributeError "reset_index")
  end.
Definition as_str (v : attr) : outcome string :=
  match v with AStr s => Return s | _ => Raise (TypeError "not a str") end.

Definition value_col (n : nat) (v : value) : column :=
  match v with
  | VScalar x => ColNum (replicate n x)
  | VSeries l => ColNum l
  end.

(** Lines 60-62, one derived KPI. *)
Definition add_derived_kpi (self : obj) (k : DerivedKpi) : outcome obj :=
  data ← getattr self "data" ≫= as_frame;
  v ← py_eval (Re.sub Re.kpiNamePattern
                 (fun g => "self.data." ++ g ++ ".astype(float)") (formula k)) data;
  let self := <["data" := AFrame (set_col data (name k) (value_col (nrows data) v))]> self in
  refs ← getattr self "referenceKpis" ≫= as_dict;
  Return (<["referenceKpis" :=
             ADict (<[name k := Re.sub Re.kpiNamePattern_slash (fun _ => "") (formula k)]> refs)]> self).

(** The loop of line 60: the instance as the loop leaves it, and how it ended. *)
Fixpoint add_derived_kpis (self : obj) (ks : list DerivedKpi) : obj * outcome () :=
  match ks with
  | [] => (self, Return ())
  | k :: ks' =>
      match add_derived_kpi self k with
      | Return self' => add_derived_kpis self' ks'
      | Raise e => (self, Raise e)
      end
  end.

(** Lines 40-45: the columns expected in the input frame. *)
Definition requiredColumnNames (reportKpiNames : list string)
    (derivedKpis : list DerivedKpi) : gset string :=
  foldl (fun req f => req ∪ list_to_set (Re.findall Re.kpiNamePattern f))
        ((list_to_set reportKpiNames ∪ list_to_set ["entity"; "variant"])
           ∖ list_to_set (map name derivedKpis))
        (map formula derivedKpis).

(** [reportKpiNames or getColumnNamesByType(data, np.float64)]. *)
Definition reportKpiNames_or (reportKpiNames : option (list string)) (data : DataFrame) : list string :=
  match reportKpiNames with
  | Some (k :: ks) => k :: ks
  | _ => getColumnNamesByType_float64 data
  end.

(** [Experiment.__init__] run on the instance [self]: the instance as the
    call leaves it, and how the call ended.  A Python set is iterated in
    an order the language does not fix; [elements] is one such order. *)
Definition __init__ (self : obj) (controlVariantName : string) (data : DataFrame)
    (metadata : gmap string string) (reportKpiNames : option (list string))
    (derivedKpis : list DerivedKpi) : obj * outcome () :=
  let reportKpiNames := reportKpiNames_or reportKpiNames data in
  let required := requiredColumnNames reportKpiNames derivedKpis in
  match List.find (fun c => negb (has_col data c)) (elements required) with
  | Some c => (self, Raise (ValueError ("No column " ++ c ++ " provided")))
  | None =>
      let self := <["data" := AFrame data]> self in
      let self := <["metadata" := ADict metadata]> self in
      let self := <["reportKpiNames" := ANames reportKpiNames]> self in
      let self := <["derivedKpis" := ASpecs derivedKpis]> self in
      match get_col data "variant" with
      | None => (self, Raise (AttributeError "variant"))
      | Some v =>
          let self := <["variantNames" :=
                         ANames (elements (list_to_set (col_labels v) : gset string))]> self in
          let self := <["controlVariantName" := AStr controlVariantName]> self in
          let self := <["referenceKpis" := ADict ∅]> self in
          add_derived_kpis self derivedKpis
      end
  end.

(** [Experiment(...)]: [__init__] on a fresh instance; the caller receives
    the instance only when [__init__] returns. *)
Definition Experiment (controlVariantName : string) (data : DataFrame)
    (metadata : gmap string string) (reportKpiNames : option (list string))
    (derivedKpis : list DerivedKpi) : outcome obj :=
  match __init__ ∅ controlVariantName data metadata reportKpiNames derivedKpis with
  | (self, Return _) => Return self
  | (_, Raise e) => Raise e
  end.

(** [self.data.reset_index().set_index('variant').loc[variant, name]],
    line 67.  [set_index] takes the variant column out of the columns,
    a KeyError when there is none. *)
Definition getKPIbyNameAndVariant (self : obj) (name variant : string) : outcome selected :=
  data ← getattr self "data" ≫= as_frame;
  data ← reset_index data;
  match get_col data "variant" with
  | None => Raise (KeyError "variant")
  | Some v => loc (col_labels v) (drop_col data "variant") variant name
  end.

(** [__str__], lines 70-80.  The local [res] is bound nowhere before
    [res += ...] reads it: UnboundLocalError, a NameError. *)
Definition __str__ (self : obj) : outcome string :=
  variants ← getattr self "variant_names";
  Raise (NameError "res").

(** [_getWeights], lines 84-91.  [sum(x == 0)] iterates over [x == 0],
    a single bool when [x] is a bare value; [np.isnan] is not defined on
    an object Series; an int64 Series holds no NaN, its sum wraps around
    and the quotient of the two integers is a float. *)
Definition _getWeights (self : obj) (kpi variant : string) : outcome value :=
  referenceKpis ← getattr self "referenceKpis" ≫= as_dict;
  match referenceKpis !! kpi with
  | None => Return (VScalar f_one)
  | Some referenceKpi =>
      x ← getKPIbyNameAndVariant self referenceKpi variant;
      match x with
      | Bare _ => Raise (TypeError "object is not iterable")
      | Series (ColStr _) => Raise (TypeError "isnan")
      | Series (ColNum x) =>
          let zerosAndNans := (count_true f_eq0 x + count_true f_isnan x)%Z in
          let nonZeros := (Z.of_nat (length x) - zerosAndNans)%Z in
          Return (VSeries (map (f_mul (f_div (f_of_Z nonZeros) (np_nansum x))) x))
      | Series (ColInt x) =>
          let zerosAndNans := (count_true (Z.eqb 0) x + 0)%Z in
          let nonZeros := (Z.of_nat (length x) - zerosAndNans)%Z in
          Return (VSeries (map (fun z => f_mul (f_div (f_of_Z nonZeros) (f_of_Z (np_isum x)))
                                               (f_of_Z z)) x))
      end
  end.

(** [values * weight]: a bare value or a Series, by the float or
    element-wise by a Series over the same rows; the product is float64. *)
Definition times (t : selected) (w : value) : outcome value :=
  match t, w with
  | Bare v, VScalar a => x ← scalar_float v; Return (VScalar (f_mul x a))
  | Bare v, VSeries ws => x ← scalar_float v; Return (VSeries (map (f_mul x) ws))
  | Series c, VScalar a => l ← floats c; Return (VSeries (map (fun t => f_mul t a) l))
  | Series c, VSeries ws => l ← floats c; Return (VSeries (zip_with f_mul l ws))
  end.

(** [worker(x=..., y=...)]: on two Series the worker of the model; with a
    bare float among them what the collaborator does. *)
Definition call_worker (worker : Worker) (x y : value) : outcome DS :=
  match x, y with
  | VSeries xs, VSeries ys => Return (worker xs ys)
  | _, _ => scalar_call worker x y
  end.

Definition workerTable (method : string) : option (WorkerArgs -> Worker) :=
  if String.eqb method "fixed_horizon" then Some make_delta
  else if String.eqb method "group_sequential" then Some make_group_sequential
  else if String.eqb method "bayes_factor" then Some make_bayes_factor
  else if String.eqb method "bayes_precision" then Some make_bayes_precision
  else None.

Record DeltaEntry := {
  controlVariant : string;
  treatmentVariant : string;
  deltaStatistics : DS
}.

(** Lines 111-117: the inner loop, filling [result[kpi]]. *)
Definition delta_variant (self : obj) (worker : Worker) (kpi controlVariantName : string)
    (control : selected) (controlWeight : value)
    (inner : gmap string DeltaEntry) (variant : string) : outcome (gmap string DeltaEntry) :=
  treatment ← getKPIbyNameAndVariant self kpi variant;
  treatmentWeight ← _getWeights self kpi variant;
  x ← times treatment treatmentWeight;
  y ← times control controlWeight;
  ds ← call_worker worker x y;
  Return (<[variant := {| controlVariant := controlVariantName;
                          treatmentVariant := variant;
                          deltaStatistics := ds |}]> inner).

(** Lines 107-117: the outer loop body. *)
Definition delta_kpi (self : obj) (worker : Worker)
    (result : gmap string (gmap string DeltaEntry)) (kpi : string)
    : outcome (gmap string (gmap string DeltaEntry)) :=
  controlVariantName ← getattr self "controlVariantName" ≫= as_str;
  control ← getKPIbyNameAndVariant self kpi controlVariantName;
  controlWeight ← _getWeights self kpi controlVariantName;
  variantNames ← getattr self "variantNames" ≫= as_names;
  inner ← for_fold (delta_variant self worker kpi controlVariantName control controlWeight)
                   ∅ variantNames;
  Return (<[kpi := inner]> result).

(** [Experiment.delta], lines 93-119. *)
Definition delta (self : obj) (method : string) (workerArgs : WorkerArgs)
    : outcome (gmap string (gmap string DeltaEntry)) :=
  match workerTable method with
  | None => Raise NotImplementedError
  | Some make =>
      let worker := make workerArgs in
      reportKpiNames ← getattr self "reportKpiNames" ≫= as_names;
      for_fold (delta_kpi self worker) ∅ reportKpiNames
  end.

(** ** Below the banner of line 121: [feature_check], [sga], [trend]

    The names [Results], [delta_to_dataframe_all_variants] and
    [feature_check_to_dataframe] belong to [expan.core.results], whose
    import is commented out (lines 13-15).  A module namespace records
    which of them are bound; [module_globals] is the namespace of the
    file as it stands. *)

(** A long-format result frame: the names of its index levels, the value
    set on the [subgroup_metric] level, and one block of statistics per
    (variant, bin). *)
Record Table := {
  t_levels : list string;
  t_subgroup_metric : option string;
  t_rows : list (string * option Label * Block)
}.

Inductive meta_arg :=
| MetaDict (d : gmap string string)         (* metadata=self.metadata *)
| MetaBinning (b : Binning).                (* {'binning': binning} *)

(** Modelled from the spec: a [Results] object is a result table (absent
    when empty) with a metadata mapping that has a warnings channel and
    the binning applied. *)
Record ResultsObj := {
  res_df : option Table;
  res_user : gmap string string;
  res_binning : option Binning;
  res_warnings : option (gmap string string)   (* metadata['warnings'] *)
}.

Inductive FCStats :=
| FCNumerical (ds : DS)
| FCCategorical (samplesize : Z) (pval : F).

Record Globals := {
  Results : option (option Table -> meta_arg -> ResultsObj);
  delta_to_dataframe_all_variants : option (string -> DS -> Block);
  feature_check_to_dataframe : option (string -> FCStats -> Block)
}.

Definition module_globals : Globals :=
  {| Results := None;
     delta_to_dataframe_all_variants := None;
     feature_check_to_dataframe := None |}.

(** A global name read at run time. *)
Definition global {A} (binding : option A) (name : string) : outcome A :=
  match binding with
  | Some v => Return v
  | None => Raise (NameError name)
  end.

Definition empty_table : Table :=
  {| t_levels := []; t_subgroup_metric := None; t_rows := [] |}.

(** [a.append(b)]. *)
Definition table_append (a b : Table) : Table :=
  {| t_levels := match t_levels a with [] => t_levels b | l => l end;
     t_subgroup_metric := match t_subgroup_metric a with
                          | None => t_subgroup_metric b
                          | Some m => Some m
                          end;
     t_rows := t_rows a ++ t_rows b |}.

(** [pd.concat([a, b])]: absent frames are dropped, all absent is an error. *)
Definition pd_concat (a b : option Table) : outcome Table :=
  match a, b with
  | None, None => Raise (ValueError "All objects passed were None")
  | Some t, None | None, Some t => Return t
  | Some t, Some u => Return (table_append t u)
  end.

Definition with_levels (t : Table) (l : list string) : Table :=
  {| t_levels := l; t_subgroup_metric := t_subgroup_metric t; t_rows := t_rows t |}.

(** [index.swaplevel(i, j)]. *)
Definition swaplevel (i j : nat) (t : Table) : outcome Table :=
  match t_levels t !! i, t_levels t !! j with
  | Some a, Some b => Return (with_levels t (<[i := b]> (<[j := a]> (t_levels t))))
  | _, _ => Raise IndexError
  end.

(** [index.set_names(n, level=i, inplace=True)]. *)
Definition set_names (n : string) (i : nat) (t : Table) : outcome Table :=
  match t_levels t !! i with
  | Some _ => Return (with_levels t (<[i := n]> (t_levels t)))
  | None => Raise IndexError
  end.

(** [reset_index(n, drop=True, inplace=True)]. *)
Definition drop_level (n : string) (t : Table) : outcome Table :=
  if bool_decide (n ∈ t_levels t)
  then Return (with_levels t (filter (fun l => l <> n) (t_levels t)))
  else Raise (KeyError n).

(** [index.set_levels(levels=[v], level=n, inplace=True)]. *)
Definition set_levels (v n : string) (t : Table) : outcome Table :=
  if bool_decide (n ∈ t_levels t)
  then Return {| t_levels := t_levels t; t_subgroup_metric := Some v; t_rows := t_rows t |}
  else Raise (KeyError n).

(** The frame of [_binned_deltas] once line 483 has added [_tmp_bin_]:
    the three columns given, and the bin label of every row. *)
Record Binned := { b_frame : DataFrame; b_bins : list Label }.

(** [f[mask]]. *)
Definition where_ (mask : list bool) (f : Binned) : Binned :=
  {| b_frame := mask_frame mask (b_frame f); b_bins := mask_filter mask (b_bins f) |}.

Definition levels7 : list string :=
  ["variant"; "_tmp_bin_"; "metric"; "subgroup_metric"; "subgroup"; "statistic"; "pctile"].

(** Lines 493-504: one turn of the loop over the variants of [f]. *)
Definition do_delta_variant (g : Globals) (deltaWorker : Worker) (kpi : string * column)
    (c0 : column) (baseline_metric : column) (bin_name : Label)
    (out_df : Table) (v : string) : outcome Table :=
  let v_metric := mask_col (col_eq c0 v) kpi.2 in
  to_df ← global (delta_to_dataframe_all_variants g) "delta_to_dataframe_all_variants";
  x ← floats v_metric;
  y ← floats baseline_metric;
  let df := {| t_levels := levels7; t_subgroup_metric := None;
               t_rows := [(v, Some bin_name, to_df kpi.1 (deltaWorker x y))] |} in
  Return (table_append out_df df).

(** [do_delta(f, bin_name)], lines 487-505. *)
Definition do_delta (g : Globals) (variants : list string) (deltaWorker : Worker)
    (f : Binned) (bin_name : Label) : outcome Table :=
  kpi ← iloc (b_frame f) 2;
  c0 ← iloc (b_frame f) 0;
  baseline ← match variants !! 1 with Some b => Return b | None => Raise IndexError end;
  let baseline_metric := mask_col (col_eq c0.2 baseline) kpi.2 in
  vs ← match get_col (b_frame f) "variant" with
       | Some c => Return (unique (col_labels c))
       | None => Raise (KeyError "variant")
       end;
  for_fold (do_delta_variant g deltaWorker kpi c0.2 baseline_metric bin_name) empty_table vs.

(** Lines 510-514: [df[df['_tmp_bin_'] == bin]] or [df[df['_tmp_bin_'] <= bin]]. *)
Definition bin_subset (cumulative : bool) (df : Binned) (bin : Label) : Binned :=
  where_ (map (fun l => if cumulative then label_le l bin else label_eq l bin) (b_bins df)) df.

(** Lines 508-514, for any per-bin function in the place of [do_delta]. *)
Definition bins_loop (per_bin : Binned -> Label -> outcome Table) (cumulative : bool)
    (df : Binned) : outcome Table :=
  for_fold (fun result bin =>
              t ← per_bin (bin_subset cumulative df bin) bin;
              Return (table_append result t))
           empty_table (unique (b_bins df)).

(** Lines 516-524: [unstack(0)], the two [swaplevel]s, and the [Results]
    object that holds the table and the binning. *)
Definition wrap_result (g : Globals) (binning : Binning) (result : Table) : outcome ResultsObj :=
  let result := with_levels result (tail (t_levels result)) in
  result ← swaplevel 0 2 result;
  result ← swaplevel 0 1 result;
  new ← global (Results g) "Results";
  Return (new (Some result) (MetaBinning binning)).

(** [_binned_deltas], lines 450-524.  [df] is the frame of three columns
    (variant, binning source, kpi). *)
Definition _binned_deltas (g : Globals) (df : DataFrame) (variants : list string)
    (n_bins : Z) (binning : option Binning) (cumulative : bool)
    (label_format_str : string) (deltaWorker : Worker) : outcome ResultsObj :=
  binning ← match binning with
            | Some b => Return b
            | None => src ← iloc df 1; Return (create_binning src.2 n_bins)
            end;
  if cumulative && negb (is_NumericalBinning binning)
  then Raise (ValueError "Cannot calculate cumulative deltas for non-numerical binnings")
  else
    src ← iloc df 1;
    let binned := {| b_frame := df; b_bins := binning_label binning src.2 label_format_str |} in
    result ← bins_loop (do_delta g variants deltaWorker) cumulative binned;
    wrap_result g binning result.

(** [result.df] of a [Results] object holding no frame is [None]. *)
Definition the_df (r : ResultsObj) : outcome Table :=
  match res_df r with
  | Some t => Return t
  | None => Raise (AttributeError "index")
  end.

Definition with_df (r : ResultsObj) (t : option Table) : ResultsObj :=
  {| res_df := t; res_user := res_user r; res_binning := res_binning r;
     res_warnings := res_warnings r |}.

(** [_time_dependent_deltas], lines 365-411. *)
Definition _time_dependent_deltas (g : Globals) (df : DataFrame) (variants : list string)
    (time_step : Z) (cumulative : bool) (deltaWorker : Worker) : outcome ResultsObj :=
  t ← iloc df 1;
  let tpoints := np_unique t.2 in
  let binning := NumericalBinning tpoints in
  result ← _binned_deltas g df variants 4 (Some binning) cumulative "{mid}" deltaWorker;
  tbl ← the_df result;
  tbl ← set_names "time" 2 tbl;
  Return (with_df result (Some tbl)).

(** [_subgroup_deltas], lines 414-447. *)
Definition _subgroup_deltas (g : Globals) (df : DataFrame) (variants : list string)
    (n_bins : Z) (deltaWorker : Worker) : outcome ResultsObj :=
  result ← _binned_deltas g df variants n_bins None false "{standard}" deltaWorker;
  tbl ← the_df result;
  tbl ← drop_level "subgroup" tbl;
  tbl ← set_names "subgroup" 2 tbl;
  feature ← iloc df 1;
  tbl ← set_levels feature.1 "subgroup_metric" tbl;
  Return (with_df result (Some tbl)).

(** [_feature_check_all_variants], lines 337-362.  [groupby('variant')]
    gives one group per distinct variant; the order of the groups is not
    modelled. *)
Definition _feature_check_all_variants (g : Globals) (metric_df : DataFrame)
    (baseline_variant : string) (deltaWorker : Worker) : outcome Table :=
  metric ← iloc metric_df 2;
  variant ← match get_col metric_df "variant" with
            | Some c => Return c
            | None => Raise (AttributeError "variant")
            end;
  let baseline_metric := mask_col (col_eq variant baseline_variant) metric.2 in
  let group v := mask_col (col_eq variant v) metric.2 in
  let do_delta_numerical v : outcome (string * option Label * Block) :=
    x ← floats (group v);
    y ← floats baseline_metric;
    let ds := deltaWorker x y in
    to_df ← global (feature_check_to_dataframe g) "feature_check_to_dataframe";
    Return (v, None, to_df metric.1 (FCNumerical ds)) in
  let do_delta_categorical v : outcome (string * option Label * Block) :=
    let pval := chi_square (group v) baseline_metric in
    let ss_x := sample_size (group v) in
    to_df ← global (feature_check_to_dataframe g) "feature_check_to_dataframe";
    Return (v, None, to_df metric.1 (FCCategorical ss_x pval)) in
  rows ← for_each (match metric.2 with
                   | ColNum _ | ColInt _ => do_delta_numerical
                   | ColStr _ => do_delta_categorical
                   end) (unique (col_labels variant));
  Return {| t_levels := []; t_subgroup_metric := None; t_rows := rows |}.

(** The value of an optional argument, or an attribute of the instance. *)
Definition default_to {A} (arg : option A) (self : obj) (a : string)
    (as_ : attr -> outcome A) : outcome A :=
  match arg with
  | Some v => Return v
  | None => getattr self a ≫= as_
  end.

Definition is_None (v : attr) : bool :=
  match v with ANone => true | _ => false end.

(** The [variant_subset] argument: the list its docstring names, or the
    set that line 238 needs; [variant_names] may hold either, or
    something else. *)
Inductive pyseq :=
| PyList (l : list string)
| PySet (s : gset string)
| PyOther.

Definition as_seq (v : attr) : outcome pyseq :=
  match v with
  | ANames l => Return (PyList l)
  | ANameSet s => Return (PySet s)
  | _ => Return PyOther
  end.

(** [variant_subset - set([self.baseline_variant])], lines 238 and 314:
    the set is built first, a TypeError for a value that cannot be
    hashed; a list has no difference with a set. *)
Definition minus_baseline (variant_subset : pyseq) (baseline : attr) : outcome (gset string) :=
  single ← match baseline with
           | AStr b => Return ({[ b ]} : gset string)
           | ANone => Return ∅
           | _ => Raise (TypeError "unhashable type")
           end;
  match variant_subset with
  | PySet s => Return (s ∖ single)
  | _ => Raise (TypeError "unsupported operand type(s) for -")
  end.

(** [feature_check], lines 125-181. *)
Definition feature_check (g : Globals) (self : obj)
    (feature_subset : option (list string)) (variant_subset : option pyseq)
    (threshold : F) (percentiles : list F) (assume_normal : bool)
    (min_observations nruns : Z) (relative : bool) : outcome ResultsObj :=
  new ← global (Results g) "Results";
  metadata ← getattr self "metadata" ≫= as_dict;
  let res := new None (MetaDict metadata) in
  features ← getattr self "features";
  if is_None features then Return res
  else
    feature_subset ← default_to feature_subset self "feature_names" as_names;
    variant_subset ← default_to variant_subset self "variant_names" as_seq;
    let deltaWorker :=
      make_delta (delta_args assume_normal percentiles min_observations nruns relative) in
    for_fold (fun res feature =>
                features ← getattr self "features" ≫= reset_index_of;
                metric_df ← select features ["entity"; "variant"; feature];
                baseline_variant ← getattr self "baseline_variant" ≫= as_str;
                df ← _feature_check_all_variants g metric_df baseline_variant deltaWorker;
                Return (with_df res (Some (match res_df res with
                                           | None => df
                                           | Some t => table_append t df
                                           end))))
             res feature_subset.

(** [sga], lines 184-254.  The [binning] argument is not used by the body. *)
Definition sga (g : Globals) (self : obj)
    (feature_subset kpi_subset : option (list string)) (variant_subset : option pyseq)
    (n_bins : Z) (assume_normal : bool) (percentiles : list F)
    (min_observations nruns : Z) (relative : bool) : outcome ResultsObj :=
  new ← global (Results g) "Results";
  metadata ← getattr self "metadata" ≫= as_dict;
  let res := new None (MetaDict metadata) in
  metrics ← getattr self "metrics";
  if is_None metrics then Return res
  else
    kpi_subset ← default_to kpi_subset self "kpi_names" as_names;
    feature_subset ← default_to feature_subset self "feature_names" as_names;
    variant_subset ← default_to variant_subset self "variant_names" as_seq;
    (* line 238: the difference is computed and not read again *)
    baseline_variant ← getattr self "baseline_variant";
    variant_subset ← minus_baseline variant_subset baseline_variant;
    let deltaWorker :=
      make_delta (delta_args assume_normal percentiles min_observations nruns relative) in
    for_fold (fun res kpi =>
      for_fold (fun res feature =>
                  metrics ← getattr self "metrics" ≫= reset_index_of;
                  df ← select metrics ["variant"; feature; kpi];
                  baseline_variant ← getattr self "baseline_variant" ≫= as_str;
                  sub ← _subgroup_deltas g df ["dummy"; baseline_variant] n_bins deltaWorker;
                  t ← pd_concat (res_df res) (res_df sub);
                  Return (with_df res (Some t)))
               res feature_subset)
      res kpi_subset.

(** The two early returns of [trend]: the warning is put under
    [metadata['warnings']['Experiment.trend']]. *)
Definition record_warning (res : ResultsObj) (msg : string) : outcome ResultsObj :=
  match res_warnings res with
  | None => Raise (KeyError "warnings")
  | Some w =>
      Return {| res_df := res_df res; res_user := res_user res;
                res_binning := res_binning res;
                res_warnings := Some (<["Experiment.trend" := msg]> w) |}
  end.

(** [trend], lines 257-334.  Line 301 looks for the time among the names
    of the index levels of [kpis_time]; the loop reads it as a column of
    [kpis_time.reset_index()]. *)
Definition trend (g : Globals) (self : obj)
    (kpi_subset : option (list string)) (variant_subset : option pyseq)
    (time_step : Z) (cumulative assume_normal : bool) (percentiles : list F)
    (min_observations nruns : Z) (relative : bool) : outcome ResultsObj :=
  new ← global (Results g) "Results";
  metadata ← getattr self "metadata" ≫= as_dict;
  let res := new None (MetaDict metadata) in
  kpis_time ← getattr self "kpis_time";
  if is_None kpis_time then record_warning res "Empty data set entered to analysis."
  else
    names ← index_names kpis_time;
    if negb (bool_decide ("time_since_treatment" ∈ names))
    then record_warning res "Need time column for trend analysis."
    else
      kpi_subset ← default_to kpi_subset self "kpi_names" as_names;
      variant_subset ← default_to variant_subset self "variant_names" as_seq;
      baseline_variant ← getattr self "baseline_variant";
      variant_subset ← minus_baseline variant_subset baseline_variant;
      let deltaWorker :=
        make_delta (delta_args assume_normal percentiles min_observations nruns relative) in
      st ← for_fold (fun st kpi =>
        for_fold (fun (st : ResultsObj * option ResultsObj) variant =>
                    kpis_time ← getattr self "kpis_time" ≫= reset_index_of;
                    df ← select kpis_time ["variant"; "time_since_treatment"; kpi];
                    baseline_variant ← getattr self "baseline_variant" ≫= as_str;
                    res_obj ← _time_dependent_deltas g df [variant; baseline_variant]
                                time_step cumulative deltaWorker;
                    t ← pd_concat (res_df st.1) (res_df res_obj);
                    Return (with_df st.1 (Some t), Some res_obj))
                 st (elements variant_subset))
        (res, None) kpi_subset;
      (* line 332: res_obj is bound only if the loops ran *)
      res_obj ← global st.2 "res_obj";
      Return {| res_df := res_df st.1; res_user := res_user st.1;
                res_binning := res_binning res_obj;
                res_warnings := res_warnings st.1 |}.

End Model.

Abbreviation obj := (gmap string attr).

(** * The specification's words

    Definitions that follow the specification's sentences, to be compared
    with the code's, and the intermediate states the statements name. *)

Section Specification.
Context {FL : Float64} {HO : Host}.

(** The required columns as the specification words them: the reported
    KPIs and entity, variant, less the derived-KPI names, plus every
    identifier of every derived-KPI formula. *)
Definition required_column (reportKpiNames : list string) (derivedKpis : list DerivedKpi)
    (c : string) : Prop :=
  ((c ∈ reportKpiNames \/ c = "entity" \/ c = "variant") /\ c ∉ map name derivedKpis)
  \/ (exists k, k ∈ derivedKpis /\ c ∈ Re.findall Re.kpiNamePattern (formula k)).

(** The instance after line 57, before the derived KPIs are added. *)
Definition after_line_57 (controlVariantName : string) (data : DataFrame)
    (metadata : gmap string string) (reportKpiNames : list string)
    (derivedKpis : list DerivedKpi) (variant : column) : obj :=
  <["referenceKpis" := ADict ∅]>
    (<["controlVariantName" := AStr controlVariantName]>
      (<["variantNames" := ANames (elements (list_to_set (col_labels variant) : gset string))]>
        (<["derivedKpis" := ASpecs derivedKpis]>
          (<["reportKpiNames" := ANames reportKpiNames]>
            (<["metadata" := ADict metadata]>
              (<["data" := AFrame data]> ∅)))))).

Fixpoint all_word (s : string) : bool :=
  match s with
  | EmptyString => true
  | String c s' => Re.is_word c && all_word s'
  end.

(** A KPI name: a letter, then letters, digits and underscores. *)
Definition identifier (s : string) : bool :=
  match s with
  | EmptyString => false
  | String c s' => Re.is_alpha c && all_word s'
  end.

(** The derived columns as the specification words them: each formula is
    evaluated, in declaration order, over the table that already holds the
    columns of the derived KPIs before it. *)
Fixpoint derive_in_order (data : DataFrame) (ks : list DerivedKpi) : outcome DataFrame :=
  match ks with
  | [] => Return data
  | k :: ks' =>
      v ← py_eval (Re.sub Re.kpiNamePattern
                     (fun g => "self.data." ++ g ++ ".astype(float)") (formula k)) data;
      derive_in_order (set_col data (name k) (value_col (nrows data) v)) ks'
  end.

Definition record_reference (refs : gmap string string) (k : DerivedKpi) : gmap string string :=
  <[name k := Re.sub Re.kpiNamePattern_slash (fun _ => "") (formula k)]> refs.

(** The values of a column in the rows of one variant. *)
Definition values_of_variant {A} (labels : list string) (xs : list A) (variant : string) : list A :=
  (filter (fun row => row.1 = variant) (zip labels xs)).*2.

(** The number of rows that carry a label. *)
Definition occurrences (labels : list string) (label : string) : nat :=
  length (filter (fun l => l = label) labels).

(** The weight as the specification words it: the count of values that
    are neither 0 nor missing, over the sum with missing taken as 0, times
    each value. *)
Definition spec_weight (x : list F) : list F :=
  let count := Z.of_nat (length (filter (fun v => f_eq0 v = false /\ f_isnan v = false) x)) in
  let total := np_sum (map (fun v => if f_isnan v then f_zero else v) x) in
  map (fun v => f_mul (f_div (f_of_Z count) total) v) x.

(** The same over int64 values, none of which is missing: the count of
    the values other than 0 over their (64-bit) sum, both as floats,
    times each value as a float. *)
Definition spec_weight_int (x : list Z) : list F :=
  let count := Z.of_nat (length (filter (fun z => z <> 0%Z) x)) in
  let total := np_isum x in
  map (fun z => f_mul (f_div (f_of_Z count) (f_of_Z total)) (f_of_Z z)) x.

(** The statistics block [do_delta] builds for the variant [v] of the
    frame [f]: the worker on the KPI values of the rows of [v] against
    those of the rows of the control variant. *)
Definition variant_row (to_df : string -> DS -> Block) (deltaWorker : Worker)
    (kpi : string) (c0 : column) (ys : list F) (baseline : string) (bin : Label)
    (v : string) : string * option Label * Block :=
  (v, Some bin,
   to_df kpi (deltaWorker (mask_filter (col_eq c0 v) ys) (mask_filter (col_eq c0 baseline) ys))).

Inductive cell :=
| CStr (s : string)
| CNum (x : F)
| CInt (z : Z).

Definition col_cells (c : column) : list cell :=
  match c with
  | ColStr l => map CStr l
  | ColNum l => map CNum l
  | ColInt l => map CInt l
  end.

(** The rows of a table given by its columns: each row is its bin label
    and its cells, one per column. *)
Fixpoint zip_rows (bins : list Label) (cols : list (list cell)) : list (Label * list cell) :=
  match bins with
  | [] => []
  | b :: bins' => (b, omap head cols) :: zip_rows bins' (map tail cols)
  end.

Definition rows (f : Binned) : list (Label * list cell) :=
  zip_rows (b_bins f) (map (fun nc => col_cells nc.2) (b_frame f)).

(** Every column has one value per row. *)
Definition rectangular (f : Binned) : Prop :=
  Forall (fun nc => col_len nc.2 = length (b_bins f)) (b_frame f).

(** The KPI values of a variant times the weight of the KPI for it:
    [getKPIbyNameAndVariant(kpi, v) * _getWeights(kpi, v)]. *)
Definition weighted (self : obj) (kpi variant : string) : outcome value :=
  values ← getKPIbyNameAndVariant self kpi variant;
  weight ← _getWeights self kpi variant;
  times values weight.

(** Lines 109-117 for one KPI: the mapping stored under [result[kpi]]. *)
Definition delta_inner (self : obj) (worker : Worker) (kpi : string)
    : outcome (gmap string DeltaEntry) :=
  controlVariantName ← getattr self "controlVariantName" ≫= as_str;
  control ← getKPIbyNameAndVariant self kpi controlVariantName;
  controlWeight ← _getWeights self kpi controlVariantName;
  variantNames ← getattr self "variantNames" ≫= as_names;
  for_fold (delta_variant self worker kpi controlVariantName control controlWeight)
           ∅ variantNames.

Definition or_empty {V} (m : outcome (gmap string V)) : gmap string V :=
  match m with Return r => r | Raise _ => ∅ end.

Definition or_nil (m : outcome value) : list F :=
  match m with Return (VSeries x) => x | _ => [] end.

(** No slash in the text. *)
Fixpoint no_slash (s : string) : bool :=
  match s with
  | EmptyString => true
  | String c s' => negb (Ascii.eqb c "/") && no_slash s'
  end.

(** What [delta] needs of an instance: its five attributes; a table
    that does not hold both a column [index] and a column [level_0],
    whose variant column holds strings; a control variant and variants
    that each label at least two rows of it; and reported KPIs, and
    reference KPIs recorded for them, that are numeric columns other
    than [variant]. *)
Definition delta_ready (self : obj) (data : DataFrame) (refs : gmap string string)
    (ctrl : string) (names kpis labels : list string) : Prop :=
  self !! "data" = Some (AFrame data)
  /\ self !! "referenceKpis" = Some (ADict refs)
  /\ self !! "controlVariantName" = Some (AStr ctrl)
  /\ self !! "variantNames" = Some (ANames names)
  /\ self !! "reportKpiNames" = Some (ANames kpis)
  /\ has_col data "index" && has_col data "level_0" = false
  /\ get_col data "variant" = Some (ColStr labels)
  /\ 2 <= occurrences labels ctrl
  /\ (forall v, v ∈ names -> 2 <= occurrences labels v)
  /\ (forall kpi, kpi ∈ kpis -> exists c, get_col data kpi = Some c /\ is_object c = false)
  /\ (forall kpi r, kpi ∈ kpis -> refs !! kpi = Some r ->
        exists c, get_col data r = Some c /\ is_object c = false).

(** The statistics of one group of a feature check: the worker's for a
    numerical feature, the sample size and the chi-square p-value for a
    categorical one, the group against the baseline's rows. *)
Definition group_stats (deltaWorker : Worker) (variant metric : column)
    (baseline v : string) : FCStats :=
  match metric with
  | ColNum xs =>
      FCNumerical (deltaWorker (mask_filter (col_eq variant v) xs)
                               (mask_filter (col_eq variant baseline) xs))
  | ColInt zs =>
      FCNumerical (deltaWorker (map f_of_Z (mask_filter (col_eq variant v) zs))
                               (map f_of_Z (mask_filter (col_eq variant baseline) zs)))
  | ColStr _ =>
      FCCategorical (sample_size (mask_col (col_eq variant v) metric))
                    (chi_square (mask_col (col_eq variant v) metric)
                                (mask_col (col_eq variant baseline) metric))
  end.

End Specification.

(** ** A concrete host

    IEEE binary64 floats for numpy's float64, and small stand-ins for the
    collaborators: enough to run the model on concrete frames. *)

Module Demo.

Definition of_Z (z : Z) : float :=
  match z with
  | Z0 => 0%float
  | Zpos p => of_uint63 (Uint63.of_Z (Zpos p))
  | Zneg p => (- of_uint63 (Uint63.of_Z (Zpos p)))%float
  end.

Definition fsum (l : list float) : float := foldl PrimFloat.add 0%float l.

Lemma SFeqb_self_false x : SFeqb x x = false -> x = S754_nan.
Proof.
  destruct x as [s|s| |s m e]; unfold SFeqb; simpl;
    try (destruct s; discriminate); try reflexivity.
  destruct s; rewrite Z.compare_refl, ?Pos.compare_refl; simpl; try discriminate.
  all: rewrite ?Pos.compare_cont_refl; discriminate.
Qed.

Lemma nan_ne0 x : PrimFloat.is_nan x = true -> PrimFloat.eqb x 0%float = false.
Proof.
  unfold PrimFloat.is_nan. intros H. apply negb_true_iff in H.
  rewrite FloatAxioms.eqb_spec in H. apply SFeqb_self_false in H.
  rewrite FloatAxioms.eqb_spec, H. reflexivity.
Qed.

#[export] Instance float64 : Float64 := {|
  F := float;
  f_zero := 0%float;
  f_one := 1%float;
  f_of_Z := of_Z;
  f_mul := PrimFloat.mul;
  f_div := PrimFloat.div;
  f_eq0 := fun x => PrimFloat.eqb x 0%float;
  f_isnan := PrimFloat.is_nan;
  np_sum := fsum;
  f_nan_ne0 := nan_ne0
|}.

Fixpoint strip_prefix (p s : string) : option string :=
  match p, s with
  | EmptyString, _ => Some s
  | String a p', String b s' => if Ascii.eqb a b then strip_prefix p' s' else None
  | _, _ => None
  end.

(** [self.data.NAME.astype(float)] at the head of a text, and the rest. *)
Definition column_ref (s : string) : option (string * string) :=
  s1 ← strip_prefix "self.data." s;
  let '(n, r) := Re.span_word s1 in
  r' ← strip_prefix ".astype(float)" r;
  Some (n, r').

Definition float_col (data : DataFrame) (n : string) : outcome (list float) :=
  match get_col data n with
  | Some (ColNum l) => Return l
  | Some (ColInt l) => Return (map of_Z l)
  | Some (ColStr _) => Raise (ValueError "could not convert string to float")
  | None => Raise (AttributeError n)
  end.

Definition binop (op : ascii) : option (float -> float -> float) :=
  if Ascii.eqb op "/" then Some PrimFloat.div
  else if Ascii.eqb op "*" then Some PrimFloat.mul
  else if Ascii.eqb op "+" then Some PrimFloat.add
  else if Ascii.eqb op "-" then Some PrimFloat.sub
  else None.

(** An evaluator for the texts [col] and [col op col]. *)
Definition eval (text : string) (data : DataFrame) : outcome value :=
  match column_ref text with
  | Some (a, EmptyString) => x ← float_col data a; Return (VSeries x)
  | Some (a, String op rest) =>
      match binop op, column_ref rest with
      | Some f, Some (b, EmptyString) =>
          x ← float_col data a; y ← float_col data b; Return (VSeries (zip_with f x y))
      | _, _ => Raise (ValueError "formula not supported by this host")
      end
  | None => Raise (ValueError "formula not supported by this host")
  end.

Definition mean (l : list float) : float :=
  (fsum l / of_Z (Z.of_nat (length l)))%float.

(** A delta worker: the difference of the sample means. *)
Definition mean_delta (_ : ()) (x y : list float) : float := (mean x - mean y)%float.

Definition trunc (x : float) : Z :=
  match Prim2SF x with
  | S754_finite s m e =>
      let v := if (0 <=? e)%Z then Z.shiftl (Zpos m) e else Z.shiftr (Zpos m) (- e) in
      if s then (- v)%Z else v
  | _ => 0%Z
  end.

Fixpoint insert_sorted (x : float) (l : list float) : list float :=
  match l with
  | [] => [x]
  | y :: l' =>
      if PrimFloat.eqb x y then l
      else if PrimFloat.ltb x y then x :: l
      else y :: insert_sorted x l'
  end.

Definition label_of (c : column) : list (Z + string) :=
  match c with
  | ColNum l => map (fun x => inl (trunc x)) l
  | ColInt l => map inl l
  | ColStr l => map inr l
  end.

Fixpoint insert_sorted_Z (x : Z) (l : list Z) : list Z :=
  match l with
  | [] => [x]
  | y :: l' =>
      if Z.eqb x y then l
      else if Z.ltb x y then x :: l
      else y :: insert_sorted_Z x l'
  end.

#[export] Instance host : Host := {|
  py_eval := eval;
  DS := float;
  WorkerArgs := ();
  make_delta := mean_delta;
  make_group_sequential := mean_delta;
  make_bayes_factor := mean_delta;
  make_bayes_precision := mean_delta;
  scalar_call := fun _ _ _ => Raise (TypeError "object of type 'float' has no len()");
  delta_args := fun _ _ _ _ _ => ();
  chi_square := fun _ _ => 1%float;
  sample_size := fun c => Z.of_nat (col_len c);
  Binning := bool;
  Label := Z + string;
  create_binning := fun c _ => match c with ColStr _ => false | _ => true end;
  NumericalBinning := fun _ => true;
  is_NumericalBinning := fun b => b;
  binning_label := fun _ c _ => label_of c;
  label_eq := fun a b => bool_decide (a = b);
  label_le := fun a b => match a, b with
                         | inl x, inl y => Z.leb x y
                         | inr s, inr t => String.leb s t
                         | _, _ => false
                         end;
  np_unique := fun c => match c with
                        | ColNum l => ColNum (foldr insert_sorted [] l)
                        | ColInt l => ColInt (foldr insert_sorted_Z [] l)
                        | ColStr l => ColStr l
                        end;
  Block := string * float
|}.

Definition to_df (metric : string) (ds : float) : string * float := (metric, ds).

(** A namespace in which the names of [expan.core.results] are bound. *)
Definition results_imported : Globals :=
  {| Results := Some (fun df meta =>
       {| res_df := df;
          res_user := match meta with MetaDict d => d | MetaBinning _ => ∅ end;
          res_binning := match meta with MetaBinning b => Some b | MetaDict _ => None end;
          res_warnings := Some ∅ |});
     delta_to_dataframe_all_variants := Some to_df;
     feature_check_to_dataframe := Some (fun metric st =>
       (metric, match st with FCNumerical ds => ds | FCCategorical _ pval => pval end)) |}.

(** Two variants, A (control) and B, with orders and sessions per entity. *)
Definition shop : DataFrame :=
  [("entity", ColStr ["e1"; "e2"; "e3"; "e4"]);
   ("variant", ColStr ["A"; "B"; "A"; "B"]);
   ("orders", ColNum [1; 0; 3; 2]%float);
   ("sessions", ColNum [2; 0; 4; 4]%float)].

Definition conversion : DerivedKpi := {| name := "conversion"; formula := "orders/sessions" |}.

(** [Experiment('A', shop, {}, ['conversion', 'orders'], [conversion])]. *)
Definition shop_experiment : obj :=
  match Experiment "A" shop ∅ (Some ["conversion"; "orders"]) [conversion] with
  | Return e => e
  | Raise _ => ∅
  end.

Definition shop_data : DataFrame :=
  match shop_experiment !! "data" with Some (AFrame d) => d | _ => [] end.

Definition shop_refs : gmap string string :=
  match shop_experiment !! "referenceKpis" with Some (ADict d) => d | _ => ∅ end.

(** The shop table without its sessions column. *)
Definition shop_without_sessions : DataFrame :=
  [("entity", ColStr ["e1"; "e2"; "e3"; "e4"]);
   ("variant", ColStr ["A"; "B"; "A"; "B"]);
   ("orders", ColNum [1; 0; 3; 2]%float)].

(** A derived KPI over the derived KPI [conversion]. *)
Definition per_session : DerivedKpi :=
  {| name := "per_session"; formula := "conversion/sessions" |}.

(** The shop table with a raw column named like the derived KPI. *)
Definition shop_with_conversion : DataFrame :=
  (shop ++ [("conversion", ColNum [9; 9; 9; 9]%float)])%list.

(** [Experiment('A', shop_with_conversion, {}, ['per_session'],
    [conversion, per_session])]. *)
Definition chained_experiment : obj :=
  match Experiment "A" shop_with_conversion ∅ (Some ["per_session"])
          [conversion; per_session] with
  | Return e => e
  | Raise _ => ∅
  end.

(** A second derived KPI of the name [conversion]. *)
Definition inverse : DerivedKpi := {| name := "conversion"; formula := "sessions/orders" |}.

(** A derived KPI that is not a ratio. *)
Definition total : DerivedKpi := {| name := "total"; formula := "orders+sessions" |}.

(** Three variants over two age groups: the frame [sga] projects, its
    columns variant, feature, kpi. *)
Definition by_age : DataFrame :=
  [("variant", ColStr ["A"; "B"; "C"; "A"; "B"; "C"]);
   ("age", ColNum [1; 1; 1; 2; 2; 2]%float);
   ("orders", ColNum [1; 2; 4; 3; 5; 9]%float)].

Definition by_age_binned : Binned :=
  {| b_frame := by_age; b_bins := label_of (ColNum [1; 1; 1; 2; 2; 2]%float) |}.

(** An instance carrying the attributes [sga] and [trend] read. *)
Definition legacy_instance : obj :=
  <["metadata" := ADict ∅]>
    (<["metrics" := AFrame by_age]>
      (<["kpis_time" := AFrame by_age]>
        (<["kpi_names" := ANames ["orders"]]>
          (<["feature_names" := ANames ["age"]]>
            (<["variant_names" := ANameSet {[ "A"; "B"; "C" ]}]>
              (<["baseline_variant" := AStr "A"]> ∅)))))).

(** A [kpis_time] frame indexed by entity, variant and time, and an
    instance carrying it. *)
Definition by_day_index : DataFrame :=
  [("entity", ColStr ["e1"; "e2"; "e1"; "e2"]);
   ("variant", ColStr ["A"; "B"; "A"; "B"]);
   ("time_since_treatment", ColNum [1; 1; 2; 2]%float)].

Definition by_day_columns : DataFrame :=
  [("orders", ColNum [1; 2; 3; 5]%float)].

Definition trend_instance : obj :=
  <["kpis_time" := AIndexed by_day_index by_day_columns]> legacy_instance.

(** [Experiment('A', shop, {}, ['total'], [total])]. *)
Definition total_experiment : obj :=
  match Experiment "A" shop ∅ (Some ["total"]) [total] with
  | Return e => e
  | Raise _ => ∅
  end.

(** [Experiment('Z', shop, {}, ['orders'], [])]: no row carries Z. *)
Definition control_z_experiment : obj :=
  match Experiment "Z" shop ∅ (Some ["orders"]) [] with
  | Return e => e
  | Raise _ => ∅
  end.

(** A table in which variant B labels one row. *)
Definition lone_b : DataFrame :=
  [("entity", ColStr ["e1"; "e2"; "e3"]);
   ("variant", ColStr ["A"; "A"; "B"]);
   ("orders", ColNum [1; 3; 2]%float);
   ("sessions", ColNum [2; 4; 4]%float)].

(** The shop table with columns named [index] and [level_0]. *)
Definition twice_indexed : DataFrame :=
  (shop ++ [("index", ColInt [0; 1; 2; 3]%Z); ("level_0", ColInt [0; 1; 2; 3]%Z)])%list.

(** The shop table with its sessions as int64. *)
Definition shop_int : DataFrame :=
  [("entity", ColStr ["e1"; "e2"; "e3"; "e4"]);
   ("variant", ColStr ["A"; "B"; "A"; "B"]);
   ("orders", ColNum [1; 0; 3; 2]%float);
   ("sessions", ColInt [2; 0; 4; 4]%Z)].

(** A frame with a categorical feature. *)
Definition by_city : DataFrame :=
  [("variant", ColStr ["A"; "B"; "A"; "B"]);
   ("city", ColStr ["Berlin"; "Berlin"; "Dublin"; "Dublin"]);
   ("orders", ColNum [1; 2; 3; 5]%float)].

End Demo.

(** * Properties *)

Section Theorems.
Context {FL : Float64} {HO : Host}.

(** ** Loops and frames *)

Lemma for_fold_cons {A S} (body : S -> A -> outcome S) acc x xs :
  for_fold body acc (x :: xs) = (acc' ← body acc x; for_fold body acc' xs).
Proof. reflexivity. Qed.

Lemma bind_Return {A B} (a : A) (k : A -> outcome B) : (Return a ≫= k) = k a.
Proof. reflexivity. Qed.

Lemma get_col_set_col_eq df n c : get_col (set_col df n c) n = Some c.
Proof.
  induction df as [|[m c0] df IH]; simpl.
  - by rewrite String.eqb_refl.
  - destruct (String.eqb m n) eqn:E; simpl; rewrite E; [done | apply IH].
Qed.

Lemma get_col_set_col_ne df n c m : n <> m -> get_col (set_col df n c) m = get_col df m.
Proof.
  intros Hne. induction df as [|[k c0] df IH]; simpl.
  - destruct (String.eqb n m) eqn:E; [apply String.eqb_eq in E; done | done].
  - destruct (String.eqb k n) eqn:E; simpl.
    + apply String.eqb_eq in E. subst k.
      destruct (String.eqb n m) eqn:E'; [apply String.eqb_eq in E'; done | done].
    + destruct (String.eqb k m); [done | apply IH].
Qed.

Lemma has_col_true df c : has_col df c = true <-> is_Some (get_col df c).
Proof. unfold has_col. by rewrite bool_decide_eq_true. Qed.

Lemma has_col_false df c : has_col df c = false <-> get_col df c = None.
Proof. unfold has_col. rewrite bool_decide_eq_false. by rewrite eq_None_not_Some. Qed.

(** ** The required columns (lines 40-45) *)

Lemma elem_of_formula_names (base : gset string) (fs : list string) c :
  c ∈ foldl (fun req f => req ∪ list_to_set (Re.findall Re.kpiNamePattern f)) base fs
  <-> c ∈ base \/ exists f, f ∈ fs /\ c ∈ Re.findall Re.kpiNamePattern f.
Proof.
  revert base. induction fs as [|f fs IH]; intros base; simpl.
  - split; [by left | intros [H|(f & Hf & _)]; [done | by apply not_elem_of_nil in Hf]].
  - rewrite IH, elem_of_union, elem_of_list_to_set. split.
    + intros [[H|H]|(f' & Hf & Hc)]; [by left | right; exists f | right; exists f'].
      * split; [left | done].
      * split; [by right | done].
    + intros [H|(f' & Hf & Hc)]; [by left; left |].
      apply elem_of_cons in Hf as [->|Hf]; [left; by right | right; by exists f'].
Qed.

Lemma elem_of_requiredColumnNames reportKpiNames derivedKpis c :
  c ∈ requiredColumnNames reportKpiNames derivedKpis
  <-> required_column reportKpiNames derivedKpis c.
Proof.
  unfold requiredColumnNames, required_column.
  rewrite elem_of_formula_names, elem_of_difference, elem_of_union, !elem_of_list_to_set.
  rewrite !elem_of_cons, elem_of_nil.
  split; intros [H|H].
  - left. destruct H as [[H|[H|[H|[]]]] Hn]; auto.
  - right. destruct H as (f & Hf & Hc).
    apply list_elem_of_fmap in Hf as (k & -> & Hk). by exists k.
  - left. destruct H as [[H|[H|H]] Hn]; auto.
  - right. destruct H as (k & Hk & Hc). exists (formula k). split; [|done].
    apply list_elem_of_fmap. by exists k.
Qed.

(** ** What the constructor leaves in the instance *)

Lemma Experiment_inv ctrl data md rk dks e :
  Experiment ctrl data md rk dks = Return e ->
  (forall c, required_column (reportKpiNames_or rk data) dks c -> has_col data c = true)
  /\ exists v, get_col data "variant" = Some v
     /\ add_derived_kpis (after_line_57 ctrl data md (reportKpiNames_or rk data) dks v) dks
        = (e, Return ()).
Proof.
  unfold Experiment, __init__. intros H.
  destruct (List.find _ _) as [c|] eqn:Hfind; [done|].
  split.
  - intros c Hc. apply elem_of_requiredColumnNames, elem_of_elements, list_elem_of_In in Hc.
    pose proof (find_none _ _ Hfind c Hc) as Hn. simpl in Hn.
    by apply negb_false_iff in Hn.
  - destruct (get_col data "variant") as [v|] eqn:Hv; [|done].
    exists v. split; [done|]. unfold after_line_57.
    destruct (add_derived_kpis _ dks) as [self [[]|ex]]; [|done].
    by inversion H.
Qed.

Lemma add_derived_kpi_inv self k self' :
  add_derived_kpi self k = Return self' ->
  exists data refs v,
    self !! "data" = Some (AFrame data) /\ self !! "referenceKpis" = Some (ADict refs)
    /\ py_eval (Re.sub Re.kpiNamePattern (fun g => "self.data." ++ g ++ ".astype(float)")
                  (formula k)) data = Return v
    /\ self' = <["referenceKpis" :=
                   ADict (<[name k := Re.sub Re.kpiNamePattern_slash (fun _ => "") (formula k)]> refs)]>
                (<["data" := AFrame (set_col data (name k) (value_col (nrows data) v))]> self).
Proof.
  unfold add_derived_kpi, getattr. intros H.
  destruct (self !! "data") as [[data| | | | | | |]|] eqn:Hd; simpl in H; try done.
  destruct (py_eval _ data) as [v|] eqn:Hv; simpl in H; [|done].
  rewrite lookup_insert_ne in H by done.
  destruct (self !! "referenceKpis") as [[| |refs| | | | |]|] eqn:Hr; simpl in H; try done.
  inversion H. by exists data, refs, v.
Qed.

Lemma add_derived_kpis_other self ks self' a :
  add_derived_kpis self ks = (self', Return ()) ->
  a <> "data" -> a <> "referenceKpis" -> self' !! a = self !! a.
Proof.
  revert self. induction ks as [|k ks IH]; intros self H Hd Hr; simpl in H.
  - by inversion H.
  - destruct (add_derived_kpi self k) as [self1|] eqn:Hk; [|done].
    rewrite (IH _ H Hd Hr).
    apply add_derived_kpi_inv in Hk as (data & refs & v & _ & _ & _ & ->).
    by rewrite !lookup_insert_ne.
Qed.

(** The attributes other than [data] and [referenceKpis] are those assigned
    on lines 52-56, and no other name is bound. *)
Lemma Experiment_attr ctrl data md rk dks e a :
  Experiment ctrl data md rk dks = Return e ->
  a <> "data" -> a <> "referenceKpis" ->
  exists v, get_col data "variant" = Some v /\
    e !! a = after_line_57 ctrl data md (reportKpiNames_or rk data) dks v !! a.
Proof.
  intros H Hd Hr. apply Experiment_inv in H as (_ & v & Hv & H).
  exists v. split; [done|]. by apply add_derived_kpis_other with dks.
Qed.

Lemma find_missing_column data rk dks :
  (exists c, required_column (reportKpiNames_or rk data) dks c /\ has_col data c = false) ->
  exists c, List.find (fun c => negb (has_col data c))
              (elements (requiredColumnNames (reportKpiNames_or rk data) dks)) = Some c
    /\ required_column (reportKpiNames_or rk data) dks c /\ has_col data c = false.
Proof.
  intros (c0 & Hreq & Hmiss).
  destruct (List.find _ _) as [c|] eqn:Hfind.
  - exists c. split; [done|]. pose proof (find_some _ _ Hfind) as [Hin Hneg].
    apply list_elem_of_In, elem_of_elements, elem_of_requiredColumnNames in Hin.
    by apply negb_true_iff in Hneg.
  - apply elem_of_requiredColumnNames, elem_of_elements, list_elem_of_In in Hreq.
    pose proof (find_none _ _ Hfind c0 Hreq) as Hn. simpl in Hn.
    by rewrite Hmiss in Hn.
Qed.

(** C7: when a required column (a reported KPI or entity or variant that
    is not a derived-KPI name, or an identifier of a derived-KPI formula)
    is absent from the input table, [__init__] raises the error "No column
    c provided" for an absent required column [c], and leaves the instance
    as it found it: nothing has been assigned, and the constructor call
    yields no object. *)
Theorem init_missing_column_raises (self : obj) ctrl data md rk dks :
  (exists c, required_column (reportKpiNames_or rk data) dks c /\ has_col data c = false) ->
  exists c, required_column (reportKpiNames_or rk data) dks c /\ has_col data c = false
    /\ __init__ self ctrl data md rk dks
       = (self, Raise (ValueError ("No column " ++ c ++ " provided")))
    /\ Experiment ctrl data md rk dks = Raise (ValueError ("No column " ++ c ++ " provided")).
Proof.
  intros Hmissing.
  destruct (find_missing_column data rk dks Hmissing) as (c & Hfind & Hreq & Hmiss).
  exists c. split; [exact Hreq|]. split; [exact Hmiss|].
  split.
  - unfold __init__. by rewrite Hfind.
  - unfold Experiment, __init__. by rewrite Hfind.
Qed.

(** ** The methods below the banner *)

Lemma Experiment_metadata ctrl data md rk dks e :
  Experiment ctrl data md rk dks = Return e -> e !! "metadata" = Some (ADict md).
Proof.
  intros H. destruct (Experiment_attr _ _ _ _ _ _ "metadata" H) as (v & _ & ->); done.
Qed.

(** The attributes the three methods read first are never assigned. *)
Lemma Experiment_unbound ctrl data md rk dks e a :
  Experiment ctrl data md rk dks = Return e ->
  a ∈ ["metrics"; "kpis_time"; "features"; "baseline_variant";
       "kpi_names"; "feature_names"; "variant_names"] ->
  e !! a = None.
Proof.
  intros H Ha.
  assert (a <> "data" /\ a <> "referenceKpis") as [Hd Hr].
  { repeat (apply elem_of_cons in Ha as [->|Ha]; [done|]). by apply not_elem_of_nil in Ha. }
  destruct (Experiment_attr _ _ _ _ _ _ a H Hd Hr) as (v & _ & ->).
  unfold after_line_57.
  repeat (apply elem_of_cons in Ha as [->|Ha]; [done|]). by apply not_elem_of_nil in Ha.
Qed.

(** C10: on every constructed Experiment, every call of [sga], [trend]
    and [feature_check] raises before it has a result.  In the module as
    it stands the name [Results] is not bound, so the first statement of
    each raises NameError; and the attribute each reads next ([metrics],
    [kpis_time], [features]) is, like [baseline_variant], [kpi_names],
    [feature_names] and [variant_names], not assigned by the constructor,
    so with [Results] bound the call raises AttributeError.  No early
    return with an empty result is reached. *)
Theorem legacy_methods_always_raise ctrl data md rk dks e :
  Experiment ctrl data md rk dks = Return e ->
  (forall a, a ∈ ["metrics"; "kpis_time"; "features"; "baseline_variant";
                 "kpi_names"; "feature_names"; "variant_names"] ->
             getattr e a = Raise (AttributeError a))
  /\ (forall fs ks vs n an ps mo nr rel,
        sga module_globals e fs ks vs n an ps mo nr rel = Raise (NameError "Results"))
  /\ (forall ks vs ts cu an ps mo nr rel,
        trend module_globals e ks vs ts cu an ps mo nr rel = Raise (NameError "Results"))
  /\ (forall fs vs th ps an mo nr rel,
        feature_check module_globals e fs vs th ps an mo nr rel = Raise (NameError "Results"))
  /\ (forall g fs ks vs n an ps mo nr rel,
        sga g e fs ks vs n an ps mo nr rel = Raise (NameError "Results")
        \/ sga g e fs ks vs n an ps mo nr rel = Raise (AttributeError "metrics"))
  /\ (forall g ks vs ts cu an ps mo nr rel,
        trend g e ks vs ts cu an ps mo nr rel = Raise (NameError "Results")
        \/ trend g e ks vs ts cu an ps mo nr rel = Raise (AttributeError "kpis_time"))
  /\ (forall g fs vs th ps an mo nr rel,
        feature_check g e fs vs th ps an mo nr rel = Raise (NameError "Results")
        \/ feature_check g e fs vs th ps an mo nr rel = Raise (AttributeError "features")).
Proof.
  intros H.
  pose proof (Experiment_metadata _ _ _ _ _ _ H) as Hmd.
  assert (forall a, a ∈ ["metrics"; "kpis_time"; "features"; "baseline_variant";
                         "kpi_names"; "feature_names"; "variant_names"] ->
                    getattr e a = Raise (AttributeError a)) as Hun.
  { intros a Ha. unfold getattr. by rewrite (Experiment_unbound _ _ _ _ _ _ a H Ha). }
  split; [exact Hun|].
  split; [done|]. split; [done|]. split; [done|].
  assert (getattr e "metadata" = Return (ADict md)) as Hmd' by (unfold getattr; by rewrite Hmd).
  split; [|split]; intros g; intros; [unfold sga | unfold trend | unfold feature_check];
    (destruct (Results g) as [new|]; simpl; [right | by left]);
    rewrite Hmd'; simpl.
  - by rewrite (Hun "metrics") by set_solver.
  - by rewrite (Hun "kpis_time") by set_solver.
  - by rewrite (Hun "features") by set_solver.
Qed.


(** ** The reference KPI (line 62) *)

Lemma span_word_all w : all_word w = true -> Re.span_word w = (w, "").
Proof.
  induction w as [|c w IH]; simpl; [done|].
  intros [Hc Hw]%andb_true_iff. by rewrite Hc, (IH Hw).
Qed.

Lemma span_word_slash w r :
  all_word w = true -> Re.span_word (w ++ String "/" r) = (w, String "/" r).
Proof.
  induction w as [|c w IH]; simpl; [done|].
  intros [Hc Hw]%andb_true_iff. by rewrite Hc, (IH Hw).
Qed.

Lemma pieces_skip m a b : Re.pieces m (String.length a) (a ++ b) = Re.pieces m 0 b.
Proof. induction a as [|c a IH]; simpl; [by destruct b | apply IH]. Qed.

(** In a run of word characters the pattern followed by a slash matches nowhere. *)
Lemma pieces_slash_word w :
  all_word w = true ->
  Re.pieces Re.kpiNamePattern_slash 0 w = map Re.Lit (list_ascii_of_string w).
Proof.
  induction w as [|c w IH]; simpl; [done|].
  intros [Hc Hw]%andb_true_iff. rewrite (span_word_all w Hw), (IH Hw).
  by destruct (Re.is_alpha c).
Qed.

Lemma sub_lits repl w :
  foldr (fun p acc => match p with
                      | Re.Hit g => repl g ++ acc
                      | Re.Lit c => String c acc
                      end) "" (map Re.Lit (list_ascii_of_string w)) = w.
Proof. induction w as [|c w IH]; simpl; [done | by rewrite IH]. Qed.

Lemma string_app_assoc (a b c : string) : (a ++ b) ++ c = a ++ (b ++ c).
Proof.
  induction a as [|x a IH]; [done|].
  change (String x ((a ++ b) ++ c) = String x (a ++ (b ++ c))). by rewrite IH.
Qed.

Lemma string_length_snoc (a : string) x : String.length (a ++ String x "") = S (String.length a).
Proof.
  induction a as [|y a IH]; [done|].
  change (S (String.length (a ++ String x "")) = S (S (String.length a))). by rewrite IH.
Qed.

(** [re.sub(kpiNamePattern + '/', '', "n/d")] is [d]. *)
Lemma sub_slash_ratio n d :
  identifier n = true -> all_word d = true ->
  Re.sub Re.kpiNamePattern_slash (fun _ => "") (n ++ String "/" d) = d.
Proof.
  destruct n as [|c n]; simpl; [done|].
  intros [Hc Hn]%andb_true_iff Hd. unfold Re.sub. simpl.
  rewrite Hc, (span_word_slash n d Hn). simpl.
  change (String "/" d) with (String "/" "" ++ d).
  rewrite <- string_app_assoc, <- (string_length_snoc n "/").
  rewrite pieces_skip, (pieces_slash_word d Hd). apply sub_lits.
Qed.

(** ** Derived KPIs in declaration order (lines 60-62) *)

Lemma add_derived_kpis_state self ks self' data refs :
  add_derived_kpis self ks = (self', Return ()) ->
  self !! "data" = Some (AFrame data) ->
  self !! "referenceKpis" = Some (ADict refs) ->
  exists data',
    derive_in_order data ks = Return data'
    /\ self' !! "data" = Some (AFrame data')
    /\ self' !! "referenceKpis" = Some (ADict (foldl record_reference refs ks)).
Proof.
  revert self data refs. induction ks as [|k ks IH]; intros self data refs H Hd Hr; simpl in H.
  - inversion H; subst. by exists data.
  - destruct (add_derived_kpi self k) as [self1|] eqn:Hk; [|done].
    apply add_derived_kpi_inv in Hk as (data0 & refs0 & v & Hd0 & Hr0 & Hv & ->).
    rewrite Hd in Hd0. rewrite Hr in Hr0. inversion Hd0; inversion Hr0; subst data0 refs0.
    destruct (IH _ (set_col data (name k) (value_col (nrows data) v))
                 (record_reference refs k) H) as (data' & Hrun & Hd' & Hr').
    { rewrite lookup_insert_ne by done. apply lookup_insert_eq. }
    { apply lookup_insert_eq. }
    exists data'. simpl. rewrite Hv. simpl. done.
Qed.

Lemma record_reference_other refs ks n :
  n ∉ map name ks -> foldl record_reference refs ks !! n = refs !! n.
Proof.
  revert refs. induction ks as [|k ks IH]; intros refs Hn; simpl; [done|].
  apply not_elem_of_cons in Hn as [Hk Hn].
  rewrite (IH _ Hn). unfold record_reference. by rewrite lookup_insert_ne.
Qed.

Lemma Experiment_state ctrl data md rk dks e :
  Experiment ctrl data md rk dks = Return e ->
  exists data',
    derive_in_order data dks = Return data'
    /\ e !! "data" = Some (AFrame data')
    /\ e !! "referenceKpis" = Some (ADict (foldl record_reference ∅ dks)).
Proof.
  intros H. apply Experiment_inv in H as (_ & v & _ & H).
  by apply (add_derived_kpis_state _ _ _ data ∅) in H.
Qed.

(** Of the derived KPIs of one name, the record of the last stands. *)
Lemma record_reference_last refs ks i k :
  ks !! i = Some k ->
  (forall j k', i < j -> ks !! j = Some k' -> name k' <> name k) ->
  foldl record_reference refs ks !! name k
  = Some (Re.sub Re.kpiNamePattern_slash (fun _ => "") (formula k)).
Proof.
  revert refs i. induction ks as [|k0 ks IH]; intros refs i Hi Hlast; [done|].
  destruct i as [|i]; simpl in Hi.
  - injection Hi as ->. simpl. rewrite record_reference_other.
    + unfold record_reference. apply lookup_insert_eq.
    + intros Hin. apply list_elem_of_fmap in Hin as (k' & Heq & Hk').
      apply list_elem_of_lookup in Hk' as [j Hj].
      apply (Hlast (S j) k'); [lia | done | done].
  - simpl. apply (IH _ i Hi). intros j k' Hlt Hj. apply (Hlast (S j) k'); [lia | done].
Qed.

(** C5, amended: for a derived KPI whose formula is [n/d], [n] and [d]
    KPI names, the reference KPI recorded at construction under its name
    is the right-hand operand [d] (the denominator); when several
    derived KPIs carry one name, the record of the last one declared
    stands.  A KPI that is not a derived KPI has no reference KPI
    recorded, so that its weight is 1.0 for every variant. *)
Theorem reference_kpi_is_denominator ctrl data md rk dks e :
  Experiment ctrl data md rk dks = Return e ->
  exists refs,
    getattr e "referenceKpis" = Return (ADict refs)
    /\ (forall i k n d,
          dks !! i = Some k ->
          (forall j k', i < j -> dks !! j = Some k' -> name k' <> name k) ->
          formula k = n ++ String "/" d ->
          identifier n = true -> identifier d = true ->
          refs !! name k = Some d)
    /\ (forall kpi, kpi ∉ map name dks ->
                    refs !! kpi = None
                    /\ forall variant, _getWeights e kpi variant = Return (VScalar f_one)).
Proof.
  intros H. apply Experiment_state in H as (data' & _ & _ & Hr).
  exists (foldl record_reference ∅ dks).
  assert (getattr e "referenceKpis" = Return (ADict (foldl record_reference ∅ dks))) as Hg
    by (unfold getattr; by rewrite Hr).
  split; [done|]. split.
  - intros i k n d Hk Hlast Hf Hn Hd. rewrite (record_reference_last _ _ _ _ Hk Hlast), Hf.
    f_equal. apply sub_slash_ratio; [done|].
    destruct d; simpl in Hd; [done|]. apply andb_true_iff in Hd as [Hc Hw]. simpl.
    rewrite Hw, andb_true_r. unfold Re.is_word. by rewrite Hc, orb_true_r.
  - intros kpi Hk. rewrite (record_reference_other _ _ _ Hk). split; [done|].
    intros variant. unfold _getWeights. rewrite Hg. simpl.
    by rewrite (record_reference_other _ _ _ Hk).
Qed.

(** C9, amended: construction succeeds only if every identifier of every
    derived-KPI formula, the name of an earlier-declared derived KPI
    included, is a column of the input table; a derived KPI that refers to
    an earlier one absent from the input makes construction raise "No
    column ... provided".  When construction succeeds, the derived KPIs
    are evaluated in declaration order, each formula over the table that
    already holds the columns of the derived KPIs before it. *)
Theorem derived_kpis_in_declaration_order ctrl data md rk dks :
  (forall e, Experiment ctrl data md rk dks = Return e ->
     (forall k c, k ∈ dks -> c ∈ Re.findall Re.kpiNamePattern (formula k) ->
                  has_col data c = true)
     /\ exists data', derive_in_order data dks = Return data'
                      /\ getattr e "data" = Return (AFrame data'))
  /\ (forall k c, k ∈ dks -> c ∈ Re.findall Re.kpiNamePattern (formula k) ->
                  has_col data c = false ->
                  exists c', has_col data c' = false
                    /\ Experiment ctrl data md rk dks
                       = Raise (ValueError ("No column " ++ c' ++ " provided"))).
Proof.
  split.
  - intros e H. split.
    + intros k c Hk Hc. apply Experiment_inv in H as (Hreq & _).
      apply Hreq. right. by exists k.
    + apply Experiment_state in H as (data' & Hrun & Hd & _).
      exists data'. split; [done|]. unfold getattr. by rewrite Hd.
  - intros k c Hk Hc Hmiss.
    destruct (find_missing_column data rk dks) as (c' & Hfind & _ & Hc').
    { exists c. split; [right; by exists k | done]. }
    exists c'. split; [done|]. unfold Experiment, __init__. by rewrite Hfind.
Qed.

(** ** Selections (line 67) *)

Lemma mask_filter_variant {A} labels (xs : list A) variant :
  mask_filter (map (String.eqb variant) labels) xs = values_of_variant labels xs variant.
Proof.
  unfold values_of_variant. revert xs.
  induction labels as [|l labels IH]; intros [|x xs]; simpl; try done.
  rewrite filter_cons. simpl. destruct (String.eqb variant l) eqn:E.
  - apply String.eqb_eq in E. subst l. rewrite decide_True by done. simpl. by rewrite IH.
  - apply String.eqb_neq in E. rewrite decide_False by done. apply IH.
Qed.

Lemma get_col_drop_col (df : DataFrame) n m : m <> n -> get_col (drop_col df n) m = get_col df m.
Proof.
  intros Hne. unfold drop_col, DataFrame in *. induction df as [|[k c] df IH]; [done|].
  rewrite filter_cons. simpl. case_decide as Hk; simpl.
  - destruct (String.eqb k m); [done | apply IH].
  - subst k.
    destruct (String.eqb n m) eqn:E; [apply String.eqb_eq in E; by subst | apply IH].
Qed.

(** [reset_index] on a table that does not hold both [index] and
    [level_0]: the old index is put first under a name that is new. *)
Lemma reset_index_returns (data : DataFrame) :
  has_col data "index" && has_col data "level_0" = false ->
  exists n, reset_index data = Return ((n, range_index (nrows data)) :: data)
            /\ get_col data n = None
            /\ n = (if has_col data "index" then "level_0" else "index").
Proof.
  intros Hnot. unfold reset_index.
  destruct (has_col data "index") eqn:Hi.
  - simpl in Hnot. rewrite Hnot. exists "level_0". split; [done|].
    split; [by apply has_col_false | done].
  - rewrite Hi. exists "index". split; [done|]. split; [by apply has_col_false | done].
Qed.

Lemma reset_index_raises (data : DataFrame) :
  has_col data "index" && has_col data "level_0" = true ->
  reset_index data = Raise (ValueError "cannot insert level_0, already exists").
Proof.
  intros [Hi Hl]%andb_true_iff. unfold reset_index. by rewrite Hi, Hl.
Qed.

Lemma get_col_cons_other (data : DataFrame) n c m :
  get_col data n = None -> is_Some (get_col data m) ->
  get_col ((n, c) :: data) m = get_col data m.
Proof.
  intros Hn [c' Hm]. simpl. destruct (String.eqb n m) eqn:E; [|done].
  apply String.eqb_eq in E. subst. by rewrite Hn in Hm.
Qed.

Lemma occurrences_elem_of labels v : 1 <= occurrences labels v -> v ∈ labels.
Proof.
  unfold occurrences. intros H.
  destruct (filter (fun l => l = v) labels) as [|l ls] eqn:E; [simpl in H; lia|].
  assert (l ∈ filter (fun l => l = v) labels) as Hl by (rewrite E; left).
  apply list_elem_of_filter in Hl as [-> Hl]. done.
Qed.

Lemma occurrences_NoDup labels v : NoDup labels -> occurrences labels v <= 1.
Proof.
  unfold occurrences. induction 1 as [|l labels Hl Hnd IH]; [simpl; lia|].
  rewrite filter_cons. case_decide as Hv; [|exact IH]. subst l. simpl.
  destruct (filter (fun l => l = v) labels) as [|l ls] eqn:E; [simpl; lia|].
  assert (l ∈ filter (fun l => l = v) labels) as Hin by (rewrite E; left).
  apply list_elem_of_filter in Hin as [-> Hin]. done.
Qed.

(** A label on two rows or more selects a Series: the values of the
    column in the rows of the label. *)
Lemma loc_series labels (cols : DataFrame) label name c :
  2 <= occurrences labels label ->
  get_col cols name = Some c ->
  loc labels cols label name = Return (Series (mask_col (map (String.eqb label) labels) c)).
Proof.
  intros Htwo Hc. unfold loc.
  rewrite bool_decide_eq_false_2
    by (intros Hnd; pose proof (occurrences_NoDup labels label Hnd); lia).
  rewrite bool_decide_eq_true_2 by (apply occurrences_elem_of; lia).
  rewrite Hc. unfold occurrences in Htwo.
  destruct (filter (fun l => l = label) labels) as [|l1 [|l2 ls]]; simpl in Htwo; [lia | lia |].
  reflexivity.
Qed.

Lemma loc_missing_column labels (cols : DataFrame) label name :
  label ∈ labels -> get_col cols name = None ->
  loc labels cols label name = Raise (KeyError name).
Proof.
  intros Hin Hc. unfold loc. rewrite Hc.
  case_bool_decide; [done|]. by rewrite bool_decide_eq_true_2.
Qed.

Lemma mask_filter_none {A} labels (xs : list A) label :
  label ∉ labels -> mask_filter (map (String.eqb label) labels) xs = [].
Proof.
  revert xs. induction labels as [|l labels IH]; intros xs Hout; [done|].
  apply not_elem_of_cons in Hout as [Hne Hout]. destruct xs as [|x xs]; [done|].
  simpl. apply String.eqb_neq in Hne. rewrite Hne. by apply IH.
Qed.

Lemma loc_missing_label labels (cols : DataFrame) label name :
  label ∉ labels -> is_Some (get_col cols name) ->
  loc labels cols label name = Raise (KeyError label).
Proof.
  intros Hout [c Hc]. unfold loc. rewrite Hc.
  case_bool_decide.
  - destruct c; simpl; by rewrite (mask_filter_none _ _ _ Hout).
  - by rewrite bool_decide_eq_false_2.
Qed.

Lemma getKPIbyNameAndVariant_series (self : obj) data labels name variant c :
  self !! "data" = Some (AFrame data) ->
  has_col data "index" && has_col data "level_0" = false ->
  get_col data "variant" = Some (ColStr labels) ->
  2 <= occurrences labels variant -> name <> "variant" ->
  get_col data name = Some c ->
  getKPIbyNameAndVariant self name variant
  = Return (Series (mask_col (map (String.eqb variant) labels) c)).
Proof.
  intros Hd Hreset Hv Htwo Hne Hc. unfold getKPIbyNameAndVariant, getattr. rewrite Hd. simpl.
  destruct (reset_index_returns data Hreset) as (n & -> & Hn & _). rewrite bind_Return.
  rewrite (get_col_cons_other data n _ "variant" Hn) by (by rewrite Hv).
  rewrite Hv. simpl. apply loc_series; [done|].
  rewrite get_col_drop_col by done.
  rewrite (get_col_cons_other data n _ name Hn) by (by rewrite Hc). done.
Qed.

(** ** Weights (lines 84-91) *)

Lemma nonZeros_count (x : list F) :
  (Z.of_nat (length x) - (count_true f_eq0 x + count_true f_isnan x))%Z
  = Z.of_nat (length (filter (fun v => f_eq0 v = false /\ f_isnan v = false) x)).
Proof.
  unfold count_true. induction x as [|v x IH]; [done|].
  rewrite !filter_cons. pose proof (f_nan_ne0 v) as Hnan.
  destruct (f_eq0 v) eqn:E0, (f_isnan v) eqn:En;
    repeat case_decide; try tauto; try (by specialize (Hnan eq_refl));
    simpl length; lia.
Qed.

Lemma nonZeros_count_int (x : list Z) :
  (Z.of_nat (length x) - (count_true (Z.eqb 0) x + 0))%Z
  = Z.of_nat (length (filter (fun z => z <> 0%Z) x)).
Proof.
  unfold count_true. induction x as [|z x IH]; [done|].
  rewrite !filter_cons.
  set (a := filter (fun v => (0 =? v)%Z = true) x) in *.
  set (b := filter (fun z => z <> 0%Z) x) in *.
  destruct (Z.eqb_spec 0 z); repeat case_decide; try congruence; cbn [length]; lia.
Qed.

(** The weight of a KPI whose reference KPI is a numeric column, for a
    variant on two rows or more. *)
Lemma getWeights_series (self : obj) data refs labels kpi r variant c :
  self !! "data" = Some (AFrame data) ->
  self !! "referenceKpis" = Some (ADict refs) ->
  has_col data "index" && has_col data "level_0" = false ->
  get_col data "variant" = Some (ColStr labels) ->
  2 <= occurrences labels variant ->
  refs !! kpi = Some r -> r <> "variant" ->
  get_col data r = Some c ->
  _getWeights self kpi variant
  = match c with
    | ColNum xs => Return (VSeries (spec_weight (values_of_variant labels xs variant)))
    | ColInt zs => Return (VSeries (spec_weight_int (values_of_variant labels zs variant)))
    | ColStr _ => Raise (TypeError "isnan")
    end.
Proof.
  intros Hd Hr Hreset Hv Htwo Hk Hne Hc. unfold _getWeights, getattr. rewrite Hr. simpl.
  rewrite Hk.
  rewrite (getKPIbyNameAndVariant_series _ _ _ _ _ _ Hd Hreset Hv Htwo Hne Hc). simpl.
  destruct c as [ss|xs|zs]; simpl; [done| |].
  - rewrite mask_filter_variant. unfold spec_weight, np_nansum. by rewrite nonZeros_count.
  - rewrite mask_filter_variant. unfold spec_weight_int. by rewrite nonZeros_count_int.
Qed.


(** ** The binned-delta engine (lines 450-524) *)

Lemma mask_frame_lookup (m : list bool) (df : DataFrame) i n c :
  df !! i = Some (n, c) -> mask_frame m df !! i = Some (n, mask_col m c).
Proof.
  intros H. unfold mask_frame, DataFrame in *.
  change (((fun nc : string * column => (nc.1, mask_col m nc.2)) <$> df) !! i
          = Some (n, mask_col m c)).
  by rewrite list_lookup_fmap, H.
Qed.

Lemma get_col_mask_frame (m : list bool) (df : DataFrame) n :
  get_col (mask_frame m df) n = mask_col m <$> get_col df n.
Proof.
  induction df as [|[k c] df IH]; simpl; [done|].
  destruct (String.eqb k n); [done | apply IH].
Qed.


Lemma elem_of_unique {A} `{EqDecision A} (l : list A) x : x ∈ unique l <-> x ∈ l.
Proof.
  induction l as [|y l IH]; simpl; [done|].
  rewrite !elem_of_cons, list_elem_of_filter, IH.
  destruct (decide (x = y)) as [->|Hne]; [split; intros; by left|].
  split; [intros [Hx|[_ Hx]]; [done | by right] | intros [Hx|Hx]; [done | by right]].
Qed.

Lemma do_delta_variant_step g to_df deltaWorker kpi c0 ys baseline bin acc v :
  delta_to_dataframe_all_variants g = Some to_df ->
  do_delta_variant g deltaWorker (kpi, ColNum ys) c0
    (mask_col (col_eq c0 baseline) (ColNum ys)) bin acc v
  = Return (table_append acc
              {| t_levels := levels7; t_subgroup_metric := None;
                 t_rows := [variant_row to_df deltaWorker kpi c0 ys baseline bin v] |}).
Proof. intros Hg. unfold do_delta_variant. by rewrite Hg. Qed.

Lemma do_delta_variants g to_df deltaWorker kpi c0 ys baseline bin vs acc :
  delta_to_dataframe_all_variants g = Some to_df ->
  exists t,
    for_fold (do_delta_variant g deltaWorker (kpi, ColNum ys) c0
                (mask_col (col_eq c0 baseline) (ColNum ys)) bin) acc vs = Return t
    /\ t_rows t = (t_rows acc ++ map (variant_row to_df deltaWorker kpi c0 ys baseline bin) vs)%list.
Proof.
  intros Hg. revert acc. induction vs as [|v vs IH]; intros acc.
  - exists acc. split; [done|]. simpl. by rewrite app_nil_r.
  - rewrite for_fold_cons, (do_delta_variant_step _ _ _ _ _ _ _ _ _ _ Hg), bind_Return.
    edestruct IH as (t & -> & Ht). exists t. split; [done|].
    rewrite Ht. simpl. by rewrite <- app_assoc.
Qed.

(** X22: with [delta_to_dataframe_all_variants] bound, [do_delta] on a
    subset whose variant column holds strings and whose third column is
    a float KPI returns one block for every distinct variant of the
    subset, in order of first appearance, whatever [variants[0]] names,
    the baseline [variants[1]] included: the worker on the KPI values of
    the rows of the variant (read from the first column) against those
    of the rows of the baseline. *)
Theorem do_delta_every_variant g to_df deltaWorker variants baseline (f : Binned) bin
    c0name c0 kpi ys labels :
  delta_to_dataframe_all_variants g = Some to_df ->
  variants !! 1 = Some baseline ->
  b_frame f !! 0 = Some (c0name, c0) ->
  b_frame f !! 2 = Some (kpi, ColNum ys) ->
  get_col (b_frame f) "variant" = Some (ColStr labels) ->
  exists t,
    do_delta g variants deltaWorker f bin = Return t
    /\ t_rows t = map (variant_row to_df deltaWorker kpi c0 ys baseline bin) (unique labels)
    /\ forall v, v ∈ labels ->
         variant_row to_df deltaWorker kpi c0 ys baseline bin v ∈ t_rows t.
Proof.
  intros Hg Hb H0 H2 Hv. unfold do_delta, iloc. rewrite H2, H0, Hb, Hv. simpl.
  destruct (do_delta_variants g to_df deltaWorker kpi c0 ys baseline bin
              (unique labels) empty_table Hg) as (t & Ht & Hrows).
  exists t. split; [done|]. split; [done|].
  intros v Hin. rewrite Hrows. simpl. apply list_elem_of_fmap. exists v.
  split; [done | by apply elem_of_unique].
Qed.

(** ** The rows of a bin (lines 510-514) *)

Lemma mask_filter_map {A B} (f : A -> B) (m : list bool) (l : list A) :
  mask_filter m (map f l) = map f (mask_filter m l).
Proof.
  revert l. induction m as [|b m IH]; intros [|x l]; simpl; try done.
  destruct b; simpl; by rewrite IH.
Qed.

Lemma col_cells_mask m c : col_cells (mask_col m c) = mask_filter m (col_cells c).
Proof. destruct c; simpl; by rewrite mask_filter_map. Qed.

Lemma mask_cols_keep {A} (m : list bool) n (cols : list (list A)) :
  Forall (fun c => length c = S n) cols ->
  omap head (map (mask_filter (true :: m)) cols) = omap head cols
  /\ map tail (map (mask_filter (true :: m)) cols) = map (mask_filter m) (map tail cols).
Proof.
  induction 1 as [|c cols Hc _ [IH1 IH2]]; [done|].
  destruct c as [|x c]; [done|]. simpl. split; f_equal; [exact IH1 | exact IH2].
Qed.

Lemma mask_cols_skip {A} (m : list bool) n (cols : list (list A)) :
  Forall (fun c => length c = S n) cols ->
  map (mask_filter (false :: m)) cols = map (mask_filter m) (map tail cols).
Proof.
  induction 1 as [|c cols Hc _ IH]; [done|].
  destruct c as [|x c]; [done|]. simpl. f_equal. exact IH.
Qed.

Lemma Forall_tail_length {A} n (cols : list (list A)) :
  Forall (fun c => length c = S n) cols -> Forall (fun c => length c = n) (map tail cols).
Proof.
  induction 1 as [|c cols Hc _ IH]; simpl; constructor; [|done].
  destruct c; simpl in *; congruence.
Qed.

Lemma zip_rows_mask (p : Label -> bool) bins (cols : list (list cell)) :
  Forall (fun c => length c = length bins) cols ->
  zip_rows (mask_filter (map p bins) bins) (map (mask_filter (map p bins)) cols)
  = filter (fun r => p r.1 = true) (zip_rows bins cols).
Proof.
  revert cols. induction bins as [|b bins IH]; intros cols Hlen; [done|].
  change (length (b :: bins)) with (S (length bins)) in Hlen.
  pose proof (Forall_tail_length _ _ Hlen) as Htl.
  change (map p (b :: bins)) with (p b :: map p bins).
  change (zip_rows (b :: bins) cols)
    with ((b, omap head cols) :: zip_rows bins (map tail cols)).
  destruct (p b) eqn:Hb.
  - change (mask_filter (true :: map p bins) (b :: bins))
      with (b :: mask_filter (map p bins) bins).
    change (zip_rows (b :: ?bs) ?cs) with ((b, omap head cs) :: zip_rows bs (map tail cs)).
    destruct (mask_cols_keep (map p bins) _ cols Hlen) as [-> ->].
    rewrite filter_cons_True by done. by rewrite (IH _ Htl).
  - change (mask_filter (false :: map p bins) (b :: bins))
      with (mask_filter (map p bins) bins).
    rewrite (mask_cols_skip _ _ _ Hlen).
    rewrite filter_cons_False by (simpl; by rewrite Hb). by apply IH.
Qed.

Lemma NoDup_unique {A} `{EqDecision A} (l : list A) : NoDup (unique l).
Proof.
  induction l as [|x l IH]; simpl; constructor.
  - rewrite list_elem_of_filter. by intros [? _].
  - by apply NoDup_filter.
Qed.

Lemma rows_bin_subset cumulative (df : Binned) b :
  rectangular df ->
  rows (bin_subset cumulative df b)
  = filter (fun r => (if cumulative then label_le r.1 b else label_eq r.1 b) = true) (rows df).
Proof.
  intros Hrect. unfold rows, bin_subset, where_, mask_frame. simpl.
  rewrite map_map. simpl.
  rewrite <- (zip_rows_mask (fun l => if cumulative then label_le l b else label_eq l b)).
  - f_equal. rewrite map_map. apply map_ext. intros [n c]. simpl. apply col_cells_mask.
  - unfold rectangular in Hrect. apply Forall_map.
    eapply Forall_impl; [exact Hrect|]. intros [n c] Hc. simpl in *.
    rewrite <- Hc. destruct c; simpl; by rewrite length_map.
Qed.


(** C3, the code against the claim: in a namespace where
    [delta_to_dataframe_all_variants] is not bound, as in the module
    itself, [_binned_deltas] on a frame that has a row raises NameError
    on that name at the first variant of the first bin, before the
    worker is called for any variant: no comparison is run. *)
Theorem binned_deltas_runs_no_comparison g (df : DataFrame) variants baseline n_bins binning0
    cumulative fmt deltaWorker binning c0 src kpi labels l ls b bs :
  delta_to_dataframe_all_variants g = None ->
  variants !! 1 = Some baseline ->
  df !! 0 = Some c0 -> df !! 1 = Some src -> df !! 2 = Some kpi ->
  get_col df "variant" = Some (ColStr labels) -> labels = l :: ls ->
  binning0 = Some binning \/ (binning0 = None /\ binning = create_binning src.2 n_bins) ->
  (cumulative = true -> is_NumericalBinning binning = true) ->
  binning_label binning src.2 fmt = b :: bs ->
  (if cumulative then label_le b b else label_eq b b) = true ->
  _binned_deltas g df variants n_bins binning0 cumulative fmt deltaWorker
  = Raise (NameError "delta_to_dataframe_all_variants").
Proof.
  intros Hg Hb H0 H1 H2 Hv -> Hbinning Hguard Hbins Hrefl.
  destruct c0 as [n0 c0], kpi as [nk ck].
  assert (cumulative && negb (is_NumericalBinning binning) = false) as Hgd.
  { destruct cumulative; [|done]. by rewrite Hguard. }
  assert (_binned_deltas g df variants n_bins binning0 cumulative fmt deltaWorker
          = (result ← bins_loop (do_delta g variants deltaWorker) cumulative
                        {| b_frame := df; b_bins := b :: bs |};
             wrap_result g binning result)) as ->.
  { unfold _binned_deltas, iloc. rewrite H1.
    destruct Hbinning as [->|[-> ->]]; simpl; by rewrite Hgd, Hbins. }
  unfold bins_loop. cbn [b_bins unique for_fold].
  set (m := map (fun l0 => if cumulative then label_le l0 b else label_eq l0 b) (b :: bs)).
  assert (do_delta g variants deltaWorker
            (bin_subset cumulative {| b_frame := df; b_bins := b :: bs |} b) b
          = Raise (NameError "delta_to_dataframe_all_variants")) as ->; [|done].
  unfold do_delta, iloc, bin_subset, where_. cbn [b_frame b_bins]. fold m.
  rewrite (mask_frame_lookup m df 2 nk ck H2), (mask_frame_lookup m df 0 n0 c0 H0), Hb.
  rewrite get_col_mask_frame, Hv. subst m. cbn [map fmap option_fmap option_map mbind
    outcome_bind mask_col mask_filter col_labels]. rewrite Hrefl.
  cbn [mask_filter unique for_fold]. unfold do_delta_variant, global. by rewrite Hg.
Qed.

(** ** [delta] (lines 93-119) *)

Lemma delta_kpi_inner self worker result kpi :
  delta_kpi self worker result kpi
  = (inner ← delta_inner self worker kpi; Return (<[kpi := inner]> result)).
Proof.
  unfold delta_kpi, delta_inner.
  destruct (getattr self "controlVariantName" ≫= as_str) as [c|]; simpl; [|done].
  destruct (getKPIbyNameAndVariant self kpi c) as [control|]; simpl; [|done].
  destruct (_getWeights self kpi c) as [cw|]; simpl; [|done].
  by destruct (getattr self "variantNames" ≫= as_names) as [vs|]; simpl.
Qed.

(** A loop that stores one value per key leaves each key of the list
    bound to its value. *)
Lemma for_fold_insert {V} (body : gmap string V -> string -> outcome (gmap string V))
    (val : string -> V) xs acc :
  (forall m x, x ∈ xs -> body m x = Return (<[x := val x]> m)) ->
  exists m', for_fold body acc xs = Return m'
    /\ (forall x, x ∈ xs -> m' !! x = Some (val x))
    /\ (forall x, x ∉ xs -> m' !! x = acc !! x).
Proof.
  revert acc. induction xs as [|x xs IH]; intros acc Hbody.
  - exists acc. split; [done|]. split; [|done]. intros x Hx. by apply not_elem_of_nil in Hx.
  - rewrite for_fold_cons, (Hbody acc x) by left. rewrite bind_Return.
    destruct (IH (<[x := val x]> acc)) as (m' & -> & Hin & Hout).
    { intros m y Hy. apply Hbody. by right. }
    exists m'. split; [done|]. split.
    + intros y Hy. destruct (decide (y ∈ xs)) as [Hys|Hys]; [by apply Hin|].
      apply elem_of_cons in Hy as [->|Hy]; [|done].
      rewrite (Hout _ Hys). apply lookup_insert_eq.
    + intros y Hy. apply not_elem_of_cons in Hy as [Hne Hy].
      rewrite (Hout _ Hy). by rewrite lookup_insert_ne.
Qed.

Lemma derive_in_order_other data ks data' n :
  derive_in_order data ks = Return data' -> n ∉ map name ks ->
  get_col data' n = get_col data n.
Proof.
  revert data. induction ks as [|k ks IH]; intros data H Hn; simpl in H.
  - by inversion H.
  - apply not_elem_of_cons in Hn as [Hk Hn].
    destruct (py_eval _ data) as [v|]; simpl in H; [|done].
    rewrite (IH _ H Hn). by apply get_col_set_col_ne.
Qed.

Lemma numeric_not_variant (data : DataFrame) labels n c :
  get_col data "variant" = Some (ColStr labels) ->
  get_col data n = Some c -> is_object c = false -> n <> "variant".
Proof. intros Hv Hc Hnum ->. rewrite Hv in Hc. by inversion Hc; subst c. Qed.

(** The column of a derived KPI holds floats. *)
Lemma derive_in_order_derived data ks data' n :
  derive_in_order data ks = Return data' -> n ∈ map name ks ->
  exists xs, get_col data' n = Some (ColNum xs).
Proof.
  revert data. induction ks as [|k ks IH]; intros data H Hn; simpl in *.
  - destruct (not_elem_of_nil _ Hn).
  - destruct (py_eval _ data) as [v|]; simpl in H; [|done].
    destruct (decide (n ∈ map name ks)) as [Hin|Hout]; [by apply (IH _ H)|].
    apply elem_of_cons in Hn as [->|Hn]; [|done].
    rewrite (derive_in_order_other _ _ _ _ H Hout), get_col_set_col_eq.
    destruct v; by eexists.
Qed.

Lemma floats_numeric (c : column) : is_object c = false -> exists l, floats c = Return l.
Proof. destruct c; [done | by eexists | by eexists]. Qed.

Lemma is_object_mask_col m c : is_object (mask_col m c) = is_object c.
Proof. by destruct c. Qed.

(** The values of a numeric KPI for a variant on two rows or more, times
    their weight: a Series. *)
Lemma weighted_returns (self : obj) data refs labels kpi v c :
  self !! "data" = Some (AFrame data) ->
  self !! "referenceKpis" = Some (ADict refs) ->
  has_col data "index" && has_col data "level_0" = false ->
  get_col data "variant" = Some (ColStr labels) ->
  2 <= occurrences labels v -> kpi <> "variant" ->
  get_col data kpi = Some c -> is_object c = false ->
  (forall r, refs !! kpi = Some r ->
     r <> "variant" /\ exists c', get_col data r = Some c' /\ is_object c' = false) ->
  exists values weight x,
    getKPIbyNameAndVariant self kpi v = Return values
    /\ _getWeights self kpi v = Return weight
    /\ times values weight = Return (VSeries x).
Proof.
  intros Hd Hr Hreset Hv Htwo Hne Hc Hnum Href.
  exists (Series (mask_col (map (String.eqb v) labels) c)).
  assert (exists weight, _getWeights self kpi v = Return weight) as [weight Hw].
  { destruct (refs !! kpi) as [r|] eqn:Hk.
    - destruct (Href r eq_refl) as (Hrne & c' & Hc' & Hnum').
      rewrite (getWeights_series _ _ _ _ _ _ _ _ Hd Hr Hreset Hv Htwo Hk Hrne Hc').
      destruct c'; [done | by eexists | by eexists].
    - unfold _getWeights, getattr. rewrite Hr. simpl. rewrite Hk. by eexists. }
  exists weight.
  destruct (floats_numeric (mask_col (map (String.eqb v) labels) c)) as [l Hl];
    [by rewrite is_object_mask_col|].
  destruct weight as [a|ws]; eexists;
    (split; [by apply getKPIbyNameAndVariant_series with data|]); (split; [done|]);
    simpl; by rewrite Hl.
Qed.

Lemma delta_variant_step (self : obj) worker kpi ctrl control cw inner v values weight x y :
  getKPIbyNameAndVariant self kpi v = Return values ->
  _getWeights self kpi v = Return weight ->
  times values weight = Return (VSeries x) ->
  times control cw = Return (VSeries y) ->
  delta_variant self worker kpi ctrl control cw inner v
  = Return (<[v := {| controlVariant := ctrl; treatmentVariant := v;
                      deltaStatistics := worker x y |}]> inner).
Proof.
  intros Hv Hw Hx Hy. unfold delta_variant.
  by rewrite Hv, Hw, !bind_Return, Hx, bind_Return, Hy.
Qed.

Lemma weighted_eq (self : obj) kpi v values weight x :
  getKPIbyNameAndVariant self kpi v = Return values ->
  _getWeights self kpi v = Return weight ->
  times values weight = Return x ->
  weighted self kpi v = Return x.
Proof. intros Hv Hw Hx. unfold weighted. by rewrite Hv, Hw. Qed.

(** The inner loop of [delta] for one KPI: an entry for every variant
    name, and no other. *)
Lemma delta_inner_full (self : obj) worker data refs labels ctrl names kpi c :
  self !! "data" = Some (AFrame data) ->
  self !! "referenceKpis" = Some (ADict refs) ->
  self !! "controlVariantName" = Some (AStr ctrl) ->
  self !! "variantNames" = Some (ANames names) ->
  has_col data "index" && has_col data "level_0" = false ->
  get_col data "variant" = Some (ColStr labels) ->
  2 <= occurrences labels ctrl -> (forall v, v ∈ names -> 2 <= occurrences labels v) ->
  kpi <> "variant" -> get_col data kpi = Some c -> is_object c = false ->
  (forall r, refs !! kpi = Some r ->
     r <> "variant" /\ exists c', get_col data r = Some c' /\ is_object c' = false) ->
  exists inner y,
    delta_inner self worker kpi = Return inner
    /\ weighted self kpi ctrl = Return (VSeries y)
    /\ (forall v, v ∈ names ->
          exists x, weighted self kpi v = Return (VSeries x)
            /\ inner !! v = Some {| controlVariant := ctrl; treatmentVariant := v;
                                    deltaStatistics := worker x y |})
    /\ (forall v, v ∉ names -> inner !! v = None).
Proof.
  intros Hd Hr Hc Hn Hreset Hv Hctrl Hnames Hne Hk Hnum Href.
  destruct (weighted_returns self data refs labels kpi ctrl c Hd Hr Hreset Hv Hctrl Hne Hk
              Hnum Href) as (control & cw & y & Hcontrol & Hcw & Hy).
  set (val := fun v => {| controlVariant := ctrl; treatmentVariant := v;
                          deltaStatistics := worker (or_nil (weighted self kpi v)) y |}).
  destruct (for_fold_insert (delta_variant self worker kpi ctrl control cw) val names ∅)
    as (inner & Hfold & Hin & Hout).
  { intros m v Hvin.
    destruct (weighted_returns self data refs labels kpi v c Hd Hr Hreset Hv (Hnames v Hvin)
                Hne Hk Hnum Href) as (values & weight & x & Hvalues & Hweight & Hx).
    rewrite (delta_variant_step _ _ _ _ _ _ _ _ _ _ _ _ Hvalues Hweight Hx Hy).
    unfold val. by rewrite (weighted_eq _ _ _ _ _ _ Hvalues Hweight Hx). }
  exists inner, y. split; [|split; [|split]].
  - unfold delta_inner, getattr. rewrite Hc, Hn. simpl. by rewrite Hcontrol, Hcw.
  - by apply weighted_eq with control cw.
  - intros v Hvin.
    destruct (weighted_returns self data refs labels kpi v c Hd Hr Hreset Hv (Hnames v Hvin)
                Hne Hk Hnum Href) as (values & weight & x & Hvalues & Hweight & Hx).
    exists x. split; [by apply weighted_eq with values weight|].
    rewrite (Hin v Hvin). unfold val.
    by rewrite (weighted_eq _ _ _ _ _ _ Hvalues Hweight Hx).
  - intros v Hv'. by rewrite (Hout v Hv').
Qed.

Lemma delta_inner_ready (self : obj) worker data refs ctrl names kpis labels kpi :
  delta_ready self data refs ctrl names kpis labels -> kpi ∈ kpis ->
  exists inner y,
    delta_inner self worker kpi = Return inner
    /\ weighted self kpi ctrl = Return (VSeries y)
    /\ (forall v, v ∈ names ->
          exists x, weighted self kpi v = Return (VSeries x)
            /\ inner !! v = Some {| controlVariant := ctrl; treatmentVariant := v;
                                    deltaStatistics := worker x y |})
    /\ (forall v, v ∉ names -> inner !! v = None).
Proof.
  intros (Hd & Hr & Hc & Hn & Hk & Hreset & Hv & Hctrl & Hnames & Hkpis & Hrefs) Hkin.
  destruct (Hkpis kpi Hkin) as (c & Hc' & Hnum).
  apply (delta_inner_full self worker data refs labels ctrl names kpi c); try done.
  - by apply (numeric_not_variant data labels kpi c).
  - intros r Hkr. destruct (Hrefs kpi r Hkin Hkr) as (c' & Hcr & Hnum').
    split; [by apply (numeric_not_variant data labels r c') | by exists c'].
Qed.

(** [delta] on an instance that is ready for it: one inner mapping per
    reported KPI, and no other key. *)
Lemma delta_result (self : obj) data refs ctrl names kpis labels method make args :
  delta_ready self data refs ctrl names kpis labels ->
  workerTable method = Some make ->
  exists result,
    delta self method args = Return result
    /\ (forall kpi, kpi ∈ kpis ->
          exists inner, delta_inner self (make args) kpi = Return inner
                        /\ result !! kpi = Some inner)
    /\ (forall kpi, kpi ∉ kpis -> result !! kpi = None).
Proof.
  intros Hready Hm.
  pose proof Hready as (Hd & Hr & Hc & Hn & Hk & Hreset & Hv & Hctrl & Hnames & Hkpis & Hrefs).
  destruct (for_fold_insert (delta_kpi self (make args))
              (fun kpi => or_empty (delta_inner self (make args) kpi)) kpis ∅)
    as (result & Hfold & Hin & Hout).
  { intros m kpi Hkin. rewrite delta_kpi_inner.
    by destruct (delta_inner_ready self (make args) _ _ _ _ _ _ kpi Hready Hkin)
      as (inner & y & -> & _). }
  exists result. split; [|split].
  - unfold delta, getattr. rewrite Hm, Hk. simpl. exact Hfold.
  - intros kpi Hkin.
    destruct (delta_inner_ready self (make args) _ _ _ _ _ _ kpi Hready Hkin)
      as (inner & y & Hinner & _).
    exists inner. split; [done|]. by rewrite (Hin kpi Hkin), Hinner.
  - intros kpi Hkout. by rewrite (Hout kpi Hkout).
Qed.

(** A constructed Experiment is ready for [delta] when its table is. *)
Lemma Experiment_delta_ready ctrl data md rk dks e data' refs labels :
  Experiment ctrl data md rk dks = Return e ->
  e !! "data" = Some (AFrame data') ->
  e !! "referenceKpis" = Some (ADict refs) ->
  get_col data' "variant" = Some (ColStr labels) ->
  has_col data' "index" && has_col data' "level_0" = false ->
  ctrl ∈ labels ->
  (forall v, v ∈ labels -> 2 <= occurrences labels v) ->
  (forall kpi, kpi ∈ reportKpiNames_or rk data ->
     exists c, get_col data' kpi = Some c /\ is_object c = false) ->
  (forall kpi r, kpi ∈ reportKpiNames_or rk data -> refs !! kpi = Some r ->
     exists c, get_col data' r = Some c /\ is_object c = false) ->
  delta_ready e data' refs ctrl (elements (list_to_set labels : gset string))
    (reportKpiNames_or rk data) labels.
Proof.
  intros H Hd Hr Hv' Hreset Hctrl Htwo Hkpis Hrefs.
  destruct (Experiment_state _ _ _ _ _ _ H) as (data'' & Hrun & Hd'' & _).
  rewrite Hd in Hd''. inversion Hd''; subst data''.
  assert ("variant" ∉ map name dks) as Hnv.
  { intros Hin. destruct (derive_in_order_derived _ _ _ _ Hrun Hin) as [xs Hxs].
    rewrite Hv' in Hxs. discriminate Hxs. }
  assert (get_col data "variant" = Some (ColStr labels)) as Hv
    by (by rewrite <- (derive_in_order_other _ _ _ _ Hrun Hnv)).
  destruct (Experiment_attr _ _ _ _ _ _ "reportKpiNames" H) as (v1 & Hv1 & Hrk); [done..|].
  destruct (Experiment_attr _ _ _ _ _ _ "variantNames" H) as (v2 & Hv2 & Hvn); [done..|].
  destruct (Experiment_attr _ _ _ _ _ _ "controlVariantName" H) as (v3 & Hv3 & Hcn); [done..|].
  rewrite Hv in Hv2. inversion Hv2; subst v2. clear Hv1 Hv2 Hv3.
  unfold after_line_57 in Hrk, Hvn, Hcn.
  rewrite !lookup_insert_ne, lookup_insert_eq in Hrk by done.
  rewrite !lookup_insert_ne, lookup_insert_eq in Hvn by done.
  rewrite !lookup_insert_ne, lookup_insert_eq in Hcn by done.
  simpl in Hvn.
  unfold delta_ready. repeat (split; [done|]). split; [by apply Htwo|].
  split; [|done].
  intros v Hin. apply Htwo. by apply elem_of_elements, elem_of_list_to_set in Hin.
Qed.

(** C1, amended: for a constructed Experiment whose table (variant
    labels being strings) does not hold both a column [index] and a
    column [level_0], whose control variant is the label of a row, whose
    every variant labels at least two rows, and whose reported KPIs, and
    the reference KPIs recorded for them, are numeric columns of the
    table, [delta(method, workerArgs)] with a known method returns a
    mapping that has, for every reported KPI and every variant of the
    data (the control variant too), an entry under (kpi, variant) with
    the control variant, the variant, and the worker applied to x = the
    variant's KPI values times weight(kpi, variant) and y = the control
    variant's KPI values times weight(kpi, control variant). *)
Theorem delta_entries ctrl data md rk dks e data' refs labels method make args :
  Experiment ctrl data md rk dks = Return e ->
  e !! "data" = Some (AFrame data') ->
  e !! "referenceKpis" = Some (ADict refs) ->
  workerTable method = Some make ->
  get_col data' "variant" = Some (ColStr labels) ->
  has_col data' "index" && has_col data' "level_0" = false ->
  ctrl ∈ labels ->
  (forall v, v ∈ labels -> 2 <= occurrences labels v) ->
  (forall kpi, kpi ∈ reportKpiNames_or rk data ->
     exists c, get_col data' kpi = Some c /\ is_object c = false) ->
  (forall kpi r, kpi ∈ reportKpiNames_or rk data -> refs !! kpi = Some r ->
     exists c, get_col data' r = Some c /\ is_object c = false) ->
  exists result,
    delta e method args = Return result
    /\ forall kpi v, kpi ∈ reportKpiNames_or rk data -> v ∈ labels ->
         exists inner x y,
           result !! kpi = Some inner
           /\ weighted e kpi v = Return (VSeries x)
           /\ weighted e kpi ctrl = Return (VSeries y)
           /\ inner !! v = Some {| controlVariant := ctrl; treatmentVariant := v;
                                   deltaStatistics := make args x y |}.
Proof.
  intros H Hd Hr Hm Hv Hreset Hctrl Htwo Hkpis Hrefs.
  pose proof (Experiment_delta_ready _ _ _ _ _ _ _ _ _ H Hd Hr Hv Hreset Hctrl Htwo
                Hkpis Hrefs) as Hready.
  destruct (delta_result _ _ _ _ _ _ _ method make args Hready Hm)
    as (result & Hdelta & Hin & _).
  exists result. split; [done|]. intros kpi v Hk Hvin.
  destruct (Hin kpi Hk) as (inner & Hinner & Hlook).
  destruct (delta_inner_ready e (make args) _ _ _ _ _ _ kpi Hready Hk)
    as (inner' & y & Hinner' & Hy & Hentries & _).
  rewrite Hinner in Hinner'. injection Hinner' as <-.
  destruct (Hentries v) as (x & Hx & Hentry); [by apply elem_of_elements, elem_of_list_to_set|].
  by exists inner, x, y.
Qed.

(** ** The constructor, further *)

Lemma find_none_required data rk dks :
  (forall c, required_column (reportKpiNames_or rk data) dks c -> has_col data c = true) ->
  List.find (fun c => negb (has_col data c))
    (elements (requiredColumnNames (reportKpiNames_or rk data) dks)) = None.
Proof.
  intros Hall. destruct (List.find _ _) as [c|] eqn:Hfind; [|done].
  pose proof (find_some _ _ Hfind) as [Hin Hneg].
  apply list_elem_of_In, elem_of_elements, elem_of_requiredColumnNames in Hin.
  rewrite (Hall c Hin) in Hneg. done.
Qed.

Lemma add_derived_kpis_returns (self : obj) ks data refs data' :
  self !! "data" = Some (AFrame data) ->
  self !! "referenceKpis" = Some (ADict refs) ->
  derive_in_order data ks = Return data' ->
  exists self', add_derived_kpis self ks = (self', Return ()).
Proof.
  revert self data refs. induction ks as [|k ks IH]; intros self data refs Hd Hr Hrun.
  - by exists self.
  - simpl in Hrun. simpl. unfold add_derived_kpi, getattr. rewrite Hd. simpl.
    destruct (py_eval _ data) as [v|] eqn:Hv; simpl in Hrun; [|done]. simpl.
    rewrite lookup_insert_ne by done. rewrite Hr. simpl.
    eapply IH; [| |exact Hrun].
    + rewrite lookup_insert_ne by done. apply lookup_insert_eq.
    + apply lookup_insert_eq.
Qed.

(** X1: construction succeeds exactly when every required column is in
    the input table, the table has a variant column, and the derived-KPI
    formulas evaluate one after the other. *)
Theorem Experiment_returns_iff ctrl data md rk dks :
  (exists e, Experiment ctrl data md rk dks = Return e)
  <-> (forall c, required_column (reportKpiNames_or rk data) dks c -> has_col data c = true)
      /\ is_Some (get_col data "variant")
      /\ exists data', derive_in_order data dks = Return data'.
Proof.
  split.
  - intros [e H]. destruct (Experiment_inv _ _ _ _ _ _ H) as (Hreq & v & Hv & _).
    destruct (Experiment_state _ _ _ _ _ _ H) as (data' & Hrun & _).
    split; [done|]. split; [by exists v | by exists data'].
  - intros (Hreq & [v Hv] & data' & Hrun).
    unfold Experiment, __init__. rewrite (find_none_required _ _ _ Hreq), Hv.
    edestruct (add_derived_kpis_returns
                 (after_line_57 ctrl data md (reportKpiNames_or rk data) dks v)
                 dks data ∅ data') as [self' Hself]; [done..|].
    unfold after_line_57 in Hself. rewrite Hself. exists self'. reflexivity.
Qed.

Lemma derive_in_order_has_col data ks data' c :
  derive_in_order data ks = Return data' -> has_col data c = true -> has_col data' c = true.
Proof.
  revert data. induction ks as [|k ks IH]; intros data H Hc; simpl in H.
  - by simplify_eq.
  - destruct (py_eval _ data) as [v|]; simpl in H; [|done].
    apply (IH _ H). apply has_col_true.
    destruct (decide (name k = c)) as [<-|Hne].
    + rewrite get_col_set_col_eq. by eexists.
    + rewrite get_col_set_col_ne by done. by apply has_col_true.
Qed.

Lemma derive_in_order_has_derived data ks data' k :
  derive_in_order data ks = Return data' -> k ∈ ks -> has_col data' (name k) = true.
Proof.
  revert data. induction ks as [|k0 ks IH]; intros data H Hk; simpl in H.
  - by apply not_elem_of_nil in Hk.
  - destruct (py_eval _ data) as [v|]; simpl in H; [|done].
    apply elem_of_cons in Hk as [->|Hk]; [|by apply (IH _ H)].
    apply (derive_in_order_has_col _ _ _ _ H), has_col_true.
    rewrite get_col_set_col_eq. by eexists.
Qed.

(** X2: the table of a constructed Experiment has every column of the
    input table, a column for every derived KPI and for every reported
    KPI; the input columns that no derived KPI is named after are
    unchanged. *)
Theorem constructed_columns ctrl data md rk dks e :
  Experiment ctrl data md rk dks = Return e ->
  exists data',
    getattr e "data" = Return (AFrame data')
    /\ (forall c, has_col data c = true -> has_col data' c = true)
    /\ (forall k, k ∈ dks -> has_col data' (name k) = true)
    /\ (forall kpi, kpi ∈ reportKpiNames_or rk data -> has_col data' kpi = true)
    /\ (forall c, c ∉ map name dks -> get_col data' c = get_col data c).
Proof.
  intros H. destruct (Experiment_inv _ _ _ _ _ _ H) as (Hreq & _).
  destruct (Experiment_state _ _ _ _ _ _ H) as (data' & Hrun & Hd & _).
  exists data'. split; [unfold getattr; by rewrite Hd|].
  split; [intros c; apply (derive_in_order_has_col _ _ _ _ Hrun)|].
  split; [intros k; apply (derive_in_order_has_derived _ _ _ _ Hrun)|].
  split; [|intros c; apply (derive_in_order_other _ _ _ _ Hrun)].
  intros kpi Hk. destruct (decide (kpi ∈ map name dks)) as [Hin|Hout].
  - apply list_elem_of_fmap in Hin as (k & -> & Hkin).
    by apply (derive_in_order_has_derived _ _ _ _ Hrun).
  - apply (derive_in_order_has_col _ _ _ _ Hrun), Hreq. left. split; [by left | done].
Qed.

(** X3: the variants of a constructed Experiment are the labels of the
    variant column of the input table, each once. *)
Theorem constructed_variantNames ctrl data md rk dks e labels :
  Experiment ctrl data md rk dks = Return e ->
  get_col data "variant" = Some (ColStr labels) ->
  exists names,
    getattr e "variantNames" = Return (ANames names)
    /\ NoDup names
    /\ forall x, x ∈ names <-> x ∈ labels.
Proof.
  intros H Hlabels.
  destruct (Experiment_attr _ _ _ _ _ _ "variantNames" H) as (v & Hv & Hvn); [done..|].
  rewrite Hlabels in Hv. injection Hv as <-.
  unfold after_line_57 in Hvn. rewrite !lookup_insert_ne, lookup_insert_eq in Hvn by done.
  exists (elements (list_to_set labels : gset string)).
  split; [unfold getattr; by rewrite Hvn|].
  split; [apply NoDup_elements|].
  intros x. by rewrite elem_of_elements, elem_of_list_to_set.
Qed.

(** ** [__str__] *)

(** X4: [__str__] returns for no instance: on a constructed Experiment
    it raises AttributeError, [variant_names] not being an attribute the
    constructor assigns; on an instance that has it, it raises at line 75. *)
Theorem str_always_raises ctrl data md rk dks e :
  Experiment ctrl data md rk dks = Return e ->
  __str__ e = Raise (AttributeError "variant_names")
  /\ forall self : obj, exists ex, __str__ self = Raise ex.
Proof.
  intros H. split.
  - unfold __str__, getattr.
    rewrite (Experiment_unbound _ _ _ _ _ _ "variant_names" H); [done|].
    repeat (first [by left | right]).
  - intros self. unfold __str__. destruct (getattr self "variant_names"); by eexists.
Qed.

(** ** The reference KPI of a formula without a division *)

Lemma span_word_no_slash s w r :
  no_slash s = true -> Re.span_word s = (w, String "/" r) -> False.
Proof.
  revert w. induction s as [|c s IH]; intros w Hs Hspan; simpl in *; [done|].
  apply andb_true_iff in Hs as [Hc Hs].
  destruct (Re.is_word c).
  - destruct (Re.span_word s) as [w' r'] eqn:E. inversion Hspan; subst.
    by apply (IH w').
  - inversion Hspan; subst. by rewrite Ascii.eqb_refl in Hc.
Qed.

Lemma pieces_no_slash s :
  no_slash s = true ->
  Re.pieces Re.kpiNamePattern_slash 0 s = map Re.Lit (list_ascii_of_string s).
Proof.
  induction s as [|c s IH]; intros Hs; [done|].
  pose proof Hs as Hs'. simpl in Hs'. apply andb_true_iff in Hs' as [Hc Hs'].
  simpl. rewrite (IH Hs').
  destruct (Re.is_alpha c); [|done].
  destruct (Re.span_word s) as [w r] eqn:E.
  destruct r as [|c' r]; [done|].
  destruct (Ascii.eqb_spec c' "/") as [->|Hne].
  - destruct (span_word_no_slash s w r Hs' E).
  - destruct c' as [[] [] [] [] [] [] [] []]; try done.
Qed.

Lemma sub_no_slash s :
  no_slash s = true -> Re.sub Re.kpiNamePattern_slash (fun _ => "") s = s.
Proof. intros Hs. unfold Re.sub. rewrite (pieces_no_slash s Hs). apply sub_lits. Qed.

(** X5: a derived KPI (the last declared of its name) whose formula
    has no slash gets the formula itself recorded as reference KPI, so
    that its weight, for a variant of a table with string variant labels
    on which [reset_index] works, is a KeyError on the formula text
    unless the table has a column of that name. *)
Theorem reference_of_formula_without_division ctrl data md rk dks e i k :
  Experiment ctrl data md rk dks = Return e ->
  dks !! i = Some k ->
  (forall j k', i < j -> dks !! j = Some k' -> name k' <> name k) ->
  no_slash (formula k) = true ->
  exists data' refs,
    getattr e "data" = Return (AFrame data')
    /\ getattr e "referenceKpis" = Return (ADict refs)
    /\ refs !! name k = Some (formula k)
    /\ forall labels variant,
         has_col data' "index" && has_col data' "level_0" = false ->
         get_col data' "variant" = Some (ColStr labels) -> variant ∈ labels ->
         has_col data' (formula k) = false ->
         _getWeights e (name k) variant = Raise (KeyError (formula k)).
Proof.
  intros H Hi Hlast Hs.
  assert (k ∈ dks) as Hk by (by apply list_elem_of_lookup_2 with i).
  destruct (Experiment_inv _ _ _ _ _ _ H) as (Hreq & _).
  destruct (Experiment_state _ _ _ _ _ _ H) as (data' & Hrun & Hd & Hr).
  exists data', (foldl record_reference ∅ dks).
  assert (foldl record_reference ∅ dks !! name k = Some (formula k)) as Href
    by (by rewrite (record_reference_last _ _ _ _ Hi Hlast), (sub_no_slash _ Hs)).
  split; [unfold getattr; by rewrite Hd|]. split; [unfold getattr; by rewrite Hr|].
  split; [exact Href|].
  intros labels variant Hreset Hv Hin Hnone.
  unfold _getWeights, getattr. rewrite Hr. simpl. rewrite Href.
  unfold getKPIbyNameAndVariant, getattr. rewrite Hd. simpl.
  destruct (reset_index_returns data' Hreset) as (n & -> & Hn & Hnn). rewrite bind_Return.
  rewrite (get_col_cons_other data' n _ "variant" Hn) by (by rewrite Hv).
  rewrite Hv. simpl.
  rewrite (loc_missing_column labels _ variant (formula k)); [done | done |].
  apply has_col_false in Hnone.
  destruct (decide (formula k = "variant")) as [Hfv|Hfv]; [by rewrite Hfv, Hv in Hnone|].
  rewrite get_col_drop_col by done. simpl.
  destruct (String.eqb n (formula k)) eqn:E; [|done].
  apply String.eqb_eq in E. exfalso.
  assert (has_col data' (formula k) = true) as Hhas; [|apply has_col_false in Hnone; congruence].
  apply (derive_in_order_has_col _ _ _ _ Hrun), Hreq. right. exists k. split; [done|].
  rewrite <- E, Hnn.
  destruct (has_col data' "index"); apply (bool_decide_unpack _); vm_compute; reflexivity.
Qed.

(** ** [delta], further *)

(** X6: [delta] raises NotImplementedError for every method name other
    than the four of the table, on every instance and before it reads any
    attribute; the four names select a worker. *)
Theorem delta_unknown_method (self : obj) method args :
  (method ∉ ["fixed_horizon"; "group_sequential"; "bayes_factor"; "bayes_precision"] ->
   delta self method args = Raise NotImplementedError)
  /\ (method ∈ ["fixed_horizon"; "group_sequential"; "bayes_factor"; "bayes_precision"] ->
      is_Some (workerTable method)).
Proof.
  unfold delta, workerTable. split.
  - intros Hm. rewrite !not_elem_of_cons in Hm. destruct Hm as (H1 & H2 & H3 & H4 & _).
    apply String.eqb_neq in H1, H2, H3, H4. by rewrite H1, H2, H3, H4.
  - intros Hm. repeat (apply elem_of_cons in Hm as [->|Hm]; [by eexists|]).
    by apply not_elem_of_nil in Hm.
Qed.

(** X7: on a constructed Experiment whose table, with string variant
    labels, does not hold both a column [index] and a column [level_0],
    that reports at least one KPI, the first of them not named
    [variant], and whose control variant labels no row, [delta] with a
    known method raises KeyError on the control variant. *)
Theorem delta_control_absent ctrl data md rk dks e data' method make args kpi kpis labels :
  Experiment ctrl data md rk dks = Return e ->
  e !! "data" = Some (AFrame data') ->
  has_col data' "index" && has_col data' "level_0" = false ->
  workerTable method = Some make ->
  reportKpiNames_or rk data = kpi :: kpis ->
  kpi <> "variant" ->
  get_col data' "variant" = Some (ColStr labels) ->
  ctrl ∉ labels ->
  delta e method args = Raise (KeyError ctrl).
Proof.
  intros H Hd Hreset Hm Hk Hkv Hv' Hctrl.
  destruct (Experiment_inv _ _ _ _ _ _ H) as (Hreq & _).
  destruct (Experiment_attr _ _ _ _ _ _ "reportKpiNames" H) as (v1 & _ & Hrk); [done..|].
  destruct (Experiment_attr _ _ _ _ _ _ "controlVariantName" H) as (v3 & _ & Hcn); [done..|].
  unfold after_line_57 in Hrk, Hcn.
  rewrite !lookup_insert_ne, lookup_insert_eq in Hrk by done.
  rewrite !lookup_insert_ne, lookup_insert_eq in Hcn by done.
  destruct (Experiment_state _ _ _ _ _ _ H) as (data'' & Hrun & Hd'' & _).
  rewrite Hd in Hd''. injection Hd'' as <-.
  assert (has_col data' kpi = true) as Hkpi.
  { destruct (decide (kpi ∈ map name dks)) as [Hin|Hout].
    - apply list_elem_of_fmap in Hin as (k & -> & Hkin).
      by apply (derive_in_order_has_derived _ _ _ _ Hrun).
    - apply (derive_in_order_has_col _ _ _ _ Hrun), Hreq. left.
      split; [left; rewrite Hk; left | done]. }
  assert (forall result, delta_kpi e (make args) result kpi = Raise (KeyError ctrl)) as Hstep.
  { intros result. unfold delta_kpi, getattr. rewrite Hcn. simpl.
    unfold getKPIbyNameAndVariant, getattr. rewrite Hd. simpl.
    destruct (reset_index_returns data' Hreset) as (n & -> & Hn & _). rewrite bind_Return.
    rewrite (get_col_cons_other data' n _ "variant" Hn) by (by rewrite Hv').
    rewrite Hv'. simpl.
    rewrite (loc_missing_label _ _ ctrl kpi Hctrl); [done|].
    rewrite get_col_drop_col by done.
    rewrite (get_col_cons_other data' n _ kpi Hn) by (by apply has_col_true).
    by apply has_col_true. }
  unfold delta, getattr. rewrite Hm, Hrk. simpl. by rewrite Hk, for_fold_cons, Hstep.
Qed.

(** ** [getKPIbyNameAndVariant] *)

Lemma mask_filter_some {A} labels (xs : list A) label :
  label ∈ labels -> length labels <= length xs ->
  mask_filter (map (String.eqb label) labels) xs <> [].
Proof.
  revert xs. induction labels as [|l labels IH]; intros xs Hin Hlen.
  - by apply not_elem_of_nil in Hin.
  - destruct xs as [|x xs]; [simpl in Hlen; lia|]. simpl in *.
    destruct (String.eqb label l) eqn:E; [done|].
    apply String.eqb_neq in E. apply elem_of_cons in Hin as [->|Hin]; [done|].
    apply IH; [done | lia].
Qed.

Lemma col_scalars_mask_some labels c label :
  label ∈ labels -> length labels <= col_len c ->
  col_scalars (mask_col (map (String.eqb label) labels) c) <> [].
Proof.
  intros Hin Hlen.
  destruct c as [l|l|l]; simpl in *;
    pose proof (mask_filter_some labels l label Hin Hlen) as Hne;
    by destruct (mask_filter _ l).
Qed.

(** On a frame, every column of the length of the variant column, a
    label that is carried and a column that is there give a value. *)
Lemma loc_returns labels (cols : DataFrame) label name c :
  label ∈ labels -> get_col cols name = Some c -> length labels <= col_len c ->
  exists sel, loc labels cols label name = Return sel.
Proof.
  intros Hin Hc Hlen. unfold loc. rewrite Hc.
  pose proof (col_scalars_mask_some labels c label Hin Hlen) as Hsome.
  destruct (col_scalars _) as [|v vs]; [done|].
  case_bool_decide; [by eexists|]. rewrite bool_decide_eq_true_2 by done.
  destruct (filter _ labels) as [|l1 [|l2 ls]]; by eexists.
Qed.

Lemma loc_returns_inv labels (cols : DataFrame) label name sel :
  loc labels cols label name = Return sel ->
  label ∈ labels /\ is_Some (get_col cols name).
Proof.
  unfold loc. intros H. destruct (get_col cols name) as [c|] eqn:Hc.
  - split; [|by eexists]. case_bool_decide as Hnd.
    + destruct (decide (label ∈ labels)) as [|Hout]; [done|].
      destruct c; simpl in H; by rewrite (mask_filter_none _ _ _ Hout) in H.
    + by case_bool_decide.
  - case_bool_decide; [done|]. by case_bool_decide.
Qed.

Lemma get_col_length (data : DataFrame) n c m :
  Forall (fun nc => col_len nc.2 = m) data -> get_col data n = Some c -> col_len c = m.
Proof.
  induction 1 as [|[k c0] data Hc0 _ IH]; simpl; [done|].
  destruct (String.eqb k n); [by intros [= <-] | exact IH].
Qed.

(** X8: on a frame (columns of one length), [getKPIbyNameAndVariant]
    returns exactly when the table does not hold both a column [index]
    and a column [level_0], it has a variant column, a row carries the
    variant, and the name is a column other than [variant] itself or the
    name [reset_index] gives to the old index; the variant column cannot
    be read through it. *)
Theorem getKPIbyNameAndVariant_returns_iff (self : obj) data name variant :
  self !! "data" = Some (AFrame data) ->
  Forall (fun nc => col_len nc.2 = nrows data) data ->
  (exists c, getKPIbyNameAndVariant self name variant = Return c)
  <-> has_col data "index" && has_col data "level_0" = false
      /\ exists v, get_col data "variant" = Some v
            /\ variant ∈ col_labels v
            /\ name <> "variant"
            /\ (is_Some (get_col data name)
                \/ name = if has_col data "index" then "level_0" else "index").
Proof.
  intros Hd Hrect. unfold getKPIbyNameAndVariant, getattr. rewrite Hd. simpl.
  assert (forall df : DataFrame, get_col (drop_col df "variant") "variant" = None) as Hdrop.
  { intros df. unfold drop_col, DataFrame in *. induction df as [|[k c] df IH]; [done|].
    rewrite filter_cons. simpl. case_decide as Hk; simpl; [|done].
    destruct (String.eqb_spec k "variant"); [done | apply IH]. }
  destruct (has_col data "index" && has_col data "level_0") eqn:Hreset.
  { rewrite (reset_index_raises data Hreset). split; [by intros [c H] | by intros [? _]]. }
  destruct (reset_index_returns data Hreset) as (n & -> & Hn & Hnn). rewrite bind_Return.
  assert (n <> "variant") as Hnv by (rewrite Hnn; by destruct (has_col data "index")).
  assert (get_col ((n, range_index (nrows data)) :: data) "variant" = get_col data "variant")
    as -> by (simpl; apply String.eqb_neq in Hnv; by rewrite Hnv).
  split.
  - intros [c H]. split; [done|]. destruct (get_col data "variant") as [v|]; [|done].
    exists v. split; [done|]. simpl in H.
    apply loc_returns_inv in H as [Hin [c' Hc']]. split; [done|].
    destruct (decide (name = "variant")) as [->|Hne]; [by rewrite Hdrop in Hc'|].
    split; [done|]. rewrite get_col_drop_col in Hc' by done. simpl in Hc'.
    destruct (String.eqb n name) eqn:E.
    + right. apply String.eqb_eq in E. by rewrite <- E.
    + left. by eexists.
  - intros (_ & v & Hv & Hin & Hne & Hname). rewrite Hv. simpl.
    assert (length (col_labels v) <= nrows data) as Hlen.
    { rewrite <- (get_col_length data "variant" v (nrows data) Hrect Hv).
      destruct v; simpl; lia. }
    assert (exists c, get_col (drop_col ((n, range_index (nrows data)) :: data) "variant") name
                      = Some c /\ col_len c = nrows data) as (c & Hc & Hclen).
    { rewrite get_col_drop_col by done. destruct Hname as [[c Hc]|Hname].
      - exists c. rewrite (get_col_cons_other data n _ name Hn) by (by rewrite Hc).
        split; [done|]. by apply (get_col_length data name).
      - exists (range_index (nrows data)). simpl. rewrite Hname, <- Hnn, String.eqb_refl.
        split; [done|]. simpl. by rewrite length_map, length_seq. }
    destruct (loc_returns (col_labels v) _ variant name c Hin Hc) as [sel Hsel]; [lia|].
    by exists sel.
Qed.

(** ** The mapping [delta] returns *)

(** X9: on an instance that is ready for [delta] (a table without both
    [index] and [level_0], string variant labels, control variant and
    variants on at least two rows each, numeric reported and reference
    KPI columns), the mapping [delta] returns has the reported KPIs as
    its keys and no other, and under each of them the variants of the
    instance and no other. *)
Theorem delta_keys (self : obj) data refs ctrl names kpis labels method make args :
  delta_ready self data refs ctrl names kpis labels ->
  workerTable method = Some make ->
  exists result,
    delta self method args = Return result
    /\ (forall kpi, is_Some (result !! kpi) <-> kpi ∈ kpis)
    /\ (forall kpi inner, result !! kpi = Some inner ->
          forall v, is_Some (inner !! v) <-> v ∈ names).
Proof.
  intros Hready Hm.
  destruct (delta_result self data refs ctrl names kpis labels method make args Hready Hm)
    as (result & Hdelta & Hin & Hout).
  exists result. split; [done|]. split.
  - intros kpi. split.
    + intros [inner Hinner]. destruct (decide (kpi ∈ kpis)) as [|Hno]; [done|].
      by rewrite (Hout kpi Hno) in Hinner.
    + intros Hkin. destruct (Hin kpi Hkin) as (inner & _ & ->). by eexists.
  - intros kpi inner Hinner v.
    assert (kpi ∈ kpis) as Hkin.
    { destruct (decide (kpi ∈ kpis)) as [|Hno]; [done|]. by rewrite (Hout kpi Hno) in Hinner. }
    destruct (Hin kpi Hkin) as (inner' & Hinner' & Hlook).
    rewrite Hinner in Hlook. inversion Hlook; subst inner'.
    destruct (delta_inner_ready self (make args) _ _ _ _ _ _ kpi Hready Hkin)
      as (inner2 & y & Hinner2 & _ & Hentries & Hnone).
    rewrite Hinner' in Hinner2. inversion Hinner2; subst inner2.
    split.
    + intros [entry Hentry]. destruct (decide (v ∈ names)) as [|Hno]; [done|].
      by rewrite (Hnone v Hno) in Hentry.
    + intros Hvin. destruct (Hentries v Hvin) as (x & _ & ->). by eexists.
Qed.

(** X10: on such an instance, for every reported KPI the entry of the
    control variant compares one sample with itself: the worker gets the
    control variant's weighted values as x and as y. *)
Theorem delta_control_against_itself (self : obj) data refs ctrl names kpis labels
    method make args :
  delta_ready self data refs ctrl names kpis labels ->
  workerTable method = Some make ->
  ctrl ∈ names ->
  exists result,
    delta self method args = Return result
    /\ forall kpi, kpi ∈ kpis ->
         exists inner y,
           result !! kpi = Some inner
           /\ weighted self kpi ctrl = Return (VSeries y)
           /\ inner !! ctrl = Some {| controlVariant := ctrl; treatmentVariant := ctrl;
                                      deltaStatistics := make args y y |}.
Proof.
  intros Hready Hm Hcin.
  destruct (delta_result self data refs ctrl names kpis labels method make args Hready Hm)
    as (result & Hdelta & Hin & _).
  exists result. split; [done|]. intros kpi Hkin.
  destruct (Hin kpi Hkin) as (inner & Hinner & Hlook).
  destruct (delta_inner_ready self (make args) _ _ _ _ _ _ kpi Hready Hkin)
    as (inner2 & y & Hinner2 & Hy & Hentries & _).
  rewrite Hinner in Hinner2. inversion Hinner2; subst inner2.
  destruct (Hentries ctrl Hcin) as (x & Hx & Hentry).
  rewrite Hy in Hx. inversion Hx; subst x.
  by exists inner, y.
Qed.

(** ** The selections of the variants partition a column *)

Lemma concat_map_add {A K} `{EqDecision K} (a : A) (f : K -> list A) (k0 : K) (ks : list K) :
  NoDup ks -> k0 ∈ ks ->
  concat (map (fun k => if decide (k0 = k) then a :: f k else f k) ks)
  ≡ₚ a :: concat (map f ks).
Proof.
  induction ks as [|k ks IH]; intros Hnd Hin; [by apply not_elem_of_nil in Hin|].
  apply NoDup_cons in Hnd as [Hk Hnd]. simpl.
  destruct (decide (k0 = k)) as [->|Hne].
  - simpl. f_equiv. f_equiv.
    assert (forall ks', k ∉ ks' ->
              concat (map (fun k' => if decide (k = k') then a :: f k' else f k') ks')
              = concat (map f ks')) as Hsame.
    { induction ks' as [|k' ks' IH']; intros Hno; [done|].
      apply not_elem_of_cons in Hno as [Hne Hno]. simpl.
      rewrite decide_False by done. by rewrite IH'. }
    by rewrite Hsame.
  - apply elem_of_cons in Hin as [->|Hin]; [done|].
    rewrite (IH Hnd Hin). by rewrite Permutation_middle.
Qed.

Lemma concat_filter_partition {A K} `{EqDecision K} (key : A -> K) (l : list A) (ks : list K) :
  NoDup ks -> (forall x, x ∈ l -> key x ∈ ks) ->
  concat (map (fun k => filter (fun x => key x = k) l) ks) ≡ₚ l.
Proof.
  intros Hnd. induction l as [|a l IH]; intros Hkeys.
  - apply reflexive_eq. clear. induction ks as [|k ks IH]; [done | exact IH].
  - assert (forall x, x ∈ l -> key x ∈ ks) as Hkeys' by (intros x Hx; apply Hkeys; by right).
    trans (concat (map (fun k => if decide (key a = k)
                                 then a :: filter (fun x => key x = k) l
                                 else filter (fun x => key x = k) l) ks)).
    + apply reflexive_eq. f_equal.
    + rewrite (concat_map_add a (fun k => filter (fun x => key x = k) l) (key a) ks Hnd)
        by (apply Hkeys; left).
      apply Permutation_skip, IH, Hkeys'.
Qed.

(** X11: on a table without both [index] and [level_0], for a float
    column with one value per row and the variants of the table, each on
    two rows or more, the selections of [getKPIbyNameAndVariant] for the
    distinct variants hold together the values of the column, each row
    once. *)
Theorem variant_selections_partition (self : obj) data labels name xs ks :
  self !! "data" = Some (AFrame data) ->
  has_col data "index" && has_col data "level_0" = false ->
  get_col data "variant" = Some (ColStr labels) ->
  name <> "variant" ->
  get_col data name = Some (ColNum xs) ->
  length labels = length xs ->
  NoDup ks -> (forall v, v ∈ ks <-> v ∈ labels) ->
  (forall v, v ∈ ks -> 2 <= occurrences labels v) ->
  exists sel : string -> list F,
    (forall v, v ∈ ks ->
       getKPIbyNameAndVariant self name v = Return (Series (ColNum (sel v))))
    /\ concat (map sel ks) ≡ₚ xs.
Proof.
  intros Hd Hreset Hv Hne Hc Hlen Hnd Hks Htwo.
  exists (values_of_variant labels xs). split.
  - intros v Hvin.
    rewrite (getKPIbyNameAndVariant_series _ _ _ _ _ _ Hd Hreset Hv (Htwo v Hvin) Hne Hc).
    simpl. by rewrite mask_filter_variant.
  - unfold values_of_variant.
    assert (concat (map (fun v => (filter (fun row : string * F => row.1 = v)
                                     (zip labels xs)).*2) ks)
            = (concat (map (fun v => filter (fun row : string * F => row.1 = v)
                                       (zip labels xs)) ks)).*2) as ->.
    { clear. induction ks as [|k ks IH]; [done|]. simpl. by rewrite fmap_app, IH. }
    rewrite (concat_filter_partition fst (zip labels xs) ks Hnd).
    + apply reflexive_eq, snd_zip. lia.
    + intros [l x] Hin. apply Hks. by apply elem_of_zip_l in Hin.
Qed.

(** ** The reported KPIs by default *)

Lemma float_column_has_col (data : DataFrame) c :
  c ∈ getColumnNamesByType_float64 data -> has_col data c = true.
Proof.
  unfold getColumnNamesByType_float64. intros Hc. apply has_col_true.
  induction data as [|[n col] data IH]; [by apply not_elem_of_nil in Hc|].
  simpl. destruct (String.eqb n c) eqn:E; [by eexists|].
  apply IH. simpl in Hc. destruct col; simpl in Hc; [done| |done].
  apply elem_of_cons in Hc as [->|Hc]; [|done]. by rewrite String.eqb_refl in E.
Qed.

(** X12: with no reported KPIs given (None or the empty list) and no
    derived KPIs, construction succeeds exactly when the table has the
    columns entity and variant, and the reported KPIs are then the float
    columns of the table. *)
Theorem default_reported_kpis ctrl data md rk :
  rk = None \/ rk = Some [] ->
  ((exists e, Experiment ctrl data md rk [] = Return e)
   <-> has_col data "entity" = true /\ has_col data "variant" = true)
  /\ forall e, Experiment ctrl data md rk [] = Return e ->
       getattr e "reportKpiNames" = Return (ANames (getColumnNamesByType_float64 data)).
Proof.
  intros Hrk.
  assert (reportKpiNames_or rk data = getColumnNamesByType_float64 data) as Hdef
    by (by destruct Hrk as [-> | ->]).
  split; [split|].
  - intros [e H]. destruct (Experiment_inv _ _ _ _ _ _ H) as (Hreq & _).
    split; apply Hreq; left; (split; [|apply not_elem_of_nil]); auto.
  - intros [Hentity Hvariant]. unfold Experiment, __init__.
    rewrite find_none_required.
    + apply has_col_true in Hvariant as [v ->]. by eexists.
    + intros c [[[Hc|[->| ->]] _]|(k & Hk & _)]; [|done|done|by apply not_elem_of_nil in Hk].
      rewrite Hdef in Hc. by apply float_column_has_col.
  - intros e H.
    destruct (Experiment_attr _ _ _ _ _ _ "reportKpiNames" H) as (v & _ & Hrkn); [done..|].
    unfold after_line_57 in Hrkn. rewrite !lookup_insert_ne, lookup_insert_eq in Hrkn by done.
    unfold getattr. by rewrite Hrkn, Hdef.
Qed.

(** ** The names a formula requires *)

Lemma span_word_fst_all_word s : all_word (Re.span_word s).1 = true.
Proof.
  induction s as [|c s IH]; [done|]. simpl.
  destruct (Re.is_word c) eqn:Hc; [|done].
  destruct (Re.span_word s) as [w r]. simpl in *. by rewrite Hc, IH.
Qed.

Lemma pieces_hits_identifiers skip s g :
  Re.Hit g ∈ Re.pieces Re.kpiNamePattern skip s -> identifier g = true.
Proof.
  revert skip. induction s as [|c s IH]; intros skip Hin; [by apply not_elem_of_nil in Hin|].
  destruct skip as [|k]; [|by apply (IH k)].
  simpl in Hin. destruct (Re.is_alpha c) eqn:Hc.
  - apply elem_of_cons in Hin as [Heq|Hin]; [|by apply (IH _ Hin)].
    inversion Heq; subst g. simpl. by rewrite Hc, span_word_fst_all_word.
  - apply elem_of_cons in Hin as [Heq|Hin]; [done | by apply (IH _ Hin)].
Qed.

(** X13: every name that [re.findall] takes from a formula, and that the
    constructor therefore requires as a column, is a letter followed by
    letters, digits and underscores. *)
Theorem findall_identifiers s n :
  n ∈ Re.findall Re.kpiNamePattern s -> identifier n = true.
Proof.
  unfold Re.findall. intros Hn. apply list_elem_of_omap in Hn as (p & Hp & Hhit).
  destruct p as [c|g]; [done|]. inversion Hhit; subst g.
  by apply (pieces_hits_identifiers 0 s).
Qed.

Lemma string_app_empty (a : string) : a ++ "" = a.
Proof.
  induction a as [|c a IH]; [done|].
  change (String c (a ++ "") = String c a). by rewrite IH.
Qed.

Lemma pieces_skip_all m a : Re.pieces m (String.length a) a = [].
Proof. rewrite <- (string_app_empty a) at 2. by rewrite pieces_skip. Qed.

Lemma pieces_ratio n d :
  identifier n = true -> identifier d = true ->
  Re.pieces Re.kpiNamePattern 0 (n ++ String "/" d) = [Re.Hit n; Re.Lit "/"; Re.Hit d].
Proof.
  destruct n as [|c n]; [done|]. destruct d as [|c' d]; [done|]. simpl.
  intros [Hc Hn]%andb_true_iff [Hc' Hd]%andb_true_iff.
  change (String c n ++ String "/" (String c' d))
    with (String c (n ++ String "/" (String c' d))).
  simpl. rewrite Hc, (span_word_slash n _ Hn). simpl.
  rewrite pieces_skip. simpl. rewrite Hc', (span_word_all d Hd). simpl.
  by rewrite pieces_skip_all.
Qed.

(** X14: for a formula [n/d] of two KPI names the constructor requires
    the columns [n] and [d], and the text it evaluates is the quotient of
    the two columns read as floats. *)
Theorem ratio_formula_names n d :
  identifier n = true -> identifier d = true ->
  Re.findall Re.kpiNamePattern (n ++ String "/" d) = [n; d]
  /\ Re.sub Re.kpiNamePattern (fun g => "self.data." ++ g ++ ".astype(float)")
       (n ++ String "/" d)
     = ("self.data." ++ n ++ ".astype(float)") ++
       String "/" ("self.data." ++ d ++ ".astype(float)").
Proof.
  intros Hn Hd. unfold Re.findall, Re.sub. rewrite (pieces_ratio n d Hn Hd). simpl.
  split; [done|]. by rewrite string_app_empty.
Qed.

(** ** The binned-delta engine, further *)

(** X15: asked for cumulative deltas with a binning that is not a
    NumericalBinning, given or created, [_binned_deltas] raises the
    ValueError of line 480 in every namespace, before any label or delta
    is computed. *)
Theorem binned_deltas_cumulative_needs_numerical g (df : DataFrame) variants n_bins
    binning fmt deltaWorker b :
  (binning = Some b
   \/ binning = None /\ exists src, df !! 1 = Some src /\ b = create_binning src.2 n_bins) ->
  is_NumericalBinning b = false ->
  _binned_deltas g df variants n_bins binning true fmt deltaWorker
  = Raise (ValueError "Cannot calculate cumulative deltas for non-numerical binnings").
Proof.
  intros [->|(-> & src & Hsrc & ->)] Hb; unfold _binned_deltas, iloc; simpl.
  - by rewrite Hb.
  - rewrite Hsrc. simpl. by rewrite Hb.
Qed.

Lemma raises_bind {A B} (m : outcome A) (k : A -> outcome B) :
  (forall a, m = Return a -> raises (k a) = true) -> raises (m ≫= k) = true.
Proof. intros Hk. destruct m as [a|ex]; [by apply Hk | done]. Qed.

Lemma binned_deltas_raises g df variants n_bins binning cumulative fmt deltaWorker :
  Results g = None ->
  raises (_binned_deltas g df variants n_bins binning cumulative fmt deltaWorker) = true.
Proof.
  intros Hg. unfold _binned_deltas. apply raises_bind. intros b _.
  destruct (cumulative && negb (is_NumericalBinning b)); [done|].
  apply raises_bind. intros src _. apply raises_bind. intros result _.
  apply raises_bind. intros result1 _. apply raises_bind. intros result2 _.
  by rewrite Hg.
Qed.

(** X16: in a namespace where [Results] is not bound, as in the module
    itself, [_binned_deltas], [_subgroup_deltas] and
    [_time_dependent_deltas] return for no input. *)
Theorem engine_needs_Results g :
  Results g = None ->
  (forall df variants n_bins binning cumulative fmt deltaWorker,
     raises (_binned_deltas g df variants n_bins binning cumulative fmt deltaWorker) = true)
  /\ (forall df variants n_bins deltaWorker,
        raises (_subgroup_deltas g df variants n_bins deltaWorker) = true)
  /\ (forall df variants time_step cumulative deltaWorker,
        raises (_time_dependent_deltas g df variants time_step cumulative deltaWorker) = true).
Proof.
  intros Hg. split; [|split]; intros.
  - by apply binned_deltas_raises.
  - unfold _subgroup_deltas. apply raises_bind. intros r Hr.
    pose proof (binned_deltas_raises g df variants n_bins None false "{standard}"
                  deltaWorker Hg) as Hraise.
    by rewrite Hr in Hraise.
  - unfold _time_dependent_deltas. apply raises_bind. intros t _.
    apply raises_bind. intros r Hr.
    pose proof (binned_deltas_raises g df variants 4 (Some (NumericalBinning (np_unique t.2)))
                  cumulative "{mid}" deltaWorker Hg) as Hraise.
    by rewrite Hr in Hraise.
Qed.

(** ** The subsets of the bins *)

Lemma zip_rows_label bins (cols : list (list cell)) r :
  r ∈ zip_rows bins cols -> r.1 ∈ bins.
Proof.
  revert cols. induction bins as [|b bins IH]; intros cols Hr; simpl in Hr.
  - by apply not_elem_of_nil in Hr.
  - apply elem_of_cons in Hr as [->|Hr]; [by left | right; by apply (IH _ Hr)].
Qed.

Lemma filter_sublist_impl {A} (P Q : A -> Prop) `{!forall x, Decision (P x)}
    `{!forall x, Decision (Q x)} (l : list A) :
  (forall x, x ∈ l -> P x -> Q x) -> filter P l `sublist_of` filter Q l.
Proof.
  induction l as [|x l IH]; intros HPQ; [done|].
  assert (filter P l `sublist_of` filter Q l) as Hl
    by (apply IH; intros y Hy; apply HPQ; by right).
  rewrite !filter_cons. destruct (decide (P x)) as [HP|HP].
  - rewrite decide_True by (apply HPQ; [left | done]). by apply sublist_skip.
  - destruct (decide (Q x)); [by apply sublist_cons | done].
Qed.

Lemma filter_all {A} (P : A -> Prop) `{!forall x, Decision (P x)} (l : list A) :
  (forall x, x ∈ l -> P x) -> filter P l = l.
Proof.
  induction l as [|x l IH]; intros HP; [done|].
  rewrite filter_cons_True by (apply HP; left). f_equal. apply IH. intros y Hy.
  apply HP. by right.
Qed.

(** X17: when [==] on bin labels is equality, the subsets that the loop
    of lines 508-514 hands out without cumulation, over the distinct bin
    labels, hold together the rows of the frame, each row once. *)
Theorem bins_partition_rows (df : Binned) :
  rectangular df ->
  (forall a b, label_eq a b = true <-> a = b) ->
  concat (map (fun b => rows (bin_subset false df b)) (unique (b_bins df))) ≡ₚ rows df.
Proof.
  intros Hrect Heq.
  rewrite <- (concat_filter_partition fst (rows df) (unique (b_bins df))).
  - apply reflexive_eq. f_equal. apply map_ext. intros b.
    rewrite (rows_bin_subset false df b Hrect). apply list_filter_iff.
    intros r. simpl. apply Heq.
  - apply NoDup_unique.
  - intros r Hr. apply elem_of_unique. by apply zip_rows_label in Hr.
Qed.

(** X18: the cumulative subsets grow with the bin: when every label of
    the frame that is at most [b1] is at most [b2], as it is for a
    transitive [<=] and [b1 <= b2], the rows of the subset for [b1] are
    rows of the subset for [b2], in the same order; and a bin that
    bounds every label of the frame gets every row. *)
Theorem cumulative_subsets_grow (df : Binned) b1 b2 :
  rectangular df ->
  (forall l, l ∈ b_bins df -> label_le l b1 = true -> label_le l b2 = true) ->
  rows (bin_subset true df b1) `sublist_of` rows (bin_subset true df b2)
  /\ ((forall l, l ∈ b_bins df -> label_le l b2 = true) ->
      rows (bin_subset true df b2) = rows df).
Proof.
  intros Hrect Hle. rewrite !(rows_bin_subset true) by done. split.
  - apply filter_sublist_impl. intros r Hr. simpl. apply Hle.
    by apply zip_rows_label in Hr.
  - intros Hmax. apply filter_all. intros r Hr. simpl. apply Hmax.
    by apply zip_rows_label in Hr.
Qed.

(** ** The legacy methods, further *)

Lemma for_fold_unchanged {A B} (body : A -> B -> outcome A) (acc : A) (xs : list B) :
  (forall a x, x ∈ xs -> body a x = Return a) -> for_fold body acc xs = Return acc.
Proof.
  induction xs as [|x xs IH]; intros Hbody; [done|].
  rewrite for_fold_cons, (Hbody acc x) by left. rewrite bind_Return.
  apply IH. intros a y Hy. apply Hbody. by right.
Qed.

(** X19: with [Results] bound and a [kpis_time] frame that has the time
    among its index levels, [trend] called with a set as variant subset
    raises NameError on [res_obj] at line 332 when there is no KPI or no
    variant but the baseline to compare: the name is assigned only
    inside the loops. *)
Theorem trend_without_comparison_raises g new (self : obj) md levels cols baseline ks vs
    time_step cumulative assume_normal percentiles min_observations nruns relative :
  Results g = Some new ->
  self !! "metadata" = Some (ADict md) ->
  self !! "kpis_time" = Some (AIndexed levels cols) ->
  "time_since_treatment" ∈ columns levels ->
  self !! "baseline_variant" = Some (AStr baseline) ->
  ks = [] \/ vs ⊆ {[ baseline ]} ->
  trend g self (Some ks) (Some (PySet vs)) time_step cumulative assume_normal percentiles
        min_observations nruns relative
  = Raise (NameError "res_obj").
Proof.
  intros Hg Hmd Hkt Htime Hb Hnone. unfold trend, getattr.
  rewrite Hg, Hmd, Hkt, Hb. simpl.
  rewrite bool_decide_eq_true_2 by done. simpl.
  rewrite for_fold_unchanged; [done|].
  intros st kpi Hkpi. destruct Hnone as [->|Hvs]; [by apply not_elem_of_nil in Hkpi|].
  assert (vs ∖ {[ baseline ]} = ∅) as ->.
  { apply set_eq. intros x. rewrite elem_of_difference, elem_of_singleton.
    split; [intros [Hx Hne]|intros Hx; by apply not_elem_of_empty in Hx].
    by apply Hvs, elem_of_singleton in Hx. }
  by rewrite elements_empty.
Qed.

(** X20: [feature_check] does not look at the variant subset it is given,
    nor at its threshold; [sga] does not look at the members of a variant
    subset given as a set; given a list, as its docstring has it, [sga]
    returns only through the early return for [metrics] being None: the
    difference of line 238 is a TypeError. *)
Theorem variant_subset_is_not_read g (self : obj) fs ks vs vs' s s' l n_bins
    threshold threshold' assume_normal percentiles min_observations nruns relative :
  feature_check g self fs (Some vs) threshold percentiles assume_normal
    min_observations nruns relative
  = feature_check g self fs (Some vs') threshold' percentiles assume_normal
      min_observations nruns relative
  /\ sga g self fs ks (Some (PySet s)) n_bins assume_normal percentiles min_observations
       nruns relative
     = sga g self fs ks (Some (PySet s')) n_bins assume_normal percentiles min_observations
         nruns relative
  /\ (forall r, sga g self fs ks (Some (PyList l)) n_bins assume_normal percentiles
                  min_observations nruns relative = Return r ->
                self !! "metrics" = Some ANone).
Proof.
  split; [|split].
  - unfold feature_check. destruct (global (Results g) "Results") as [new|]; [|done]. simpl.
    destruct (getattr self "metadata" ≫= as_dict) as [md|]; [|done]. simpl.
    destruct (getattr self "features") as [m|]; [|done]. simpl.
    destruct (is_None m); [done|].
    by destruct (default_to fs self "feature_names" as_names) as [fs'|].
  - unfold sga. destruct (global (Results g) "Results") as [new|]; [|done]. simpl.
    destruct (getattr self "metadata" ≫= as_dict) as [md|]; [|done]. simpl.
    destruct (getattr self "metrics") as [m|]; [|done]. simpl.
    destruct (is_None m); [done|].
    destruct (default_to ks self "kpi_names" as_names) as [ks'|]; [|done]. simpl.
    destruct (default_to fs self "feature_names" as_names) as [fs'|]; [|done]. simpl.
    destruct (getattr self "baseline_variant") as [b|]; [|done]. simpl.
    unfold minus_baseline. by destruct b.
  - intros r. unfold sga, getattr.
    destruct (global (Results g) "Results") as [new|]; [|done]. simpl.
    destruct (self !! "metadata") as [md|]; [|done]. simpl.
    destruct (as_dict md) as [d|]; [|done]. simpl.
    destruct (self !! "metrics") as [m|]; [|done]. simpl.
    destruct m; simpl; try done;
      (destruct (default_to ks self "kpi_names" as_names) as [ks'|]; [|done]); simpl;
      (destruct (default_to fs self "feature_names" as_names) as [fs'|]; [|done]); simpl;
      (destruct (self !! "baseline_variant") as [b|]; [|done]); simpl;
      unfold minus_baseline; by destruct b.
Qed.

(** ** [_feature_check_all_variants] *)

Lemma for_each_map {A B} (body : A -> outcome B) (f : A -> B) (xs : list A) :
  (forall x, body x = Return (f x)) -> for_each body xs = Return (map f xs).
Proof.
  intros Hbody. induction xs as [|x xs IH]; [done|].
  simpl. by rewrite Hbody, IH.
Qed.

(** X21: with [feature_check_to_dataframe] bound, the feature check of
    a frame of three columns with a variant column has one block for
    every variant of the frame, the baseline included, and no other: the
    statistics of that variant's values of the third column against the
    baseline's. *)
Theorem feature_check_every_variant g to_df (metric_df : DataFrame) baseline deltaWorker
    name metric labels :
  feature_check_to_dataframe g = Some to_df ->
  metric_df !! 2 = Some (name, metric) ->
  get_col metric_df "variant" = Some (ColStr labels) ->
  exists t,
    _feature_check_all_variants g metric_df baseline deltaWorker = Return t
    /\ forall r, r ∈ t_rows t
         <-> exists v, v ∈ labels
              /\ r = (v, None,
                      to_df name (group_stats deltaWorker (ColStr labels) metric baseline v)).
Proof.
  intros Hg H2 Hv. unfold _feature_check_all_variants, iloc. rewrite H2, Hv, Hg. simpl.
  erewrite (for_each_map _
              (fun v => (v, None,
                         to_df name (group_stats deltaWorker (ColStr labels) metric baseline v)))).
  - eexists. split; [reflexivity|]. simpl. intros r.
    rewrite list_elem_of_fmap. setoid_rewrite elem_of_unique.
    split; intros (v & H1 & H3); exists v; by split.
  - intros v. by destruct metric.
Qed.

End Theorems.

(** * The properties on concrete tables *)

#[local] Existing Instances Demo.float64 Demo.host.

Example findall_names :
  Re.findall Re.kpiNamePattern "orders/sess_1 + 1e5" = ["orders"; "sess_1"; "e5"].
Proof. reflexivity. Qed.

Example sub_ratio : Re.sub Re.kpiNamePattern_slash (fun _ => "") "orders/sessions" = "sessions".
Proof. reflexivity. Qed.

Example sub_not_a_ratio : Re.sub Re.kpiNamePattern_slash (fun _ => "") "(a+b)/c" = "(a+b)/c".
Proof. reflexivity. Qed.

Example sub_inside_token : Re.sub Re.kpiNamePattern_slash (fun _ => "") "1ab/c/d" = "1d".
Proof. reflexivity. Qed.

Example weight_of_variant_B :
  _getWeights Demo.shop_experiment "conversion" "B" = Return (VSeries [0; 1]%float).
Proof. vm_compute. reflexivity. Qed.

(** C7 at the shop table without its sessions column: the formula of
    [conversion] needs it. *)
Lemma init_missing_column_raises_witness :
  (exists c, required_column (reportKpiNames_or (Some ["conversion"]) Demo.shop_without_sessions)
               [Demo.conversion] c
             /\ has_col Demo.shop_without_sessions c = false)
  /\ exists c, required_column (reportKpiNames_or (Some ["conversion"]) Demo.shop_without_sessions)
                 [Demo.conversion] c
       /\ has_col Demo.shop_without_sessions c = false
       /\ __init__ ∅ "A" Demo.shop_without_sessions ∅ (Some ["conversion"]) [Demo.conversion]
          = (∅, Raise (ValueError ("No column " ++ c ++ " provided")))
       /\ Experiment "A" Demo.shop_without_sessions ∅ (Some ["conversion"]) [Demo.conversion]
          = Raise (ValueError ("No column " ++ c ++ " provided")).
Proof.
  assert (exists c, required_column
                      (reportKpiNames_or (Some ["conversion"]) Demo.shop_without_sessions)
                      [Demo.conversion] c
                    /\ has_col Demo.shop_without_sessions c = false) as H.
  { exists "sessions". split; [|reflexivity].
    right. exists Demo.conversion. split; [by left|].
    apply (bool_decide_unpack _). vm_compute. reflexivity. }
  split; [exact H|].
  exact (init_missing_column_raises ∅ "A" Demo.shop_without_sessions ∅
           (Some ["conversion"]) [Demo.conversion] H).
Defined.

(** C10 at the shop experiment. *)
Lemma legacy_methods_always_raise_witness :
  Experiment "A" Demo.shop ∅ (Some ["conversion"; "orders"]) [Demo.conversion]
  = Return Demo.shop_experiment
  /\ sga module_globals Demo.shop_experiment None None None 4 true [] 20 10000 false
     = Raise (NameError "Results")
  /\ trend module_globals Demo.shop_experiment None None 1 true true [] 20 10000 false
     = Raise (NameError "Results")
  /\ feature_check module_globals Demo.shop_experiment None None 0.5%float [] true 20 10000 false
     = Raise (NameError "Results")
  /\ getattr Demo.shop_experiment "metrics" = Raise (AttributeError "metrics").
Proof.
  assert (Experiment "A" Demo.shop ∅ (Some ["conversion"; "orders"]) [Demo.conversion]
          = Return Demo.shop_experiment) as H by (vm_compute; reflexivity).
  destruct (legacy_methods_always_raise "A" Demo.shop ∅ (Some ["conversion"; "orders"])
              [Demo.conversion] Demo.shop_experiment H)
    as (Hattr & Hsga & Htrend & Hfc & _).
  split; [exact H|]. split; [apply Hsga|]. split; [apply Htrend|]. split; [apply Hfc|].
  apply Hattr. by left.
Defined.

(** C5 as stated fails: for [conversion = orders/sessions] the recorded
    reference KPI is [sessions], not the left-hand operand [orders]; and
    for [total = orders+sessions], not a division, a reference KPI is
    recorded (the formula itself) and the weight is not 1.0. *)
Lemma reference_kpi_counterexample :
  (e ← Experiment "A" Demo.shop ∅ (Some ["conversion"]) [Demo.conversion];
   refs ← getattr e "referenceKpis" ≫= as_dict;
   Return (refs !! "conversion")) = Return (Some "sessions")
  /\ (e ← Experiment "A" Demo.shop ∅ (Some ["total"]) [Demo.total];
      refs ← getattr e "referenceKpis" ≫= as_dict;
      Return (refs !! "total")) = Return (Some "orders+sessions")
  /\ (e ← Experiment "A" Demo.shop ∅ (Some ["total"]) [Demo.total];
      _getWeights e "total" "A") = Raise (KeyError "orders+sessions").
Proof. repeat split; vm_compute; reflexivity. Qed.

(** [Experiment('A', shop, {}, ['conversion', 'orders'], [conversion])]
    is constructed. *)
Lemma shop_constructed :
  Experiment "A" Demo.shop ∅ (Some ["conversion"; "orders"]) [Demo.conversion]
  = Return Demo.shop_experiment.
Proof. vm_cast_no_check (eq_refl (Return Demo.shop_experiment)). Qed.

(** Of two derived KPIs of one name, the record of the second stands. *)
Example reference_kpi_last_declared :
  (e ← Experiment "A" Demo.shop ∅ (Some ["conversion"]) [Demo.conversion; Demo.inverse];
   refs ← getattr e "referenceKpis" ≫= as_dict;
   Return (refs !! "conversion")) = Return (Some "orders").
Proof. vm_compute. reflexivity. Qed.

(** C5, amended, at the shop experiment. *)
Lemma reference_kpi_is_denominator_witness :
  Experiment "A" Demo.shop ∅ (Some ["conversion"; "orders"]) [Demo.conversion]
  = Return Demo.shop_experiment
  /\ exists refs,
       getattr Demo.shop_experiment "referenceKpis" = Return (ADict refs)
       /\ refs !! "conversion" = Some "sessions"
       /\ refs !! "orders" = None
       /\ _getWeights Demo.shop_experiment "orders" "B" = Return (VScalar 1%float).
Proof.
  assert (forall j k', 0 < j -> [Demo.conversion] !! j = Some k' ->
            name k' <> name Demo.conversion) as Hlast.
  { intros [|j] k' Hj Hk'; [lia | discriminate Hk']. }
  assert ("orders" ∉ map name [Demo.conversion]) as Hno
    by (apply (bool_decide_unpack _); vm_compute; reflexivity).
  pose proof shop_constructed as H.
  destruct (reference_kpi_is_denominator "A" Demo.shop ∅ (Some ["conversion"; "orders"])
              [Demo.conversion] Demo.shop_experiment H) as (refs & Hrefs & Hratio & Hother).
  split; [exact H|]. exists refs. split; [exact Hrefs|].
  split.
  - exact (Hratio 0 Demo.conversion "orders" "sessions" eq_refl Hlast eq_refl eq_refl eq_refl).
  - destruct (Hother "orders" Hno) as [Hnone Hone].
    split; [exact Hnone | apply Hone].
Defined.

(** C9 as stated fails: [per_session = conversion/sessions] refers to the
    derived KPI [conversion] declared before it, every other identifier is
    a column of the table, and construction raises. *)
Lemma derived_kpi_chain_counterexample :
  Experiment "A" Demo.shop ∅ (Some ["per_session"]) [Demo.conversion; Demo.per_session]
  = Raise (ValueError "No column conversion provided").
Proof. vm_compute. reflexivity. Qed.

(** C9, amended, at a table that has a column named [conversion]:
    construction succeeds, and [per_session] is computed from the derived
    [conversion], which has replaced the input column. *)
Lemma derived_kpis_in_declaration_order_witness :
  Experiment "A" Demo.shop_with_conversion ∅ (Some ["per_session"])
    [Demo.conversion; Demo.per_session] = Return Demo.chained_experiment
  /\ exists data',
       derive_in_order Demo.shop_with_conversion [Demo.conversion; Demo.per_session]
       = Return data'
       /\ getattr Demo.chained_experiment "data" = Return (AFrame data')
       /\ get_col data' "conversion" = Some (ColNum [0.5; nan; 0.75; 0.5]%float)
       /\ get_col data' "per_session" = Some (ColNum [0.25; nan; 0.1875; 0.125]%float).
Proof.
  assert (Experiment "A" Demo.shop_with_conversion ∅ (Some ["per_session"])
            [Demo.conversion; Demo.per_session] = Return Demo.chained_experiment) as H
    by (vm_compute; reflexivity).
  destruct (derived_kpis_in_declaration_order "A" Demo.shop_with_conversion ∅
              (Some ["per_session"]) [Demo.conversion; Demo.per_session]) as [Hok _].
  destruct (Hok Demo.chained_experiment H) as (_ & data' & Hrun & Hdata).
  split; [exact H|]. exists data'. split; [exact Hrun|]. split; [exact Hdata|].
  clear H Hok Hdata. vm_compute in Hrun. inversion Hrun. split; vm_compute; reflexivity.
Defined.

(** The selections of line 67 at a table in which variant B labels one
    row: a Series for A, a bare float for B. *)
Example selection_of_one_row :
  (e ← Experiment "A" Demo.lone_b ∅ (Some ["orders"]) [];
   a ← getKPIbyNameAndVariant e "orders" "A";
   b ← getKPIbyNameAndVariant e "orders" "B";
   Return (a, b))
  = Return (Series (ColNum [1; 3]%float), Bare (SNum 2%float)).
Proof. vm_compute. reflexivity. Qed.



(** The weight over an int64 reference KPI. *)
Example weight_of_int_sessions :
  (e ← Experiment "A" Demo.shop_int ∅ (Some ["conversion"]) [Demo.conversion];
   _getWeights e "conversion" "B") = Return (VSeries [0; 1]%float).
Proof. vm_compute. reflexivity. Qed.

(** C1 as stated fails.  An Experiment is constructed with a control
    variant that no row carries, and [delta] raises KeyError; with a
    variant that labels one row, TypeError at the weight of the ratio
    KPI; over a table that holds the columns [index] and [level_0],
    ValueError at [reset_index]; with a reported KPI that is a column of
    strings, TypeError at the product with the weight. *)
Lemma delta_counterexample :
  raises (Experiment "Z" Demo.shop ∅ (Some ["orders"]) []) = false
  /\ (e ← Experiment "Z" Demo.shop ∅ (Some ["orders"]) []; delta e "fixed_horizon" ())
     = Raise (KeyError "Z")
  /\ raises (Experiment "A" Demo.lone_b ∅ (Some ["conversion"]) [Demo.conversion]) = false
  /\ (e ← Experiment "A" Demo.lone_b ∅ (Some ["conversion"]) [Demo.conversion];
      delta e "fixed_horizon" ()) = Raise (TypeError "object is not iterable")
  /\ raises (Experiment "A" Demo.twice_indexed ∅ (Some ["orders"]) []) = false
  /\ (e ← Experiment "A" Demo.twice_indexed ∅ (Some ["orders"]) [];
      delta e "fixed_horizon" ())
     = Raise (ValueError "cannot insert level_0, already exists")
  /\ raises (Experiment "A" Demo.shop ∅ (Some ["entity"]) []) = false
  /\ (e ← Experiment "A" Demo.shop ∅ (Some ["entity"]) []; delta e "fixed_horizon" ())
     = Raise (TypeError "not numeric").
Proof. repeat split; vm_compute; reflexivity. Qed.

(** C1, amended, at the shop experiment: the entry of (conversion, B). *)
Lemma delta_entries_witness :
  Experiment "A" Demo.shop ∅ (Some ["conversion"; "orders"]) [Demo.conversion]
  = Return Demo.shop_experiment
  /\ workerTable "fixed_horizon" = Some make_delta
  /\ "A" ∈ ["A"; "B"; "A"; "B"]
  /\ exists result inner x y,
       delta Demo.shop_experiment "fixed_horizon" () = Return result
       /\ result !! "conversion" = Some inner
       /\ weighted Demo.shop_experiment "conversion" "B" = Return (VSeries x)
       /\ weighted Demo.shop_experiment "conversion" "A" = Return (VSeries y)
       /\ inner !! "B" = Some {| controlVariant := "A"; treatmentVariant := "B";
                                deltaStatistics := make_delta () x y |}.
Proof.
  assert (forall kpi, kpi ∈ reportKpiNames_or (Some ["conversion"; "orders"]) Demo.shop ->
            exists c, get_col Demo.shop_data kpi = Some c /\ is_object c = false)
    as Hkpis.
  { intros kpi Hk. simpl in Hk.
    apply elem_of_cons in Hk as [->|Hk].
    { eexists. split; [vm_compute; reflexivity | reflexivity]. }
    apply elem_of_cons in Hk as [->|Hk].
    { eexists. split; [vm_compute; reflexivity | reflexivity]. }
    destruct (not_elem_of_nil _ Hk). }
  assert (forall kpi r, kpi ∈ reportKpiNames_or (Some ["conversion"; "orders"]) Demo.shop ->
            Demo.shop_refs !! kpi = Some r ->
            exists c, get_col Demo.shop_data r = Some c /\ is_object c = false)
    as Hrefs.
  { assert (Demo.shop_refs = {[ "conversion" := "sessions" ]}) as ->
      by (vm_compute; reflexivity).
    intros kpi r Hk. simpl in Hk.
    apply elem_of_cons in Hk as [->|Hk].
    { rewrite lookup_singleton_eq. intros Hs. inversion Hs.
      eexists. split; [vm_compute; reflexivity | reflexivity]. }
    apply elem_of_cons in Hk as [->|Hk].
    { rewrite lookup_singleton_ne by discriminate. discriminate. }
    destruct (not_elem_of_nil _ Hk). }
  assert (forall v, v ∈ ["A"; "B"; "A"; "B"] -> 2 <= occurrences ["A"; "B"; "A"; "B"] v)
    as Htwo.
  { intros v Hv. repeat (apply elem_of_cons in Hv as [->|Hv]; [vm_compute; lia|]).
    destruct (not_elem_of_nil _ Hv). }
  assert ("A" ∈ ["A"; "B"; "A"; "B"]) as Hctrl by left.
  assert ("conversion" ∈ reportKpiNames_or (Some ["conversion"; "orders"]) Demo.shop)
    as Hconv by left.
  assert ("B" ∈ ["A"; "B"; "A"; "B"]) as HB by (right; left).
  assert (workerTable "fixed_horizon" = Some make_delta) as Hm by reflexivity.
  assert (get_col Demo.shop_data "variant" = Some (ColStr ["A"; "B"; "A"; "B"])) as Hv
    by (vm_compute; reflexivity).
  assert (has_col Demo.shop_data "index" && has_col Demo.shop_data "level_0" = false)
    as Hreset by (vm_compute; reflexivity).
  assert (Demo.shop_experiment !! "data" = Some (AFrame Demo.shop_data)) as Hd
    by (vm_compute; reflexivity).
  assert (Demo.shop_experiment !! "referenceKpis" = Some (ADict Demo.shop_refs)) as Hr
    by (vm_compute; reflexivity).
  pose proof shop_constructed as H.
  destruct (delta_entries (FL := Demo.float64) (HO := Demo.host) "A" Demo.shop ∅
              (Some ["conversion"; "orders"]) [Demo.conversion]
              Demo.shop_experiment Demo.shop_data Demo.shop_refs ["A"; "B"; "A"; "B"]
              "fixed_horizon" make_delta () H Hd Hr Hm Hv Hreset Hctrl Htwo Hkpis Hrefs)
    as (result & Hdelta & Hentries).
  destruct (Hentries "conversion" "B" Hconv HB)
    as (inner & x & y & Hinner & Hx & Hy & Hentry).
  split; [exact H|]. split; [exact Hm|]. split; [exact Hctrl|].
  exists result, inner, x, y.
  split; [exact Hdelta|]. split; [exact Hinner|]. split; [exact Hx|].
  split; [exact Hy | exact Hentry].
Defined.

(** The frame of three variants over two age groups, by bin: not
    cumulative, the subset of bin 1 is the three rows labelled 1;
    cumulative, the subset of bin 2 is all six. *)
Example rows_of_bins :
  length (rows (bin_subset false Demo.by_age_binned (inl 1%Z))) = 3
  /\ length (rows (bin_subset true Demo.by_age_binned (inl 2%Z))) = 6.
Proof. split; reflexivity. Qed.


(** C3 in the module as it stands, at the same frame, the call naming B
    as the treatment and A as the control. *)
Lemma binned_deltas_runs_no_comparison_witness :
  delta_to_dataframe_all_variants module_globals = None
  /\ get_col Demo.by_age "variant" = Some (ColStr ["A"; "B"; "C"; "A"; "B"; "C"])
  /\ (forall worker,
        _binned_deltas module_globals Demo.by_age ["B"; "A"] 4 None false "{standard}" worker
        = Raise (NameError "delta_to_dataframe_all_variants"))
  /\ (forall worker,
        _binned_deltas module_globals Demo.by_age ["B"; "A"] 4 None true "{standard}" worker
        = Raise (NameError "delta_to_dataframe_all_variants")).
Proof.
  assert (get_col Demo.by_age "variant" = Some (ColStr ["A"; "B"; "C"; "A"; "B"; "C"]))
    as Hv by reflexivity.
  split; [reflexivity|]. split; [exact Hv|].
  split; intros worker.
  - exact (binned_deltas_runs_no_comparison (FL := Demo.float64) (HO := Demo.host)
             module_globals Demo.by_age ["B"; "A"] "A" 4 None false "{standard}" worker true
             ("variant", ColStr ["A"; "B"; "C"; "A"; "B"; "C"])
             ("age", ColNum [1; 1; 1; 2; 2; 2]%float)
             ("orders", ColNum [1; 2; 4; 3; 5; 9]%float)
             ["A"; "B"; "C"; "A"; "B"; "C"] "A" ["B"; "C"; "A"; "B"; "C"]
             (inl 1%Z) [inl 1%Z; inl 1%Z; inl 2%Z; inl 2%Z; inl 2%Z]
             eq_refl eq_refl eq_refl eq_refl eq_refl Hv eq_refl
             (or_intror (conj eq_refl eq_refl)) (fun _ => eq_refl) eq_refl eq_refl).
  - exact (binned_deltas_runs_no_comparison (FL := Demo.float64) (HO := Demo.host)
             module_globals Demo.by_age ["B"; "A"] "A" 4 None true "{standard}" worker true
             ("variant", ColStr ["A"; "B"; "C"; "A"; "B"; "C"])
             ("age", ColNum [1; 1; 1; 2; 2; 2]%float)
             ("orders", ColNum [1; 2; 4; 3; 5; 9]%float)
             ["A"; "B"; "C"; "A"; "B"; "C"] "A" ["B"; "C"; "A"; "B"; "C"]
             (inl 1%Z) [inl 1%Z; inl 1%Z; inl 2%Z; inl 2%Z; inl 2%Z]
             eq_refl eq_refl eq_refl eq_refl eq_refl Hv eq_refl
             (or_intror (conj eq_refl eq_refl)) (fun _ => eq_refl) eq_refl eq_refl).
Defined.

(** X22 at the same frame with the helper bound: the block of C, a
    variant the call does not name. *)
Lemma do_delta_every_variant_witness :
  delta_to_dataframe_all_variants Demo.results_imported = Some Demo.to_df
  /\ ["B"; "A"] !! 1 = Some "A"
  /\ get_col (b_frame Demo.by_age_binned) "variant"
     = Some (ColStr ["A"; "B"; "C"; "A"; "B"; "C"])
  /\ exists t,
       do_delta Demo.results_imported ["B"; "A"] (Demo.mean_delta ()) Demo.by_age_binned
         (inl 2%Z) = Return t
       /\ ("C", Some (inl 2%Z : Label), ("orders", 4.5%float)) ∈ t_rows t.
Proof.
  assert (delta_to_dataframe_all_variants Demo.results_imported = Some Demo.to_df) as Hg
    by reflexivity.
  assert (["B"; "A"] !! 1 = Some "A") as Hb by reflexivity.
  assert (b_frame Demo.by_age_binned !! 0
          = Some ("variant", ColStr ["A"; "B"; "C"; "A"; "B"; "C"])) as H0 by reflexivity.
  assert (b_frame Demo.by_age_binned !! 2
          = Some ("orders", ColNum [1; 2; 4; 3; 5; 9]%float)) as H2 by reflexivity.
  assert (get_col (b_frame Demo.by_age_binned) "variant"
          = Some (ColStr ["A"; "B"; "C"; "A"; "B"; "C"])) as Hv by reflexivity.
  assert ("C" ∈ ["A"; "B"; "C"; "A"; "B"; "C"]) as HC by (right; right; left).
  destruct (do_delta_every_variant (FL := Demo.float64) (HO := Demo.host)
              Demo.results_imported Demo.to_df (Demo.mean_delta ()) ["B"; "A"] "A"
              Demo.by_age_binned (inl 2%Z) "variant" (ColStr ["A"; "B"; "C"; "A"; "B"; "C"])
              "orders" [1; 2; 4; 3; 5; 9]%float ["A"; "B"; "C"; "A"; "B"; "C"]
              Hg Hb H0 H2 Hv) as (t & Ht & _ & Hin).
  split; [exact Hg|]. split; [exact Hb|]. split; [exact Hv|].
  exists t. split; [exact Ht|].
  assert (variant_row Demo.to_df (Demo.mean_delta ())
            "orders" (ColStr ["A"; "B"; "C"; "A"; "B"; "C"]) [1; 2; 4; 3; 5; 9]%float
            "A" (inl 2%Z : Label) "C"
          = ("C", Some (inl 2%Z : Label), ("orders", 4.5%float))) as <-
    by (vm_compute; reflexivity).
  exact (Hin "C" HC).
Defined.

(** C8, the code against the claim: the shop experiment has no
    [time_since_treatment] column, and [trend] raises: NameError in the
    module as it stands, AttributeError on [kpis_time] with [Results]
    bound.  The early return the claim describes is there: [trend] on an
    instance that carries [kpis_time] returns an empty table with the
    warning under [Experiment.trend]. *)
Theorem trend_without_time_column_raises :
  has_col Demo.shop_data "time_since_treatment" = false
  /\ trend module_globals Demo.shop_experiment None None 1 true true [] 20 10000 false
     = Raise (NameError "Results")
  /\ trend Demo.results_imported Demo.shop_experiment None None 1 true true [] 20 10000 false
     = Raise (AttributeError "kpis_time")
  /\ (r ← trend Demo.results_imported Demo.legacy_instance None None 1 true true [] 20 10000 false;
      Return (res_df r, res_warnings r))
     = Return (None, Some {[ "Experiment.trend" := "Need time column for trend analysis." ]}).
Proof. repeat split; vm_compute; reflexivity. Qed.

(** ** The further properties on concrete tables *)

(** What [delta] needs, at the shop experiment. *)
Lemma shop_delta_ready :
  delta_ready Demo.shop_experiment Demo.shop_data Demo.shop_refs "A"
    (elements (list_to_set ["A"; "B"; "A"; "B"] : gset string))
    ["conversion"; "orders"] ["A"; "B"; "A"; "B"].
Proof.
  assert (forall kpi, kpi ∈ ["conversion"; "orders"] ->
            exists c, get_col Demo.shop_data kpi = Some c /\ is_object c = false)
    as Hkpis.
  { intros kpi Hk.
    apply elem_of_cons in Hk as [->|Hk].
    { eexists. split; [vm_compute; reflexivity | reflexivity]. }
    apply elem_of_cons in Hk as [->|Hk].
    { eexists. split; [vm_compute; reflexivity | reflexivity]. }
    destruct (not_elem_of_nil _ Hk). }
  assert (forall kpi r, kpi ∈ ["conversion"; "orders"] ->
            Demo.shop_refs !! kpi = Some r ->
            exists c, get_col Demo.shop_data r = Some c /\ is_object c = false)
    as Hrefs.
  { assert (Demo.shop_refs = {[ "conversion" := "sessions" ]}) as ->
      by (vm_compute; reflexivity).
    intros kpi r Hk.
    apply elem_of_cons in Hk as [->|Hk].
    { rewrite lookup_singleton_eq. intros Hs. inversion Hs.
      eexists. split; [vm_compute; reflexivity | reflexivity]. }
    apply elem_of_cons in Hk as [->|Hk].
    { rewrite lookup_singleton_ne by discriminate. discriminate. }
    destruct (not_elem_of_nil _ Hk). }
  assert (forall v, v ∈ elements (list_to_set ["A"; "B"; "A"; "B"] : gset string) ->
            2 <= occurrences ["A"; "B"; "A"; "B"] v) as Hnames.
  { intros v Hv. apply elem_of_elements in Hv.
    pose proof (proj1 (elem_of_list_to_set _ _) Hv) as Hin.
    repeat (apply elem_of_cons in Hin as [->|Hin]; [vm_compute; lia|]).
    destruct (not_elem_of_nil _ Hin). }
  assert (2 <= occurrences ["A"; "B"; "A"; "B"] "A") as Hctrl by (vm_compute; lia).
  unfold delta_ready.
  split; [vm_compute; reflexivity|]. split; [vm_compute; reflexivity|].
  split; [vm_compute; reflexivity|]. split; [vm_compute; reflexivity|].
  split; [vm_compute; reflexivity|]. split; [vm_compute; reflexivity|].
  split; [vm_compute; reflexivity|].
  split; [exact Hctrl|]. split; [exact Hnames|]. split; [exact Hkpis | exact Hrefs].
Qed.

(** X2 at the shop experiment. *)
Lemma constructed_columns_witness :
  Experiment "A" Demo.shop ∅ (Some ["conversion"; "orders"]) [Demo.conversion]
  = Return Demo.shop_experiment
  /\ exists data',
       getattr Demo.shop_experiment "data" = Return (AFrame data')
       /\ has_col data' "sessions" = true
       /\ has_col data' "conversion" = true
       /\ get_col data' "orders" = get_col Demo.shop "orders".
Proof.
  assert (has_col Demo.shop "sessions" = true) as Hs by reflexivity.
  assert (Demo.conversion ∈ [Demo.conversion]) as Hk by left.
  assert ("orders" ∉ map name [Demo.conversion]) as Hno
    by (apply (bool_decide_unpack _); vm_compute; reflexivity).
  pose proof shop_constructed as H.
  destruct (constructed_columns (FL := Demo.float64) (HO := Demo.host) "A" Demo.shop ∅
              (Some ["conversion"; "orders"]) [Demo.conversion] Demo.shop_experiment H)
    as (data' & Hd & Hcols & Hder & _ & Hsame).
  split; [exact H|]. exists data'. split; [exact Hd|]. split; [exact (Hcols _ Hs)|].
  split; [exact (Hder _ Hk) | exact (Hsame _ Hno)].
Defined.

(** X3 at the shop experiment: the variants are A and B. *)
Lemma constructed_variantNames_witness :
  Experiment "A" Demo.shop ∅ (Some ["conversion"; "orders"]) [Demo.conversion]
  = Return Demo.shop_experiment
  /\ get_col Demo.shop "variant" = Some (ColStr ["A"; "B"; "A"; "B"])
  /\ exists names,
       getattr Demo.shop_experiment "variantNames" = Return (ANames names)
       /\ NoDup names
       /\ forall x, x ∈ names <-> x ∈ ["A"; "B"; "A"; "B"].
Proof.
  assert (get_col Demo.shop "variant" = Some (ColStr ["A"; "B"; "A"; "B"])) as Hv
    by reflexivity.
  pose proof shop_constructed as H.
  split; [exact H|]. split; [exact Hv|].
  exact (constructed_variantNames (FL := Demo.float64) (HO := Demo.host) "A" Demo.shop ∅
           (Some ["conversion"; "orders"]) [Demo.conversion] Demo.shop_experiment
           ["A"; "B"; "A"; "B"] H Hv).
Defined.

(** X4 at the shop experiment. *)
Lemma str_always_raises_witness :
  Experiment "A" Demo.shop ∅ (Some ["conversion"; "orders"]) [Demo.conversion]
  = Return Demo.shop_experiment
  /\ __str__ Demo.shop_experiment = Raise (AttributeError "variant_names")
  /\ exists ex, __str__ Demo.legacy_instance = Raise ex.
Proof.
  pose proof shop_constructed as H.
  destruct (str_always_raises (FL := Demo.float64) (HO := Demo.host) "A" Demo.shop ∅
              (Some ["conversion"; "orders"]) [Demo.conversion] Demo.shop_experiment H)
    as [Hstr Hall].
  split; [exact H|]. split; [exact Hstr | exact (Hall Demo.legacy_instance)].
Defined.

(** X5 at [total = orders+sessions]. *)
Lemma reference_of_formula_without_division_witness :
  Experiment "A" Demo.shop ∅ (Some ["total"]) [Demo.total] = Return Demo.total_experiment
  /\ [Demo.total] !! 0 = Some Demo.total
  /\ no_slash (formula Demo.total) = true
  /\ exists refs,
       getattr Demo.total_experiment "referenceKpis" = Return (ADict refs)
       /\ refs !! "total" = Some "orders+sessions"
       /\ _getWeights Demo.total_experiment "total" "A" = Raise (KeyError "orders+sessions").
Proof.
  assert (forall j k', 0 < j -> [Demo.total] !! j = Some k' -> name k' <> name Demo.total)
    as Hlast.
  { intros [|j] k' Hj Hk'; [lia | discriminate Hk']. }
  assert (no_slash (formula Demo.total) = true) as Hs by reflexivity.
  assert ("A" ∈ ["A"; "B"; "A"; "B"]) as Hin by left.
  assert (Experiment "A" Demo.shop ∅ (Some ["total"]) [Demo.total]
          = Return Demo.total_experiment) as H
    by (vm_cast_no_check (eq_refl (Return Demo.total_experiment))).
  destruct (reference_of_formula_without_division (FL := Demo.float64) (HO := Demo.host)
              "A" Demo.shop ∅ (Some ["total"]) [Demo.total] Demo.total_experiment 0
              Demo.total H eq_refl Hlast Hs) as (data' & refs & Hd & Hr & Href & Hw).
  split; [exact H|]. split; [reflexivity|]. split; [exact Hs|].
  exists refs. split; [exact Hr|]. split; [exact Href|].
  apply (Hw ["A"; "B"; "A"; "B"] "A"); [| |exact Hin|].
  - clear H Hw Hr Href. vm_compute in Hd. injection Hd as <-. vm_compute. reflexivity.
  - clear H Hw Hr Href. vm_compute in Hd. injection Hd as <-. vm_compute. reflexivity.
  - clear H Hw Hr Href. vm_compute in Hd. injection Hd as <-. vm_compute. reflexivity.
Defined.

(** X7 at the shop table with the control variant Z. *)
Lemma delta_control_absent_witness :
  Experiment "Z" Demo.shop ∅ (Some ["orders"]) [] = Return Demo.control_z_experiment
  /\ ("Z" ∉ ["A"; "B"; "A"; "B"])
  /\ delta Demo.control_z_experiment "fixed_horizon" () = Raise (KeyError "Z").
Proof.
  assert ("Z" ∉ ["A"; "B"; "A"; "B"]) as Hz
    by (apply (bool_decide_unpack _); vm_compute; reflexivity).
  assert ("orders" <> "variant") as Hne by discriminate.
  assert (workerTable "fixed_horizon" = Some make_delta) as Hm by reflexivity.
  assert (reportKpiNames_or (Some ["orders"]) Demo.shop = ["orders"]) as Hk by reflexivity.
  assert (get_col Demo.shop "variant" = Some (ColStr ["A"; "B"; "A"; "B"])) as Hv
    by reflexivity.
  assert (has_col Demo.shop "index" && has_col Demo.shop "level_0" = false) as Hreset
    by reflexivity.
  assert (Demo.control_z_experiment !! "data" = Some (AFrame Demo.shop)) as Hd
    by (vm_compute; reflexivity).
  assert (Experiment "Z" Demo.shop ∅ (Some ["orders"]) [] = Return Demo.control_z_experiment)
    as H by (vm_cast_no_check (eq_refl (Return Demo.control_z_experiment))).
  split; [exact H|]. split; [exact Hz|].
  exact (delta_control_absent (FL := Demo.float64) (HO := Demo.host) "Z" Demo.shop ∅
           (Some ["orders"]) [] Demo.control_z_experiment Demo.shop "fixed_horizon"
           make_delta () "orders" [] ["A"; "B"; "A"; "B"] H Hd Hreset Hm Hk Hne Hv Hz).
Defined.

(** X8 at the shop experiment: the orders of variant B. *)
Lemma getKPIbyNameAndVariant_returns_iff_witness :
  Demo.shop_experiment !! "data" = Some (AFrame Demo.shop_data)
  /\ Forall (fun nc => col_len nc.2 = nrows Demo.shop_data) Demo.shop_data
  /\ (exists c, getKPIbyNameAndVariant Demo.shop_experiment "orders" "B" = Return c).
Proof.
  assert (Forall (fun nc => col_len nc.2 = nrows Demo.shop_data) Demo.shop_data) as Hrect
    by (apply (bool_decide_unpack _); vm_compute; reflexivity).
  assert (has_col Demo.shop_data "index" && has_col Demo.shop_data "level_0" = false
          /\ exists v, get_col Demo.shop_data "variant" = Some v
                /\ "B" ∈ col_labels v
                /\ "orders" <> "variant"
                /\ (is_Some (get_col Demo.shop_data "orders")
                    \/ "orders" = if has_col Demo.shop_data "index"
                                  then "level_0" else "index")) as Hright.
  { split; [vm_compute; reflexivity|].
    exists (ColStr ["A"; "B"; "A"; "B"]). split; [vm_compute; reflexivity|].
    split; [right; left|]. split; [discriminate|].
    left. eexists. vm_compute. reflexivity. }
  assert (Demo.shop_experiment !! "data" = Some (AFrame Demo.shop_data)) as Hd
    by (vm_compute; reflexivity).
  split; [exact Hd|]. split; [exact Hrect|].
  exact (proj2 (getKPIbyNameAndVariant_returns_iff (FL := Demo.float64)
                  Demo.shop_experiment Demo.shop_data "orders" "B" Hd Hrect) Hright).
Defined.

(** X9 at the shop experiment. *)
Lemma delta_keys_witness :
  delta_ready Demo.shop_experiment Demo.shop_data Demo.shop_refs "A"
    (elements (list_to_set ["A"; "B"; "A"; "B"] : gset string))
    ["conversion"; "orders"] ["A"; "B"; "A"; "B"]
  /\ workerTable "fixed_horizon" = Some make_delta
  /\ exists result,
       delta Demo.shop_experiment "fixed_horizon" () = Return result
       /\ (forall kpi, is_Some (result !! kpi) <-> kpi ∈ ["conversion"; "orders"])
       /\ (forall kpi inner, result !! kpi = Some inner ->
             forall v, is_Some (inner !! v)
                       <-> v ∈ elements (list_to_set ["A"; "B"; "A"; "B"] : gset string)).
Proof.
  assert (workerTable "fixed_horizon" = Some make_delta) as Hm by reflexivity.
  split; [exact shop_delta_ready|]. split; [exact Hm|].
  exact (delta_keys (FL := Demo.float64) (HO := Demo.host) Demo.shop_experiment
           Demo.shop_data Demo.shop_refs "A" _ ["conversion"; "orders"] ["A"; "B"; "A"; "B"]
           "fixed_horizon" make_delta () shop_delta_ready Hm).
Defined.

(** X10 at the shop experiment: the entry of (orders, A). *)
Lemma delta_control_against_itself_witness :
  delta_ready Demo.shop_experiment Demo.shop_data Demo.shop_refs "A"
    (elements (list_to_set ["A"; "B"; "A"; "B"] : gset string))
    ["conversion"; "orders"] ["A"; "B"; "A"; "B"]
  /\ "A" ∈ elements (list_to_set ["A"; "B"; "A"; "B"] : gset string)
  /\ exists result inner y,
       delta Demo.shop_experiment "fixed_horizon" () = Return result
       /\ result !! "orders" = Some inner
       /\ weighted Demo.shop_experiment "orders" "A" = Return (VSeries y)
       /\ inner !! "A" = Some {| controlVariant := "A"; treatmentVariant := "A";
                                deltaStatistics := make_delta () y y |}.
Proof.
  assert (workerTable "fixed_horizon" = Some make_delta) as Hm by reflexivity.
  assert ("A" ∈ elements (list_to_set ["A"; "B"; "A"; "B"] : gset string)) as Hin.
  { apply elem_of_elements, elem_of_list_to_set. left. }
  assert ("orders" ∈ ["conversion"; "orders"]) as Hk by (right; left).
  destruct (delta_control_against_itself (FL := Demo.float64) (HO := Demo.host)
              Demo.shop_experiment Demo.shop_data Demo.shop_refs "A" _
              ["conversion"; "orders"] ["A"; "B"; "A"; "B"]
              "fixed_horizon" make_delta () shop_delta_ready Hm Hin) as (result & Hdelta & Hall).
  destruct (Hall "orders" Hk) as (inner & y & Hinner & Hy & Hentry).
  split; [exact shop_delta_ready|]. split; [exact Hin|].
  exists result, inner, y. split; [exact Hdelta|]. split; [exact Hinner|].
  split; [exact Hy | exact Hentry].
Defined.

(** X11 at the orders of the shop experiment: the selections for A and
    B hold the four values. *)
Lemma variant_selections_partition_witness :
  NoDup ["A"; "B"]
  /\ (forall v, v ∈ ["A"; "B"] <-> v ∈ ["A"; "B"; "A"; "B"])
  /\ exists sel : string -> list float,
       (forall v, v ∈ ["A"; "B"] ->
          getKPIbyNameAndVariant Demo.shop_experiment "orders" v
          = Return (Series (ColNum (sel v))))
       /\ concat (map sel ["A"; "B"]) ≡ₚ [1; 0; 3; 2]%float.
Proof.
  assert (NoDup ["A"; "B"]) as Hnd by (apply (bool_decide_unpack _); vm_compute; reflexivity).
  assert (forall v, v ∈ ["A"; "B"] <-> v ∈ ["A"; "B"; "A"; "B"]) as Hks.
  { intros v. rewrite !elem_of_cons. rewrite elem_of_nil. tauto. }
  assert (forall v, v ∈ ["A"; "B"] -> 2 <= occurrences ["A"; "B"; "A"; "B"] v) as Htwo.
  { intros v Hv. repeat (apply elem_of_cons in Hv as [->|Hv]; [vm_compute; lia|]).
    destruct (not_elem_of_nil _ Hv). }
  assert ("orders" <> "variant") as Hne by discriminate.
  assert (length ["A"; "B"; "A"; "B"] = length [1; 0; 3; 2]%float) as Hlen by reflexivity.
  assert (has_col Demo.shop_data "index" && has_col Demo.shop_data "level_0" = false)
    as Hreset by (vm_compute; reflexivity).
  assert (get_col Demo.shop_data "variant" = Some (ColStr ["A"; "B"; "A"; "B"])) as Hv
    by (vm_compute; reflexivity).
  assert (get_col Demo.shop_data "orders" = Some (ColNum [1; 0; 3; 2]%float)) as Hc
    by (vm_compute; reflexivity).
  assert (Demo.shop_experiment !! "data" = Some (AFrame Demo.shop_data)) as Hd
    by (vm_compute; reflexivity).
  split; [exact Hnd|]. split; [exact Hks|].
  exact (variant_selections_partition (FL := Demo.float64)
           Demo.shop_experiment Demo.shop_data ["A"; "B"; "A"; "B"] "orders"
           [1; 0; 3; 2]%float ["A"; "B"] Hd Hreset Hv Hne Hc Hlen Hnd Hks Htwo).
Defined.

(** X12 at the shop table: the reported KPIs are its two float columns. *)
Lemma default_reported_kpis_witness :
  ((None : option (list string)) = None \/ (None : option (list string)) = Some [])
  /\ exists e, Experiment "A" Demo.shop ∅ None [] = Return e
       /\ getattr e "reportKpiNames" = Return (ANames ["orders"; "sessions"]).
Proof.
  assert ((None : option (list string)) = None \/ (None : option (list string)) = Some [])
    as Hrk by (left; reflexivity).
  assert (has_col Demo.shop "entity" = true /\ has_col Demo.shop "variant" = true) as Hcols
    by (split; reflexivity).
  destruct (default_reported_kpis (FL := Demo.float64) (HO := Demo.host) "A" Demo.shop ∅
              None Hrk) as [Hiff Hnames].
  destruct (proj2 Hiff Hcols) as [e He].
  split; [exact Hrk|]. exists e. split; [exact He | exact (Hnames e He)].
Defined.

(** X13 at a formula with a number in it: the name found in [1e5] is [e5]. *)
Lemma findall_identifiers_witness :
  "e5" ∈ Re.findall Re.kpiNamePattern "orders/sess_1 + 1e5"
  /\ identifier "e5" = true.
Proof.
  assert ("e5" ∈ Re.findall Re.kpiNamePattern "orders/sess_1 + 1e5") as Hin
    by (apply (bool_decide_unpack _); vm_compute; reflexivity).
  split; [exact Hin|].
  exact (findall_identifiers "orders/sess_1 + 1e5" "e5" Hin).
Defined.

(** X14 at [orders/sessions]. *)
Lemma ratio_formula_names_witness :
  identifier "orders" = true
  /\ identifier "sessions" = true
  /\ Re.findall Re.kpiNamePattern "orders/sessions" = ["orders"; "sessions"]
  /\ Re.sub Re.kpiNamePattern (fun g => "self.data." ++ g ++ ".astype(float)")
       "orders/sessions"
     = "self.data.orders.astype(float)/self.data.sessions.astype(float)".
Proof.
  assert (identifier "orders" = true) as Hn by reflexivity.
  assert (identifier "sessions" = true) as Hd by reflexivity.
  split; [exact Hn|]. split; [exact Hd|].
  exact (ratio_formula_names "orders" "sessions" Hn Hd).
Defined.

(** X15 at a frame with a categorical feature: the binning created for
    the city column is not numerical. *)
Lemma binned_deltas_cumulative_needs_numerical_witness :
  is_NumericalBinning (create_binning (ColStr ["Berlin"; "Berlin"; "Dublin"; "Dublin"]) 4)
  = false
  /\ _binned_deltas Demo.results_imported Demo.by_city ["B"; "A"] 4 None true "{standard}"
       (Demo.mean_delta ())
     = Raise (ValueError "Cannot calculate cumulative deltas for non-numerical binnings").
Proof.
  assert (is_NumericalBinning
            (create_binning (ColStr ["Berlin"; "Berlin"; "Dublin"; "Dublin"]) 4) = false)
    as Hb by reflexivity.
  split; [exact Hb|].
  apply (binned_deltas_cumulative_needs_numerical (FL := Demo.float64) (HO := Demo.host)
           Demo.results_imported Demo.by_city ["B"; "A"] 4 None "{standard}"
           (Demo.mean_delta ())
           (create_binning (ColStr ["Berlin"; "Berlin"; "Dublin"; "Dublin"]) 4)).
  - right. split; [reflexivity|].
    exists ("city", ColStr ["Berlin"; "Berlin"; "Dublin"; "Dublin"]).
    split; reflexivity.
  - exact Hb.
Defined.

(** X16 at the namespace of the module. *)
Lemma engine_needs_Results_witness :
  Results module_globals = None
  /\ raises (_subgroup_deltas module_globals Demo.by_age ["dummy"; "A"] 4
               (Demo.mean_delta ())) = true
  /\ raises (_time_dependent_deltas module_globals Demo.by_age ["B"; "A"] 1 true
               (Demo.mean_delta ())) = true.
Proof.
  assert (Results (FL := Demo.float64) (HO := Demo.host) module_globals = None) as Hg
    by reflexivity.
  destruct (engine_needs_Results (FL := Demo.float64) (HO := Demo.host) module_globals Hg)
    as (_ & Hsub & Htime).
  split; [exact Hg|]. split; [apply Hsub | apply Htime].
Defined.

(** X17 at the frame of three variants over two age groups. *)
Lemma bins_partition_rows_witness :
  rectangular Demo.by_age_binned
  /\ (forall a b : Label, label_eq a b = true <-> a = b)
  /\ concat (map (fun b => rows (bin_subset false Demo.by_age_binned b))
               (unique (b_bins Demo.by_age_binned)))
     ≡ₚ rows Demo.by_age_binned.
Proof.
  assert (rectangular Demo.by_age_binned) as Hrect by (repeat constructor).
  assert (forall a b : Label, label_eq a b = true <-> a = b) as Heq
    by (intros a b; apply bool_decide_eq_true).
  split; [exact Hrect|]. split; [exact Heq|].
  exact (bins_partition_rows (FL := Demo.float64) (HO := Demo.host)
           Demo.by_age_binned Hrect Heq).
Defined.

(** X18 at the same frame: the subset of bin 1 within that of bin 2,
    which is the whole frame. *)
Lemma cumulative_subsets_grow_witness :
  rectangular Demo.by_age_binned
  /\ rows (bin_subset true Demo.by_age_binned (inl 1%Z))
     `sublist_of` rows (bin_subset true Demo.by_age_binned (inl 2%Z))
  /\ rows (bin_subset true Demo.by_age_binned (inl 2%Z)) = rows Demo.by_age_binned.
Proof.
  assert (rectangular Demo.by_age_binned) as Hrect by (repeat constructor).
  assert (forall l : Label, l ∈ b_bins Demo.by_age_binned -> label_le l (inl 2%Z) = true)
    as Hmax.
  { intros l Hl.
    repeat (apply elem_of_cons in Hl as [->|Hl]; [reflexivity|]).
    destruct (not_elem_of_nil _ Hl). }
  destruct (cumulative_subsets_grow (FL := Demo.float64) (HO := Demo.host)
              Demo.by_age_binned (inl 1%Z) (inl 2%Z) Hrect (fun l Hl _ => Hmax l Hl))
    as [Hsub Hall].
  split; [exact Hrect|]. split; [exact Hsub | exact (Hall Hmax)].
Defined.

(** X19 at an instance with a [kpis_time] frame indexed by entity,
    variant and time, the variant subset being the baseline alone. *)
Lemma trend_without_comparison_raises_witness :
  "time_since_treatment" ∈ columns Demo.by_day_index
  /\ ({[ "A" ]} : gset string) ⊆ {[ "A" ]}
  /\ trend Demo.results_imported Demo.trend_instance (Some ["orders"])
       (Some (PySet {[ "A" ]})) 1 true true [] 20 10000 false
     = Raise (NameError "res_obj").
Proof.
  assert ("time_since_treatment" ∈ columns Demo.by_day_index) as Htime
    by (right; right; left).
  assert (({[ "A" ]} : gset string) ⊆ {[ "A" ]}) as Hsub by (intros x Hx; exact Hx).
  split; [exact Htime|]. split; [exact Hsub|].
  eapply (trend_without_comparison_raises (FL := Demo.float64) (HO := Demo.host)
            Demo.results_imported _ Demo.trend_instance ∅ Demo.by_day_index
            Demo.by_day_columns "A" ["orders"] {[ "A" ]}).
  - reflexivity.
  - vm_compute. reflexivity.
  - vm_compute. reflexivity.
  - exact Htime.
  - vm_compute. reflexivity.
  - right. exact Hsub.
Defined.

(** X21 at the frame of three variants: the block of the baseline A
    against itself is there. *)
Lemma feature_check_every_variant_witness :
  Demo.by_age !! 2 = Some ("orders", ColNum [1; 2; 4; 3; 5; 9]%float)
  /\ get_col Demo.by_age "variant" = Some (ColStr ["A"; "B"; "C"; "A"; "B"; "C"])
  /\ exists t,
       _feature_check_all_variants Demo.results_imported Demo.by_age "A" (Demo.mean_delta ())
       = Return t
       /\ ("A", None, ("orders", 0%float)) ∈ t_rows t.
Proof.
  assert (Demo.by_age !! 2 = Some ("orders", ColNum [1; 2; 4; 3; 5; 9]%float)) as H2
    by reflexivity.
  assert (get_col Demo.by_age "variant" = Some (ColStr ["A"; "B"; "C"; "A"; "B"; "C"])) as Hv
    by reflexivity.
  assert ("A" ∈ ["A"; "B"; "C"; "A"; "B"; "C"]) as Hin by left.
  destruct (feature_check_every_variant (FL := Demo.float64) (HO := Demo.host)
              Demo.results_imported _ Demo.by_age "A" (Demo.mean_delta ())
              "orders" (ColNum (FL := Demo.float64) [1; 2; 4; 3; 5; 9]%float)
              ["A"; "B"; "C"; "A"; "B"; "C"] eq_refl H2 Hv) as (t & Ht & Hrows).
  split; [exact H2|]. split; [exact Hv|]. exists t. split; [exact Ht|].
  apply Hrows. exists "A". split; [exact Hin|]. vm_compute. reflexivity.
Defined.
